(** * SFTP front-end over an object store: model of the request router

    A shallow embedding of the SFTP-to-S3 server (the [SFTPS3Server] class)
    and of its access-control module.  JavaScript strings are modelled as
    [string] (one character per code unit), JavaScript numbers that hold
    sizes, offsets, flags and handle ids as [Z], buffers as [list byte],
    the per-session [Map]s of open handles as [gmap Z _].

    The handlers are asynchronous JavaScript; every handler is written here
    as a program of the small [io] monad below, whose nodes are the
    observable steps of the code: a reply on the SFTP channel, an emitted
    event, a command sent to the object store (with the continuation that
    receives the store's answer), a read of the clock.  Requests of one
    session are run one after the other.  Calls to [_log] are omitted. *)

From Stdlib Require Import ZArith List String Ascii Bool Lia.
From Stdlib.Init Require Import Byte.
From Stdlib.Strings Require Byte.
From stdpp Require Import base option gmap strings list.
Import ListNotations.

Local Open Scope string_scope.
Local Open Scope Z_scope.

(* ===================================================================== *)
(** * JavaScript string primitives used by the server *)
(* ===================================================================== *)

Module Js.

(** [s.startsWith(p)] *)
Fixpoint startsWith (s p : string) : bool :=
  match p with
  | EmptyString => true
  | String c p' =>
      match s with
      | EmptyString => false
      | String d s' => Ascii.eqb c d && startsWith s' p'
      end
  end.

(** [s.substring(n)] for [0 <= n]: what is left after the first [n]
    characters (the empty string when [n] exceeds the length). *)
Fixpoint substringFrom (n : nat) (s : string) : string :=
  match n, s with
  | O, _ => s
  | S n', EmptyString => EmptyString
  | S n', String _ s' => substringFrom n' s'
  end.

(** [s.substring(0, n)] for [0 <= n]. *)
Fixpoint substringTo (n : nat) (s : string) : string :=
  match n, s with
  | O, _ => EmptyString
  | S n', EmptyString => EmptyString
  | S n', String c s' => String c (substringTo n' s')
  end.

(** [s.endsWith(p)] *)
Definition endsWith (s p : string) : bool :=
  (String.length p <=? String.length s)%nat &&
  String.eqb (substringFrom (String.length s - String.length p) s) p.

(** [s.includes(p)] *)
Fixpoint includes (s p : string) : bool :=
  startsWith s p ||
  match s with
  | EmptyString => false
  | String _ s' => includes s' p
  end.

(** [s.split(sep)] for a one-character separator: never empty,
    [''.split('/')] is [['']]. *)
Fixpoint split (sep : ascii) (s : string) : list string :=
  match s with
  | EmptyString => [EmptyString]
  | String c s' =>
      if Ascii.eqb c sep then EmptyString :: split sep s'
      else match split sep s' with
           | h :: t => String c h :: t
           | [] => [String c EmptyString]
           end
  end.

(** [parts.join(sep)] *)
Fixpoint join (sep : string) (parts : list string) : string :=
  match parts with
  | [] => EmptyString
  | [p] => p
  | p :: rest => p ++ sep ++ join sep rest
  end.

Definition lowerChar (c : ascii) : ascii :=
  let n := nat_of_ascii c in
  if ((65 <=? n) && (n <=? 90))%nat then ascii_of_nat (n + 32) else c.

(** [s.toLowerCase()] on the ASCII letters; other code units are kept. *)
Fixpoint toLowerCase (s : string) : string :=
  match s with
  | EmptyString => EmptyString
  | String c s' => String (lowerChar c) (toLowerCase s')
  end.

Definition backslash : ascii := "\"%char.
Definition slash : ascii := "/"%char.

(** The regular expression dot: any code unit but a line terminator. *)
Definition regexDot (c : ascii) : bool :=
  negb (Ascii.eqb c "010"%char || Ascii.eqb c "013"%char).

(** [p.replace(/\\\\/g, '/')]: every pair of backslashes, scanning from
    the left, becomes one slash. *)
Fixpoint replaceDoubleBackslash (s : string) : string :=
  match s with
  | String a ((String b rest) as tl) =>
      if Ascii.eqb a backslash && Ascii.eqb b backslash
      then String slash (replaceDoubleBackslash rest)
      else String a (replaceDoubleBackslash tl)
  | _ => s
  end.

(** [p.replace(/\\.\\/g, '/')]: backslash, one character, backslash
    becomes one slash. *)
Fixpoint replaceBackslashDotBackslash (s : string) : string :=
  match s with
  | String a ((String b ((String c rest) as tl2)) as tl) =>
      if Ascii.eqb a backslash && regexDot b && Ascii.eqb c backslash
      then String slash (replaceBackslashDotBackslash rest)
      else String a (replaceBackslashDotBackslash tl)
  | String a tl => String a (replaceBackslashDotBackslash tl)
  | EmptyString => EmptyString
  end.

(** [p.replace(/\\/g, '/')]: every backslash becomes a slash. *)
Fixpoint replaceBackslash (s : string) : string :=
  match s with
  | EmptyString => EmptyString
  | String a tl =>
      String (if Ascii.eqb a backslash then slash else a) (replaceBackslash tl)
  end.

End Js.

(* ===================================================================== *)
(** * Node's [path] module (POSIX flavour) *)
(* ===================================================================== *)

(** The server calls [path.normalize], [path.dirname] and [path.basename]
    of the Node runtime.  They are written here from Node's documented
    POSIX algorithms: [normalize] drops empty and [.] segments, lets [..]
    cancel the segment before it, keeps a leading and a trailing slash. *)

Module Path.

Definition isDotDot (seg : string) : bool := String.eqb seg "..".

(** The segments kept so far are held last-first in [acc]. *)
Fixpoint normalizeSegments (allowAboveRoot : bool) (acc segs : list string)
  : list string :=
  match segs with
  | [] => rev acc
  | seg :: rest =>
      if String.eqb seg "" || String.eqb seg "." then
        normalizeSegments allowAboveRoot acc rest
      else if isDotDot seg then
        match acc with
        | last :: acc' =>
            if isDotDot last
            then normalizeSegments allowAboveRoot
                   (if allowAboveRoot then seg :: acc else acc) rest
            else normalizeSegments allowAboveRoot acc' rest
        | [] =>
            normalizeSegments allowAboveRoot
              (if allowAboveRoot then [seg] else []) rest
        end
      else normalizeSegments allowAboveRoot (seg :: acc) rest
  end.

Definition normalize (p : string) : string :=
  if String.eqb p "" then "."
  else
    let isAbsolute := Js.startsWith p "/" in
    let trailingSeparator := Js.endsWith p "/" in
    let res :=
      Js.join "/" (normalizeSegments (negb isAbsolute) [] (Js.split Js.slash p)) in
    if String.eqb res "" then
      if isAbsolute then "/" else if trailingSeparator then "./" else "."
    else
      let res := if trailingSeparator then res ++ "/" else res in
      if isAbsolute then "/" ++ res else res.

Definition isSlash (c : ascii) : bool := Ascii.eqb c Js.slash.

Fixpoint dropWhile (f : ascii -> bool) (l : list ascii) : list ascii :=
  match l with
  | [] => []
  | c :: l' => if f c then dropWhile f l' else l
  end.

Fixpoint takeWhile (f : ascii -> bool) (l : list ascii) : list ascii :=
  match l with
  | [] => []
  | c :: l' => if f c then c :: takeWhile f l' else []
  end.

(** [path.dirname]: the scan runs from the last character down to the
    second one, skips the trailing slashes, then the last segment, and
    cuts at the slash found there. *)
Definition dirname (p : string) : string :=
  match p with
  | EmptyString => "."
  | String c0 rest =>
      let hasRoot := isSlash c0 in
      let back := rev (list_ascii_of_string rest) in
      let back := dropWhile (fun c => negb (isSlash c)) (dropWhile isSlash back) in
      match back with
      | [] => if hasRoot then "/" else "."
      | _ :: before =>
          match before with
          | [] => if hasRoot then "//" else String c0 EmptyString
          | _ => String c0 (string_of_list_ascii (rev before))
          end
      end
  end.

(** [path.basename]: the last segment, trailing slashes ignored. *)
Definition basename (p : string) : string :=
  let back := dropWhile isSlash (rev (list_ascii_of_string p)) in
  string_of_list_ascii (rev (takeWhile (fun c => negb (isSlash c)) back)).

End Path.

(* ===================================================================== *)
(** * Access control (the [accessControl] module) *)
(* ===================================================================== *)

Module AccessControl.

(** [allowedPaths]: the per-user lists, as the object literal has them.
    A lookup of a name the object does not own falls to [defaultPaths]
    (names of properties every JavaScript object inherits are outside
    this model). *)
Definition allowedPaths : list (string * list string) :=
  [ ("user", ["/"; "/user"; "/ledgers"; "/invoices"]) ].

Definition defaultPaths : list string := ["/"; "/ledgers"; "/invoices"].

Fixpoint lookupPaths (tbl : list (string * list string)) (username : string)
  : option (list string) :=
  match tbl with
  | [] => None
  | (u, ps) :: tbl' => if String.eqb u username then Some ps else lookupPaths tbl' username
  end.

(** [userPaths.includes(p)] *)
Definition includesPath (paths : list string) (p : string) : bool :=
  existsb (String.eqb p) paths.

Definition isPathAllowed (username path : string) : bool :=
  let userPaths :=
    match lookupPaths allowedPaths username with
    | Some ps => ps
    | None => defaultPaths
    end in
  let normalizedPath :=
    if Js.startsWith path "/" then path else "/" ++ path in
  if includesPath userPaths normalizedPath then true
  else if existsb (fun allowedPath =>
                     Js.startsWith normalizedPath (allowedPath ++ "/")
                     || String.eqb normalizedPath allowedPath) userPaths
  then true
  else if String.eqb normalizedPath ("/" ++ username)
          || Js.startsWith normalizedPath ("/" ++ username ++ "/")
  then true
  else if String.eqb normalizedPath "/ledgers" || String.eqb normalizedPath "/invoices"
          || Js.startsWith normalizedPath "/ledgers/"
          || Js.startsWith normalizedPath "/invoices/"
  then true
  else if negb (String.eqb normalizedPath "/") && Js.startsWith normalizedPath "/"
          && (length (Js.split Js.slash normalizedPath) =? 2)%nat
  then true
  else false.

(** [getAllowedPaths] *)
Definition getAllowedPaths (username : string) : list string :=
  match lookupPaths allowedPaths username with
  | Some ps => ps
  | None => defaultPaths
  end ++ ["/" ++ username].

End AccessControl.

(** The copy of the module under [config/]: shorter lists and no rule for
    the [/ledgers] and [/invoices] aliases. *)
Module ConfigAccessControl.

Definition allowedPaths : list (string * list string) :=
  [ ("user", ["/"; "/user"]) ].

Definition defaultPaths : list string := ["/"].

Definition isPathAllowed (username path : string) : bool :=
  let userPaths :=
    match AccessControl.lookupPaths allowedPaths username with
    | Some ps => ps
    | None => defaultPaths
    end in
  let normalizedPath :=
    if Js.startsWith path "/" then path else "/" ++ path in
  if AccessControl.includesPath userPaths normalizedPath then true
  else if existsb (fun allowedPath =>
                     Js.startsWith normalizedPath (allowedPath ++ "/")
                     || String.eqb normalizedPath allowedPath) userPaths
  then true
  else if String.eqb normalizedPath ("/" ++ username)
          || Js.startsWith normalizedPath ("/" ++ username ++ "/")
  then true
  else if negb (String.eqb normalizedPath "/") && Js.startsWith normalizedPath "/"
          && (length (Js.split Js.slash normalizedPath) =? 2)%nat
  then true
  else false.

End ConfigAccessControl.

(* ===================================================================== *)
(** * The SFTP server *)
(* ===================================================================== *)

Module Sftp.

(** ** Protocol constants *)

Inductive status :=
| OK | EOF | NO_SUCH_FILE | PERMISSION_DENIED | FAILURE
| BAD_MESSAGE | NO_CONNECTION | CONNECTION_LOST | OP_UNSUPPORTED.

(** [SFTP_STATUS_CODE] *)
Definition statusCode (s : status) : Z :=
  match s with
  | OK => 0 | EOF => 1 | NO_SUCH_FILE => 2 | PERMISSION_DENIED => 3
  | FAILURE => 4 | BAD_MESSAGE => 5 | NO_CONNECTION => 6
  | CONNECTION_LOST => 7 | OP_UNSUPPORTED => 8
  end.

(** [SFTP_OPEN_MODE] *)
Definition READ : Z := 1.
Definition WRITE : Z := 2.
Definition APPEND : Z := 4.
Definition CREATE : Z := 8.
Definition TRUNCATE : Z := 16.
Definition EXCLUDE : Z := 32.

(** [flags & bit], used as a condition *)
Definition hasFlag (flags bit : Z) : bool := negb (Z.land flags bit =? 0).

(** ** Configuration and collaborators *)

(** [config.sftp] *)
Record config := {
  userBasePath : string;
  defaultSubdirectories : list string;
  createDefaultSubdirs : bool
}.

Definition defaultConfig : config :=
  {| userBasePath := "users";
     defaultSubdirectories := ["invoices"; "ledgers"];
     createDefaultSubdirs := true |}.

(** What the constructor stores: the bucket, the access-control module
    ([this.accessControl]) and the configuration the file requires. *)
Record server := {
  bucketName : string;
  accessControl : string -> string -> bool;
  sftpConfig : config
}.

(** [authenticatedUser] *)
Record user := { username : string; path : string }.

(** One element of [response.Contents]; [IsDir] is the field the server
    itself adds to these objects (absent, hence falsy, at first). *)
Record s3obj := {
  Key : string;
  Size : Z;
  LastModified : Z;
  IsDir : bool
}.

Definition setDir (c : s3obj) (key : string) : s3obj :=
  {| Key := key; Size := Size c; LastModified := LastModified c; IsDir := true |}.

(** The commands of the object-store client the server sends. *)
Inductive s3cmd :=
| GetObject (bucket key : string) (rangeFirst rangeLast : Z)
| PutObject (bucket key : string) (body : list byte)
            (contentLength : option Z) (contentType : option string)
| DeleteObject (bucket key : string)
| ListObjectsV2 (bucket prefix : string)
| HeadObject (bucket key : string)
| CopyObject (bucket key copySource : string).

(** [response.Body]: a stream of chunks that ends or fails. *)
Inductive bodyStream :=
| BodyChunks (chunks : list (list byte))
| BodyError (e : string).

Record s3response := {
  Contents : option (list s3obj);
  Body : option bodyStream
}.

(** The promise of [s3Client.send]: resolved with a response or rejected
    with an error, of which the name is kept. *)
Inductive s3result :=
| Resolved (r : s3response)
| Rejected (errorName : string).

(** ** What a handler shows to the outside *)

Record attrs := {
  mode : Z; uid : Z; gid : Z; attrSize : Z; atime : Z; mtime : Z
}.

(** The [longname] of a directory entry is a line of text built from
    these parts (the dates are printed in the machine's locale). *)
Inductive longname :=
| ListingLine (isDir : bool) (size : Z) (lastModified : Z) (name : string)
| RootLine (name : string).

Record entry := {
  entryName : string;
  entryLongname : longname;
  entryAttrs : option attrs
}.

(** The events the server emits ([this.emit(name, payload)]). *)
Inductive event :=
| upload_error (path error username : string)
| file_uploaded (path username : string)
| directory_changed (path username action filename : string)
| file_downloaded (path username : string)
| file_deleted (path username : string)
| file_renamed (path oldPath username : string)
| protected_directory_deletion_blocked (username path : string) (timestamp : Z)
| protected_directory_rename_blocked (username oldPath newPath : string) (timestamp : Z)
| directory_creation_blocked (username path : string) (timestamp : Z)
| directory_deletion_blocked (username path : string) (timestamp : Z).

Inductive output :=
| TrackActivity (username : string)          (* this._trackUserActivity *)
| SftpStatus (reqid : Z) (code : status)     (* sftp.status *)
| SftpHandle (reqid : Z) (handle : list byte)(* sftp.handle *)
| SftpData (reqid : Z) (data : list byte)    (* sftp.data *)
| SftpName (reqid : Z) (entries : list entry)(* sftp.name *)
| SftpAttrs (reqid : Z) (a : attrs)          (* sftp.attrs *)
| Emit (e : event).                          (* this.emit *)

(** ** Handler programs *)

Inductive io (A : Type) : Type :=
| Ret (a : A)
| Out (o : output) (k : io A)
| Send (c : s3cmd) (k : s3result -> io A)   (* await this.s3Client.send(c) *)
| Now (k : Z -> io A)                       (* Date.now() *)
| Sleep (ms : Z) (k : io A)                 (* a timer of [ms] milliseconds *)
| Crash (e : string).                       (* an exception nobody catches *)

Arguments Ret {A} a.
Arguments Out {A} o k.
Arguments Send {A} c k.
Arguments Now {A} k.
Arguments Sleep {A} ms k.
Arguments Crash {A} e.

Fixpoint bind {A B : Type} (m : io A) (f : A -> io B) : io B :=
  match m with
  | Ret a => f a
  | Out o k => Out o (bind k f)
  | Send c k => Send c (fun r => bind (k r) f)
  | Now k => Now (fun t => bind (k t) f)
  | Sleep ms k => Sleep ms (bind k f)
  | Crash e => Crash e
  end.

Definition out (o : output) : io unit := Out o (Ret tt).
Definition send (c : s3cmd) : io s3result := Send c (fun r => Ret r).
Definition now : io Z := Now (fun t => Ret t).

Notation "'let*' x := m 'in' k" := (bind m (fun x => k))
  (at level 10, x name, m at level 100, k at level 200).
Notation "m ;; k" := (bind m (fun _ => k))
  (at level 100, k at level 200, right associativity).

(** ** Running a program against a store and a clock *)

(** The world a program runs in: how the store answers a command (and
    what it becomes), what the clock shows, how waiting changes it. *)
Record world (W : Type) := {
  worldSend : W -> s3cmd -> s3result * W;
  worldNow : W -> Z;
  worldSleep : W -> Z -> W
}.
Arguments worldSend {W} _ _ _.
Arguments worldNow {W} _ _.
Arguments worldSleep {W} _ _ _.

Inductive step :=
| Replied (o : output)
| Sent (c : s3cmd)
| Slept (ms : Z).

Inductive outcome (A : Type) :=
| Done (a : A)
| Crashed (e : string).
Arguments Done {A} a.
Arguments Crashed {A} e.

Fixpoint exec {W A : Type} (E : world W) (p : io A) (w : W)
  : list step * outcome A * W :=
  match p with
  | Ret a => ([], Done a, w)
  | Out o k =>
      let '(tr, r, w') := exec E k w in (Replied o :: tr, r, w')
  | Send c k =>
      let (res, w1) := worldSend E w c in
      let '(tr, r, w') := exec E (k res) w1 in (Sent c :: tr, r, w')
  | Now k => exec E (k (worldNow E w)) w
  | Sleep ms k =>
      let '(tr, r, w') := exec E k (worldSleep E w ms) in (Slept ms :: tr, r, w')
  | Crash e => ([], Crashed e, w)
  end.

(** The store commands of a trace, in the order they were sent. *)
Fixpoint storeCalls (tr : list step) : list s3cmd :=
  match tr with
  | [] => []
  | Sent c :: tr' => c :: storeCalls tr'
  | _ :: tr' => storeCalls tr'
  end.

(** ** Handles and per-handle state *)

Definition byteToZ (b : byte) : Z := Z.of_N (Byte.to_N b).

Definition byteOfZ (n : Z) : byte :=
  match Byte.of_N (Z.to_N (n mod 256)) with
  | Some b => b
  | None => x00
  end.

(** [handle.readUInt32BE(0)]; the handlers call it on 4-byte handles only. *)
Definition readUInt32BE (handle : list byte) : Z :=
  match handle with
  | [b0; b1; b2; b3] =>
      byteToZ b0 * 16777216 + byteToZ b1 * 65536 + byteToZ b2 * 256 + byteToZ b3
  | _ => 0
  end.

(** [Buffer.alloc(4)] then [handle.writeUInt32BE(handleId, 0)]: a
    [RangeError] outside [0, 2^32). *)
Definition writeUInt32BE (handleId : Z) : option (list byte) :=
  if (0 <=? handleId) && (handleId <? 4294967296)
  then Some [byteOfZ (handleId / 16777216); byteOfZ (handleId / 65536);
             byteOfZ (handleId / 256); byteOfZ handleId]
  else None.

(** An entry of [openFiles].  [_handleFileOpenRead] stores
    [flags, filename, size, fullname] (and the READ handler adds [read]);
    [_handleFileOpenWrite] stores [flags, filename, fullname, stream,
    uploadComplete, uploadError].  A field the object does not have is
    [None] (or [false] where only its truth is looked at).  [stream] holds
    the chunks that went through the [PassThrough] stream, oldest first. *)
Record fileState := {
  flags : Z;
  filename : string;
  fullname : string;
  size : option Z;
  read : bool;
  stream : option (list (list byte));
  uploadComplete : bool;
  uploadError : option string
}.

Definition newReadState (flags : Z) (filename : string) (size : Z) (fullname : string)
  : fileState :=
  {| flags := flags; filename := filename; fullname := fullname;
     size := Some size; read := false; stream := None;
     uploadComplete := false; uploadError := None |}.

Definition newWriteState (flags : Z) (filename fullname : string) : fileState :=
  {| flags := flags; filename := filename; fullname := fullname;
     size := None; read := false; stream := Some [];
     uploadComplete := false; uploadError := None |}.

Definition setRead (s : fileState) : fileState :=
  {| flags := flags s; filename := filename s; fullname := fullname s;
     size := size s; read := true; stream := stream s;
     uploadComplete := uploadComplete s; uploadError := uploadError s |}.

Definition setStream (s : fileState) (chunks : list (list byte)) : fileState :=
  {| flags := flags s; filename := filename s; fullname := fullname s;
     size := size s; read := read s; stream := Some chunks;
     uploadComplete := uploadComplete s; uploadError := uploadError s |}.

Definition setUploadComplete (s : fileState) : fileState :=
  {| flags := flags s; filename := filename s; fullname := fullname s;
     size := size s; read := read s; stream := stream s;
     uploadComplete := true; uploadError := uploadError s |}.

Definition setUploadError (s : fileState) (e : string) : fileState :=
  {| flags := flags s; filename := filename s; fullname := fullname s;
     size := size s; read := read s; stream := stream s;
     uploadComplete := uploadComplete s; uploadError := Some e |}.

(** An entry of [openDirs]. *)
Record dirState := {
  dirFullname : string;
  listings : list s3obj;
  dirUser : user;
  dirRead : bool
}.

Definition setDirRead (d : dirState) : dirState :=
  {| dirFullname := dirFullname d; listings := listings d;
     dirUser := dirUser d; dirRead := true |}.

(** The mutable state the handlers of one session share: the two handle
    tables and the handle counter of [_setupSFTPHandlers], and the
    server's [lastUploadTime]. *)
Record session := {
  openFiles : gmap Z fileState;
  openDirs : gmap Z dirState;
  handleCount : Z;
  lastUploadTime : Z
}.

Definition newSession : session :=
  {| openFiles := ∅; openDirs := ∅; handleCount := 0; lastUploadTime := 0 |}.

Definition withFiles (st : session) (files : gmap Z fileState) : session :=
  {| openFiles := files; openDirs := openDirs st;
     handleCount := handleCount st; lastUploadTime := lastUploadTime st |}.

Definition withDirs (st : session) (dirs : gmap Z dirState) : session :=
  {| openFiles := openFiles st; openDirs := dirs;
     handleCount := handleCount st; lastUploadTime := lastUploadTime st |}.

(** [handleCount++] *)
Definition bumpHandleCount (st : session) : session :=
  {| openFiles := openFiles st; openDirs := openDirs st;
     handleCount := handleCount st + 1; lastUploadTime := lastUploadTime st |}.

Definition withLastUploadTime (st : session) (t : Z) : session :=
  {| openFiles := openFiles st; openDirs := openDirs st;
     handleCount := handleCount st; lastUploadTime := t |}.

(** ** Path helpers of the class *)

(** [_isFileTypeAllowed] *)
Definition isFileTypeAllowed (filename : string) : bool :=
  let lowerFilename := Js.toLowerCase filename in
  if Js.startsWith lowerFilename "/ledgers/" || Js.startsWith lowerFilename "/invoices/"
     || String.eqb lowerFilename "/ledgers" || String.eqb lowerFilename "/invoices"
  then
    if negb (Js.endsWith lowerFilename ".pdf") then false
    else if String.eqb lowerFilename "/ledgers" || String.eqb lowerFilename "/invoices"
            || String.eqb lowerFilename "/ledgers/" || String.eqb lowerFilename "/invoices/"
            || Js.endsWith lowerFilename "/ledgers/" || Js.endsWith lowerFilename "/invoices/"
    then false
    else true
  else true.

(** The normalisation [_mapKey] and [_resolvePath] share. *)
Definition cleanPath (filename : string) : string :=
  let p := Js.replaceDoubleBackslash filename in
  let p := Js.replaceBackslashDotBackslash p in
  let p := Js.replaceBackslash p in
  let p := Path.normalize p in
  let p := Js.replaceBackslash p in
  if Js.startsWith p "/" then p else "/" ++ p.

(** [_mapKey] *)
Definition mapKey (userPath filename : string) : string :=
  let userPath := if String.eqb userPath "" then "users" else userPath in
  let p := cleanPath filename in
  if (String.eqb p "/ledgers" || String.eqb p "/invoices")
     && (2 <=? length (Js.split Js.slash userPath))%nat
  then userPath ++ p
  else userPath ++ p.

(** The test that opens the REMOVE and the RENAME handler. *)
Definition isProtectedPath (filePath : string) : bool :=
  String.eqb filePath "/ledgers" || String.eqb filePath "/invoices"
  || String.eqb filePath "/user/ledgers" || String.eqb filePath "/user/invoices"
  || Js.endsWith filePath "/ledgers/.directory"
  || Js.endsWith filePath "/invoices/.directory"
  || Js.endsWith filePath "/user/ledgers/.directory"
  || Js.endsWith filePath "/user/invoices/.directory".

(** ** Directory listings *)

(** The body of the callback [_processDirectoryListings] gives to
    [contents.filter], for the element [c] while the array is [contents]:
    whether [c] is kept, and [c] as the callback leaves it (the callback
    assigns to [c.Key] and [c.IsDir]). *)
Definition classifyListing (fullname : string) (contents : list s3obj) (c : s3obj)
  : bool * s3obj :=
  let f := Js.substringFrom (String.length fullname) (Key c) in
  let f := if Js.startsWith f "/" then f else "/" ++ f in
  if String.eqb f "/.dir" then (false, c)
  else
    let parts := Js.split Js.slash f in
    if negb (String.eqb (nth 0 parts "") "") then (false, c)
    else if (length parts =? 3)%nat && String.eqb (nth 2 parts "") ".directory" then
      if String.eqb (nth 1 parts "") "" then (false, c)
      else (true, setDir c (Js.substringTo (String.length (Key c) - 11) (Key c)))
    else if (length parts =? 2)%nat then (true, c)
    else
      let dirKey := fullname ++ "/" ++ nth 1 parts "" in
      if (2 <? length parts)%nat
         && existsb (fun other => negb (String.eqb (Key other) (Key c))
                                  && Js.startsWith (Key other) (dirKey ++ "/"))
                    contents
      then (true, setDir c dirKey)
      else if existsb (fun other => String.eqb (Key other) (Key c ++ "/.directory"))
                      contents
      then (true, setDir c (Key c))
      else (false, c).

(** [contents.filter(...)]: the callback sees the array with the
    elements before [c] as their own calls left them. *)
Fixpoint filterListings (fullname : string) (visited rest : list s3obj)
  : list s3obj :=
  match rest with
  | [] => []
  | c :: rest' =>
      let (keep, c') := classifyListing fullname (visited ++ c :: rest')%list c in
      let tail := filterListings fullname (visited ++ [c'])%list rest' in
      if keep then c' :: tail else tail
  end.

(** [_processDirectoryListings] *)
Definition processDirectoryListings (contents : list s3obj) (fullname : string)
  : list s3obj :=
  filterListings fullname [] contents.

(** The callback of [state.listings.map] in [_listDirectoryContents]. *)
Definition listingEntry (fullname : string) (l : s3obj) : entry :=
  let filename := Js.substringFrom (String.length fullname) (Key l) in
  let filename :=
    if Js.startsWith filename "/" then Js.substringFrom 1 filename else filename in
  let filename :=
    if Js.endsWith filename "/"
    then Js.substringTo (String.length filename - 1) filename else filename in
  let mode := if IsDir l then 493 else 420 in
  let size := if IsDir l then 0 else Size l in
  let lastModified := LastModified l in
  {| entryName := filename;
     entryLongname := ListingLine (IsDir l) size lastModified filename;
     entryAttrs := Some {| mode := mode; uid := 0; gid := 0; attrSize := size;
                           atime := lastModified; mtime := lastModified |} |}.

(** The filter over the [seen] set: the first entry of a name stays. *)
Fixpoint removeDuplicates (seen : gset string) (entries : list entry) : list entry :=
  match entries with
  | [] => []
  | e :: rest =>
      if decide (entryName e ∈ seen) then removeDuplicates seen rest
      else e :: removeDuplicates ({[ entryName e ]} ∪ seen) rest
  end.

Definition rootEntry (name : string) (t : Z) : entry :=
  {| entryName := name;
     entryLongname := RootLine name;
     entryAttrs := Some {| mode := 493; uid := 0; gid := 0; attrSize := 0;
                           atime := t; mtime := t |} |}.

(** [_listDirectoryContents] *)
Definition listDirectoryContents (reqid : Z) (state : dirState) : io unit :=
  let entries := map (listingEntry (dirFullname state)) (listings state) in
  let entries := removeDuplicates ∅ entries in
  if String.eqb (dirFullname state) "" then
    let username := username (dirUser state) in
    let* t := now in
    out (SftpName reqid [rootEntry username t; rootEntry "ledgers" t;
                         rootEntry "invoices" t])
  else out (SftpName reqid entries).

(** [_createDefaultSubdirectories]: one marker per configured name; the
    first rejected PUT ends the loop (the error is caught and logged). *)
Fixpoint createDefaultSubdirectories (srv : server) (username : string)
    (defaultDirs : list string) : io unit :=
  match defaultDirs with
  | [] => Ret tt
  | dirName :: rest =>
      let subDirKey :=
        userBasePath (sftpConfig srv) ++ "/" ++ username ++ "/" ++ dirName
        ++ "/.directory" in
      let* res := send (PutObject (bucketName srv) subDirKey
                          (list_byte_of_string
                             ("Directory marker for " ++ dirName ++ " folder"))
                          None (Some "application/x-directory")) in
      match res with
      | Resolved _ => createDefaultSubdirectories srv username rest
      | Rejected _ => Ret tt
      end
  end.

(** [_ensureUserDirectory] *)
Definition ensureUserDirectory (srv : server) (username : string) : io unit :=
  if createDefaultSubdirs (sftpConfig srv)
  then createDefaultSubdirectories srv username (defaultSubdirectories (sftpConfig srv))
  else Ret tt.

Definition failure (reqid : Z) (st : session) : io session :=
  out (SftpStatus reqid FAILURE) ;; Ret st.

(** [_openDirectory]; every rejected LIST and the [RangeError] of the
    handle land in its [catch], which answers FAILURE. *)
Definition openDirectory (srv : server) (u : user) (st : session) (reqid : Z)
    (fullname : string) (isRoot : bool) (handleId : Z) : io session :=
  let* res := send (ListObjectsV2 (bucketName srv) fullname) in
  match res with
  | Rejected _ => failure reqid st
  | Resolved response =>
      let contents := default [] (Contents response) in
      (if isRoot && (length contents =? 0)%nat
       then ensureUserDirectory srv (username u) else Ret tt) ;;
      let* t := now in
      let timeSinceUpload := t - lastUploadTime st in
      let* fresh :=
        (if timeSinceUpload <? 10000 then
           Sleep 1000
             (let* freshRes := send (ListObjectsV2 (bucketName srv) fullname) in
              match freshRes with
              | Rejected _ => Ret None
              | Resolved freshResponse => Ret (Some (default [] (Contents freshResponse)))
              end)
         else Ret (Some contents)) in
      match fresh with
      | None => failure reqid st
      | Some contents =>
          if (length contents =? 0)%nat && negb isRoot then
            out (SftpStatus reqid NO_SUCH_FILE) ;; Ret st
          else
            match writeUInt32BE handleId with
            | None => failure reqid st
            | Some handle =>
                let listings := processDirectoryListings contents fullname in
                let st' := withDirs st
                             (<[ handleId := {| dirFullname := fullname;
                                                listings := listings;
                                                dirUser := u;
                                                dirRead := false |} ]> (openDirs st)) in
                out (SftpHandle reqid handle) ;; Ret st'
            end
      end
  end.

(** ** Files: open, read, upload, close *)

Definition keyIs (key : string) (c : s3obj) : bool := String.eqb (Key c) key.

(** [_checkIfDirectory]: any error inside is caught and gives [false]
    (also the [TypeError] of a response without [Contents]). *)
Definition checkIfDirectory (srv : server) (fullname : string) : io bool :=
  let* res := send (ListObjectsV2 (bucketName srv) fullname) in
  match res with
  | Rejected _ => Ret false
  | Resolved response =>
      match Contents response with
      | None => Ret false
      | Some contents =>
          if existsb (keyIs (fullname ++ "/.directory")) contents then Ret true
          else if existsb (keyIs (fullname ++ "/.dir")) contents then Ret true
          else if existsb (fun c => negb (String.eqb (Key c) fullname)
                                    && Js.startsWith (Key c) (fullname ++ "/"))
                          contents
          then Ret true
          else Ret false
      end
  end.

(** [_handleFileOpenRead] *)
Definition handleFileOpenRead (srv : server) (st : session) (reqid : Z)
    (filename fullname : string) (flags handleId : Z) : io session :=
  let* res := send (ListObjectsV2 (bucketName srv) fullname) in
  match res with
  | Rejected _ => failure reqid st
  | Resolved response =>
      match Contents response with
      | None => failure reqid st
      | Some contents =>
          match find (keyIs fullname) contents with
          | None => out (SftpStatus reqid NO_SUCH_FILE) ;; Ret st
          | Some file =>
              match writeUInt32BE handleId with
              | None => failure reqid st
              | Some handle =>
                  let st' := withFiles st
                               (<[ handleId := newReadState flags filename (Size file)
                                                 fullname ]> (openFiles st)) in
                  out (SftpHandle reqid handle) ;; Ret st'
              end
          end
      end
  end.

(** [_handleFileOpenWrite] (with the listeners [_uploadToS3] puts on the
    new stream, which run at the end of the stream: see [uploadOnEnd]).
    The [RangeError] of the handle is caught by the OPEN handler. *)
Definition handleFileOpenWrite (st : session) (reqid : Z)
    (filename fullname : string) (flags handleId : Z) : io session :=
  match writeUInt32BE handleId with
  | None => failure reqid st
  | Some handle =>
      let st' := withFiles st
                   (<[ handleId := newWriteState flags filename fullname ]>
                      (openFiles st)) in
      out (SftpHandle reqid handle) ;; Ret st'
  end.

(** [_readFileFromS3] *)
Definition readFileFromS3 (srv : server) (reqid : Z) (fullname : string)
    (offset length : Z) : io unit :=
  let* res := send (GetObject (bucketName srv) fullname offset (offset + length - 1)) in
  match res with
  | Rejected _ => out (SftpStatus reqid FAILURE)
  | Resolved response =>
      match Body response with
      | None => out (SftpStatus reqid FAILURE)
      | Some (BodyError _) => out (SftpStatus reqid FAILURE)
      | Some (BodyChunks chunks) =>
          let buffer := concat chunks in
          if (List.length buffer =? 0)%nat then out (SftpStatus reqid FAILURE)
          else out (SftpData reqid buffer)
      end
  end.

(** [state.uploadError = e] on the entry of [handleId], if it is there. *)
Definition recordUploadError (st : session) (handleId : Z) (e : string) : session :=
  match openFiles st !! handleId with
  | Some state => withFiles st (<[ handleId := setUploadError state e ]> (openFiles st))
  | None => st
  end.

(** The listener [_uploadToS3] registers for the end of the stream;
    [chunks] is what its [data] listener collected. *)
Definition uploadOnEnd (srv : server) (u : user) (st : session)
    (chunks : list (list byte)) (fullname : string) (handleId : Z) : io session :=
  let buffer := concat chunks in
  if (List.length buffer =? 0)%nat then
    let e := "Empty files are not allowed" in
    out (Emit (upload_error fullname e (username u))) ;;
    Ret (recordUploadError st handleId e)
  else
    let lowerFullname := Js.toLowerCase fullname in
    if (Js.includes lowerFullname "/ledgers/" || Js.includes lowerFullname "/invoices/")
       && negb (Js.endsWith lowerFullname ".pdf")
    then
      let e := "Only PDF files are allowed in ledgers and invoices directories" in
      out (Emit (upload_error fullname e (username u))) ;;
      Ret (recordUploadError st handleId e)
    else
      let* res := send (PutObject (bucketName srv) fullname buffer
                          (Some (Z.of_nat (List.length buffer))) None) in
      match res with
      | Resolved _ =>
          match openFiles st !! handleId with
          | Some state =>
              let* t := now in
              let st' := withLastUploadTime
                           (withFiles st (<[ handleId := setUploadComplete state ]>
                                            (openFiles st))) t in
              out (Emit (file_uploaded fullname (username u))) ;;
              out (Emit (directory_changed (Path.dirname fullname) (username u)
                           "upload" (Path.basename fullname))) ;;
              Ret st'
          | None => Ret st
          end
      | Rejected e =>
          out (Emit (upload_error fullname e (username u))) ;;
          Ret (recordUploadError st handleId e)
      end.

Definition deleteFile (st : session) (handleId : Z) : session :=
  withFiles st (delete handleId (openFiles st)).

(** [checkUploadStatus] inside [_closeFile]: one look at the entry, and
    a new 100 ms timer while the upload has neither completed nor
    failed; [polls] bounds the number of such timers. *)
Fixpoint checkUploadStatus (polls : nat) (st : session) (reqid handleId : Z)
  : io session :=
  match openFiles st !! handleId with
  | None => Ret st
  | Some currentState =>
      if uploadComplete currentState then
        out (SftpStatus reqid OK) ;; Ret (deleteFile st handleId)
      else if bool_decide (is_Some (uploadError currentState)) then
        out (SftpStatus reqid FAILURE) ;; Ret (deleteFile st handleId)
      else
        match polls with
        | O => Ret st
        | S polls' => Sleep 100 (checkUploadStatus polls' st reqid handleId)
        end
  end.

(** [_closeFile].  For a write handle [state.stream.end()] makes the
    stream deliver what is buffered and then run [uploadOnEnd]; the
    timer of [checkUploadStatus] fires after that. *)
Definition closeFile (srv : server) (u : user) (st : session) (reqid : Z)
    (state : fileState) (handleId : Z) (polls : nat) : io session :=
  if hasFlag (flags state) WRITE then
    match stream state with
    | None => Crash "TypeError: state.stream is undefined"
    | Some chunks =>
        if uploadComplete state then
          out (SftpStatus reqid OK) ;; Ret (deleteFile st handleId)
        else if bool_decide (is_Some (uploadError state)) then
          out (SftpStatus reqid FAILURE) ;; Ret (deleteFile st handleId)
        else
          let* st1 := uploadOnEnd srv u st chunks (fullname state) handleId in
          Sleep 100 (checkUploadStatus polls st1 reqid handleId)
    end
  else
    out (Emit (file_downloaded (fullname state) (username u))) ;;
    out (SftpStatus reqid OK) ;;
    Ret (deleteFile st handleId).

(** ** The handlers [_setupSFTPHandlers] registers *)

(** A comparison with a field that may be [undefined] is false then. *)
Definition geDefined (a : Z) (b : option Z) : bool :=
  match b with Some b => b <=? a | None => false end.
Definition gtDefined (a : Z) (b : option Z) : bool :=
  match b with Some b => b <? a | None => false end.

Definition stripTrailingSeparator (filename : string) : string :=
  if Js.endsWith filename "\" || Js.endsWith filename "/"
  then Js.substringTo (String.length filename - 1) filename
  else filename.

Definition onOPEN (srv : server) (u : user) (st : session)
    (reqid : Z) (filename : string) (flags : Z) : io session :=
  out (TrackActivity (username u)) ;;
  let filename := stripTrailingSeparator filename in
  if negb (accessControl srv (username u) filename) then
    out (SftpStatus reqid PERMISSION_DENIED) ;; Ret st
  else if hasFlag flags WRITE && negb (isFileTypeAllowed filename) then
    out (SftpStatus reqid PERMISSION_DENIED) ;; Ret st
  else
    let fullname := mapKey (path u) filename in
    let* isDirectory := checkIfDirectory srv fullname in
    if isDirectory then out (SftpStatus reqid NO_SUCH_FILE) ;; Ret st
    else if hasFlag flags READ then
      handleFileOpenRead srv (bumpHandleCount st) reqid filename fullname flags
        (handleCount st)
    else if hasFlag flags WRITE then
      handleFileOpenWrite (bumpHandleCount st) reqid filename fullname flags
        (handleCount st)
    else out (SftpStatus reqid OP_UNSUPPORTED) ;; Ret st.

Definition onREAD (srv : server) (u : user) (st : session)
    (reqid : Z) (handle : list byte) (offset length : Z) : io session :=
  out (TrackActivity (username u)) ;;
  if negb (List.length handle =? 4)%nat then failure reqid st
  else
    let handleId := readUInt32BE handle in
    match openFiles st !! handleId with
    | None => failure reqid st
    | Some state =>
        if negb (hasFlag (flags state) READ) then failure reqid st
        else if read state then out (SftpStatus reqid EOF) ;; Ret st
        else if geDefined offset (size state) then out (SftpStatus reqid EOF) ;; Ret st
        else
          let length :=
            if gtDefined (offset + length) (size state)
            then default 0 (size state) - offset else length in
          if length =? 0 then out (SftpStatus reqid EOF) ;; Ret st
          else
            let st' :=
              if geDefined (offset + length) (size state)
              then withFiles st (<[ handleId := setRead state ]> (openFiles st))
              else st in
            readFileFromS3 srv reqid (fullname state) offset length ;;
            Ret st'
    end.

Definition onWRITE (u : user) (st : session)
    (reqid : Z) (handle : list byte) (offset : Z) (data : list byte) : io session :=
  out (TrackActivity (username u)) ;;
  if negb (List.length handle =? 4)%nat then failure reqid st
  else
    let handleId := readUInt32BE handle in
    match openFiles st !! handleId with
    | None => failure reqid st
    | Some state =>
        if negb (hasFlag (flags state) WRITE) then failure reqid st
        else
          match stream state with
          | None => Crash "TypeError: state.stream is undefined"
          | Some chunks =>
              let st' := withFiles st
                           (<[ handleId := setStream state (chunks ++ [data])%list ]>
                              (openFiles st)) in
              out (SftpStatus reqid OK) ;; Ret st'
          end
    end.

Definition onOPENDIR (srv : server) (u : user) (st : session)
    (reqid : Z) (dirPath : string) : io session :=
  out (TrackActivity (username u)) ;;
  if negb (accessControl srv (username u) dirPath) then
    out (SftpStatus reqid PERMISSION_DENIED) ;; Ret st
  else
    let fullname := mapKey (path u) dirPath in
    let isRoot := String.eqb dirPath "/" in
    openDirectory srv u (bumpHandleCount st) reqid fullname isRoot (handleCount st).

Definition onREADDIR (u : user) (st : session)
    (reqid : Z) (handle : list byte) : io session :=
  out (TrackActivity (username u)) ;;
  if negb (List.length handle =? 4)%nat then failure reqid st
  else
    let handleId := readUInt32BE handle in
    match openDirs st !! handleId with
    | None => failure reqid st
    | Some state =>
        if dirRead state then out (SftpStatus reqid EOF) ;; Ret st
        else
          let st' := withDirs st (<[ handleId := setDirRead state ]> (openDirs st)) in
          listDirectoryContents reqid (setDirRead state) ;;
          Ret st'
    end.

Definition onCLOSE (srv : server) (u : user) (polls : nat) (st : session)
    (reqid : Z) (handle : list byte) : io session :=
  out (TrackActivity (username u)) ;;
  if negb (List.length handle =? 4)%nat then failure reqid st
  else
    let handleId := readUInt32BE handle in
    match openFiles st !! handleId, openDirs st !! handleId with
    | None, None => failure reqid st
    | Some fileState, _ => closeFile srv u st reqid fileState handleId polls
    | None, Some _ =>
        out (SftpStatus reqid OK) ;;
        Ret (withDirs st (delete handleId (openDirs st)))
    end.

(** [_deleteFileFromS3] *)
Definition deleteFileFromS3 (srv : server) (u : user) (reqid : Z) (fullname : string)
  : io unit :=
  let* res := send (DeleteObject (bucketName srv) fullname) in
  match res with
  | Resolved _ =>
      out (Emit (file_deleted fullname (username u))) ;;
      out (SftpStatus reqid OK)
  | Rejected _ => out (SftpStatus reqid FAILURE)
  end.

Definition onREMOVE (srv : server) (u : user) (st : session)
    (reqid : Z) (filePath : string) : io session :=
  if isProtectedPath filePath then
    out (SftpStatus reqid PERMISSION_DENIED) ;;
    let* t := now in
    out (Emit (protected_directory_deletion_blocked (username u) filePath t)) ;;
    Ret st
  else if negb (accessControl srv (username u) filePath) then
    out (SftpStatus reqid PERMISSION_DENIED) ;; Ret st
  else
    let fullname := mapKey (path u) filePath in
    deleteFileFromS3 srv u reqid fullname ;;
    Ret st.

Definition onMKDIR (u : user) (st : session) (reqid : Z) (dirPath : string)
  : io session :=
  out (SftpStatus reqid PERMISSION_DENIED) ;;
  let* t := now in
  out (Emit (directory_creation_blocked (username u) dirPath t)) ;;
  Ret st.

Definition onRMDIR (u : user) (st : session) (reqid : Z) (dirPath : string)
  : io session :=
  out (SftpStatus reqid PERMISSION_DENIED) ;;
  let* t := now in
  out (Emit (directory_deletion_blocked (username u) dirPath t)) ;;
  Ret st.

(** [_renameInS3] *)
Definition renameInS3 (srv : server) (u : user) (reqid : Z)
    (fullnameOld fullnameNew : string) : io unit :=
  let* copied := send (CopyObject (bucketName srv) fullnameNew
                         (bucketName srv ++ "/" ++ fullnameOld)) in
  match copied with
  | Rejected _ => out (SftpStatus reqid FAILURE)
  | Resolved _ =>
      let* deleted := send (DeleteObject (bucketName srv) fullnameOld) in
      match deleted with
      | Rejected _ => out (SftpStatus reqid FAILURE)
      | Resolved _ =>
          out (Emit (file_renamed fullnameNew fullnameOld (username u))) ;;
          out (SftpStatus reqid OK)
      end
  end.

Definition onRENAME (srv : server) (u : user) (st : session)
    (reqid : Z) (oldPath newPath : string) : io session :=
  if isProtectedPath oldPath then
    out (SftpStatus reqid PERMISSION_DENIED) ;;
    let* t := now in
    out (Emit (protected_directory_rename_blocked (username u) oldPath newPath t)) ;;
    Ret st
  else
    let fullnameOld := mapKey (path u) oldPath in
    let fullnameNew := mapKey (path u) newPath in
    renameInS3 srv u reqid fullnameOld fullnameNew ;;
    Ret st.

Definition fileAttrs (c : s3obj) : attrs :=
  {| mode := 420; uid := 0; gid := 0; attrSize := Size c;
     atime := LastModified c; mtime := LastModified c |}.

Definition directoryAttrs (t : Z) : attrs :=
  {| mode := 493; uid := 0; gid := 0; attrSize := 0; atime := t; mtime := t |}.

(** [_getFileStats] *)
Definition getFileStats (srv : server) (u : user) (reqid : Z) (filePath : string)
  : io unit :=
  let fullname := mapKey (path u) filePath in
  let* res := send (ListObjectsV2 (bucketName srv) fullname) in
  match res with
  | Rejected _ => out (SftpStatus reqid FAILURE)
  | Resolved response =>
      match Contents response with
      | None => out (SftpStatus reqid FAILURE)
      | Some contents =>
          match find (keyIs fullname) contents with
          | Some exactMatch => out (SftpAttrs reqid (fileAttrs exactMatch))
          | None =>
              match find (keyIs (fullname ++ "/.directory")) contents with
              | Some directoryMatch =>
                  out (SftpAttrs reqid (directoryAttrs (LastModified directoryMatch)))
              | None =>
                  match find (keyIs (fullname ++ "/.dir")) contents with
                  | Some legacyDirMatch =>
                      out (SftpAttrs reqid (directoryAttrs (LastModified legacyDirMatch)))
                  | None =>
                      if existsb (fun c => negb (String.eqb (Key c) fullname)
                                           && Js.startsWith (Key c) (fullname ++ "/"))
                                 contents
                      then let* t := now in out (SftpAttrs reqid (directoryAttrs t))
                      else out (SftpStatus reqid NO_SUCH_FILE)
                  end
              end
          end
      end
  end.

Definition onSTAT (srv : server) (u : user) (st : session)
    (reqid : Z) (filePath : string) : io session :=
  if negb (accessControl srv (username u) filePath) then
    out (SftpStatus reqid PERMISSION_DENIED) ;; Ret st
  else getFileStats srv u reqid filePath ;; Ret st.

Definition onLSTAT (srv : server) (u : user) (st : session)
    (reqid : Z) (filePath : string) : io session :=
  if negb (accessControl srv (username u) filePath) then
    out (SftpStatus reqid PERMISSION_DENIED) ;; Ret st
  else getFileStats srv u reqid filePath ;; Ret st.

(** [_resolvePath] *)
Definition resolvePath (srv : server) (u : user) (reqid : Z) (filePath : string)
  : io unit :=
  let filePath := if String.eqb filePath "." then "/" else filePath in
  let p := cleanPath filePath in
  let fullname := mapKey (path u) filePath in
  let* res := send (ListObjectsV2 (bucketName srv) fullname) in
  match res with
  | Rejected _ => out (SftpStatus reqid FAILURE)
  | Resolved response =>
      let contents := default [] (Contents response) in
      let realObj :=
        find (fun c => String.eqb (Key c) fullname
                       || String.eqb (Key c) (fullname ++ "/.directory")
                       || String.eqb (Key c) (fullname ++ "/.dir")) contents in
      let isRootPath := String.eqb p "/" || String.eqb p "/." || String.eqb p "." in
      let line (p : string) (isDir : bool) (size lastModified : Z) : entry :=
        let base := Path.basename p in
        {| entryName := p;
           entryLongname := ListingLine isDir size lastModified
                              (if String.eqb base "" then p else base);
           entryAttrs := None |} in
      match realObj with
      | Some obj =>
          let isDir := IsDir obj || Js.endsWith (Key obj) "/.directory"
                       || Js.endsWith (Key obj) "/.dir" in
          out (SftpName reqid [line p isDir (Size obj) (LastModified obj)])
      | None =>
          if isRootPath then
            let* t := now in out (SftpName reqid [line "/" true 0 t])
          else out (SftpStatus reqid NO_SUCH_FILE)
      end
  end.

Definition onREALPATH (srv : server) (u : user) (st : session)
    (reqid : Z) (filePath : string) : io session :=
  resolvePath srv u reqid filePath ;; Ret st.

(** ** One session *)

(** What [_setupSFTPHandlers] does before it registers the handlers: no
    handler without a user name, and the user's base path is filled in
    when it is missing. *)
Definition setupUser (srv : server) (u : user) : option user :=
  if String.eqb (username u) "" then None
  else if String.eqb (path u) "" then
    Some {| username := username u;
            path := userBasePath (sftpConfig srv) ++ "/" ++ username u |}
  else Some u.

Inductive request :=
| OPEN (reqid : Z) (filename : string) (flags : Z)
| READREQ (reqid : Z) (handle : list byte) (offset length : Z)
| WRITEREQ (reqid : Z) (handle : list byte) (offset : Z) (data : list byte)
| OPENDIR (reqid : Z) (dirPath : string)
| READDIR (reqid : Z) (handle : list byte)
| CLOSE (reqid : Z) (handle : list byte)
| REMOVE (reqid : Z) (filePath : string)
| MKDIR (reqid : Z) (dirPath : string)
| RMDIR (reqid : Z) (dirPath : string)
| RENAME (reqid : Z) (oldPath newPath : string)
| STAT (reqid : Z) (filePath : string)
| LSTAT (reqid : Z) (filePath : string)
| REALPATH (reqid : Z) (filePath : string).

(** The handler the SFTP stream calls for a request. *)
Definition handle (srv : server) (u : user) (polls : nat) (st : session)
    (r : request) : io session :=
  match r with
  | OPEN reqid filename flags => onOPEN srv u st reqid filename flags
  | READREQ reqid h offset length => onREAD srv u st reqid h offset length
  | WRITEREQ reqid h offset data => onWRITE u st reqid h offset data
  | OPENDIR reqid dirPath => onOPENDIR srv u st reqid dirPath
  | READDIR reqid h => onREADDIR u st reqid h
  | CLOSE reqid h => onCLOSE srv u polls st reqid h
  | REMOVE reqid filePath => onREMOVE srv u st reqid filePath
  | MKDIR reqid dirPath => onMKDIR u st reqid dirPath
  | RMDIR reqid dirPath => onRMDIR u st reqid dirPath
  | RENAME reqid oldPath newPath => onRENAME srv u st reqid oldPath newPath
  | STAT reqid filePath => onSTAT srv u st reqid filePath
  | LSTAT reqid filePath => onLSTAT srv u st reqid filePath
  | REALPATH reqid filePath => onREALPATH srv u st reqid filePath
  end.

(** The requests of a session, each handled to its end before the next. *)
Fixpoint serve (srv : server) (u : user) (polls : nat) (st : session)
    (rs : list request) : io session :=
  match rs with
  | [] => Ret st
  | r :: rs' =>
      let* st' := handle srv u polls st r in
      serve srv u polls st' rs'
  end.

(** [_setupSFTPHandlers] for the SFTP stream of an authenticated client,
    followed by the requests that arrive on the stream. *)
Definition sftpSession (srv : server) (u : user) (polls : nat) (rs : list request)
  : io session :=
  match setupUser srv u with
  | None => Ret newSession
  | Some u => out (TrackActivity (username u)) ;; serve srv u polls newSession rs
  end.

(** ** Authentication *)

(** [_authenticateUser]; a missing user name or password is [None]. *)
Definition authenticateUser (srv : server) (username password : option string)
  : io bool :=
  match username, password with
  | Some username, Some password =>
      if String.eqb username "" || String.eqb password "" then Ret false
      else
        let authKey := "auth/" ++ username ++ "_" ++ password in
        let* res := send (HeadObject (bucketName srv) authKey) in
        match res with
        | Resolved _ => Ret true
        | Rejected _ => Ret false
        end
  | _, _ => Ret false
  end.

(** ** A store that answers from a script *)

(** For concrete runs: the store gives the next answer of a list (and
    rejects when the list is used up); the clock moves only when the
    program waits. *)
Record scripted := { answers : list s3result; clock : Z }.

Definition scriptedWorld : world scripted :=
  {| worldSend w c :=
       match answers w with
       | [] => (Rejected "NoAnswer", w)
       | r :: rest => (r, {| answers := rest; clock := clock w |})
       end;
     worldNow w := clock w;
     worldSleep w ms := {| answers := answers w; clock := clock w + ms |} |}.

Definition listed (contents : list s3obj) : s3result :=
  Resolved {| Contents := Some contents; Body := None |}.

Definition acknowledged : s3result :=
  Resolved {| Contents := None; Body := None |}.

End Sftp.

Import Sftp.

(* ===================================================================== *)
(** * Vocabulary of the statements *)
(* ===================================================================== *)

(** A WRITE as the client sends it: request id, offset, payload. *)
Definition writeArgs : Type := Z * Z * list byte.

(** The WRITE requests of a list of writes on one handle, in order. *)
Definition writeRequests (handle : list byte) (ws : list writeArgs) : list request :=
  map (fun x : writeArgs => WRITEREQ x.1.1 handle x.1.2 x.2) ws.

(** The payloads of a list of writes, in the order of receipt. *)
Definition payloads (ws : list writeArgs) : list (list byte) :=
  map (fun x : writeArgs => x.2) ws.

(** What the WRITE handler shows for a list of accepted writes. *)
Definition writeReplies (u : user) (ws : list writeArgs) : list step :=
  flat_map (fun x : writeArgs =>
              [Replied (TrackActivity (username u)); Replied (SftpStatus x.1.1 OK)]) ws.

(** A READ as the client sends it: request id, offset, length. *)
Definition readArgs : Type := Z * Z * Z.

Definition readRequests (handle : list byte) (rs : list readArgs) : list request :=
  map (fun x : readArgs => READREQ x.1.1 handle x.1.2 x.2) rs.

(** What the READ handler shows when it answers every one of a list of
    reads with EOF. *)
Definition eofReplies (u : user) (rs : list readArgs) : list step :=
  flat_map (fun x : readArgs =>
              [Replied (TrackActivity (username u)); Replied (SftpStatus x.1.1 EOF)]) rs.

(** A server on the bucket [uploads] with the module [AccessControl], and
    a user of it. *)
Definition demoServer : server :=
  {| bucketName := "uploads";
     accessControl := AccessControl.isPathAllowed;
     sftpConfig := defaultConfig |}.

(** The same server with the copy of the module under [config/]. *)
Definition demoServerConfig : server :=
  {| bucketName := "uploads";
     accessControl := ConfigAccessControl.isPathAllowed;
     sftpConfig := defaultConfig |}.

Definition alice : user := {| username := "alice"; path := "users/alice" |}.

(** The handle of id 0 on the wire. *)
Definition handle0 : list byte := [x00; x00; x00; x00].

Definition object (key : string) (size : Z) : s3obj :=
  {| Key := key; Size := size; LastModified := 1700000000000; IsDir := false |}.

(** A session in which handle 0 is a read handle on a 10-byte object. *)
Definition readSession : session :=
  withFiles newSession
    (<[ 0 := newReadState READ "/a.txt" 10 "users/alice/a.txt" ]> ∅).

(** The session OPEN leaves when [/ledgers/jan.pdf] is opened for writing
    (flags WRITE, CREATE and TRUNCATE) as the first handle. *)
Definition writeSession : session :=
  bumpHandleCount
    (withFiles newSession
       (<[ 0 := newWriteState 26 "/ledgers/jan.pdf" "users/alice/ledgers/jan.pdf" ]> ∅)).

(** The answer to a GET whose body arrives in one chunk. *)
Definition body (data : list byte) : s3result :=
  Resolved {| Contents := None; Body := Some (BodyChunks [data]) |}.

(** A store with the given answers in stock, at a time long after the
    server started. *)
Definition storeAnswering (rs : list s3result) : scripted :=
  {| answers := rs; clock := 1700000100000 |}.

(* ===================================================================== *)
(** * Connections: authentication and idle tracking *)
(* ===================================================================== *)

Module Connection.

(** The [authentication] listener of [listen]: [ctx.method], and what the
    listener does with the context at its end. *)
Inductive authMethod :=
| password
| publickey
| none
| otherMethod (name : string).

Inductive authAnswer :=
| Accept (authenticatedUser : user)   (* ctx.accept(), with the user the closure keeps *)
| Reject.                             (* ctx.reject(['password'], false) *)

Definition onAuthentication (srv : server) (method : authMethod)
    (username password : option string) : io authAnswer :=
  match method with
  | password =>
      let* isAuthenticated := authenticateUser srv username password in
      if isAuthenticated then
        let name := default "" username in
        ensureUserDirectory srv name ;;
        Ret (Accept {| Sftp.username := name;
                       path := userBasePath (sftpConfig srv) ++ "/" ++ name |})
      else Ret Reject
  | publickey => Ret Reject
  | none => Ret Reject
  | otherMethod _ => Ret Reject
  end.

(** A value of [userConnections]. *)
Record connectionInfo := { lastActivity : Z; connectionTime : Z }.

(** A timer of the runtime ([setTimeout]): the user its callback names and
    the time at which it is due. *)
Record timer := { timerUser : string; due : Z }.

(** [idleTimers] and [userConnections] of the server, with the timers of
    the runtime that were set and have neither been cleared nor fired
    ([armed]); timers are named by their number of creation. *)
Record tracking := {
  idleTimers : gmap string nat;
  userConnections : gmap string connectionInfo;
  armed : gmap nat timer;
  timerCount : nat
}.

Definition noTracking : tracking :=
  {| idleTimers := ∅; userConnections := ∅; armed := ∅; timerCount := 0 |}.

(** The events of this part of the server. *)
Inductive notice :=
| user_idle (username : string) (timestamp : Z)
| client_disconnected (username eventType : string).

(** [clearTimeout(timer)] *)
Definition clearTimeout (id : nat) (t : tracking) : tracking :=
  {| idleTimers := idleTimers t; userConnections := userConnections t;
     armed := delete id (armed t); timerCount := timerCount t |}.

(** [setTimeout(callback, delay)] at time [now], for the callback that
    calls [_handleIdleConnection(username)]. *)
Definition setTimeout (username : string) (now delay : Z) (t : tracking)
  : nat * tracking :=
  (timerCount t,
   {| idleTimers := idleTimers t; userConnections := userConnections t;
      armed := <[ timerCount t := {| timerUser := username; due := now + delay |} ]>
                 (armed t);
      timerCount := S (timerCount t) |}).

(** [_trackUserActivity] at time [now] *)
Definition trackUserActivity (username : string) (now : Z) (t : tracking) : tracking :=
  if String.eqb username "" then t
  else
    let t := match idleTimers t !! username with
             | Some id => clearTimeout id t
             | None => t
             end in
    let (idleTimer, t) := setTimeout username now 60000 t in
    let connectionTime :=
      match userConnections t !! username with
      | Some info => if connectionTime info =? 0 then now else connectionTime info
      | None => now
      end in
    {| idleTimers := <[ username := idleTimer ]> (idleTimers t);
       userConnections :=
         <[ username := {| lastActivity := now; connectionTime := connectionTime |} ]>
           (userConnections t);
       armed := armed t;
       timerCount := timerCount t |}.

(** [_handleIdleConnection] at time [now] *)
Definition handleIdleConnection (username : string) (now : Z) (t : tracking)
  : list notice * tracking :=
  ([user_idle username now],
   {| idleTimers := delete username (idleTimers t);
      userConnections := userConnections t;
      armed := armed t; timerCount := timerCount t |}).

(** The runtime fires timer [id] at time [now]: nothing happens unless the
    timer is armed and due; else it is spent and its callback runs. *)
Definition fireTimer (id : nat) (now : Z) (t : tracking) : list notice * tracking :=
  match armed t !! id with
  | Some tm =>
      if due tm <=? now
      then handleIdleConnection (timerUser tm) now (clearTimeout id t)
      else ([], t)
  | None => ([], t)
  end.



(** A client of [this.ssh.clients]: the user name of its
    [authenticatedUser] property, when it has one. *)
Definition client : Type := option string.




(** [disconnectAllUsers]: the count returned and the tracking after; every
    client with an authenticated user is ended. *)
Definition disconnectAllUsers (clients : option (list client)) (t : tracking)
  : nat * tracking :=
  (length (filter (fun c : client => bool_decide (is_Some c)) (default [] clients)),
   {| idleTimers := ∅; userConnections := ∅;
      armed := armed t; timerCount := timerCount t |}).

(** The first loop of [stop]: [clearTimeout] on every value of
    [idleTimers]; then both maps are emptied. *)
Definition stop (t : tracking) : tracking :=
  {| idleTimers := ∅; userConnections := ∅;
     armed := foldr (fun entry a => delete entry.2 a) (armed t)
                    (map_to_list (idleTimers t));
     timerCount := timerCount t |}.

End Connection.

(* ===================================================================== *)
(** * Vocabulary of the further properties *)
(* ===================================================================== *)

(** [ensures S P p]: whatever the store answers and the clock shows, every
    step the program [p] takes (a reply or event, a command sent, a wait)
    satisfies [S] and every result it ends with satisfies [P]. *)
Fixpoint ensures {A : Type} (S : step -> Prop) (P : A -> Prop) (p : io A) : Prop :=
  match p with
  | Ret a => P a
  | Out o k => S (Replied o) /\ ensures S P k
  | Send c k => S (Sent c) /\ forall r : s3result, ensures S P (k r)
  | Now k => forall t : Z, ensures S P (k t)
  | Sleep ms k => S (Slept ms) /\ ensures S P k
  | Crash _ => True
  end.





(** The request id of a request. *)
Definition requestId (r : request) : Z :=
  match r with
  | OPEN reqid _ _ | READREQ reqid _ _ _ | WRITEREQ reqid _ _ _ | OPENDIR reqid _
  | READDIR reqid _ | CLOSE reqid _ | REMOVE reqid _ | MKDIR reqid _ | RMDIR reqid _
  | RENAME reqid _ _ | STAT reqid _ | LSTAT reqid _ | REALPATH reqid _ => reqid
  end.

(** The key is in the home of the user: it begins with the user's base
    path and a slash. *)
Definition inHome (u : user) (key : string) : Prop :=
  Js.startsWith key (path u ++ "/") = true.

(** The command addresses the server's bucket and keys in the home of the
    user only. *)
Definition commandInHome (srv : server) (u : user) (c : s3cmd) : Prop :=
  match c with
  | GetObject bucket key _ _ => bucket = bucketName srv /\ inHome u key
  | PutObject bucket key _ _ _ => bucket = bucketName srv /\ inHome u key
  | DeleteObject bucket key => bucket = bucketName srv /\ inHome u key
  | ListObjectsV2 bucket prefix => bucket = bucketName srv /\ inHome u prefix
  | HeadObject bucket key => bucket = bucketName srv /\ inHome u key
  | CopyObject bucket key copySource =>
      bucket = bucketName srv /\ inHome u key
      /\ exists old : string,
           copySource = bucketName srv ++ "/" ++ old /\ inHome u old
  end.

(** The keys the open files of the session hold are in the home of the user. *)
Definition filesInHome (u : user) (st : session) : Prop :=
  forall (h : Z) (fs : fileState), openFiles st !! h = Some fs -> inHome u (fullname fs).

(** Every handle of the two tables was issued: it is below the counter. *)
Definition handlesIssued (st : session) : Prop :=
  forall h : Z,
    is_Some (openFiles st !! h) \/ is_Some (openDirs st !! h) -> h < handleCount st.

(** The prefix every open directory of the session holds is not empty. *)
Definition dirsNamed (st : session) : Prop :=
  forall (h : Z) (ds : dirState), openDirs st !! h = Some ds -> dirFullname ds <> "".

(** No handle is in both tables. *)
Definition tablesDisjoint (st : session) : Prop :=
  forall h : Z, is_Some (openFiles st !! h) -> openDirs st !! h = None.

(** From [st] to [st'] no handle below the counter of [st] has come into
    a table: what was not open in [st] is not open in [st']. *)
Definition noneRevived (st st' : session) : Prop :=
  forall h : Z,
    h < handleCount st ->
    (is_Some (openFiles st' !! h) -> is_Some (openFiles st !! h))
    /\ (is_Some (openDirs st' !! h) -> is_Some (openDirs st !! h)).

(** What every request keeps of a session, and how the counter and the
    tables move from [st] to [st']. *)
Definition sessionKept (u : user) (st st' : session) : Prop :=
  filesInHome u st' /\ dirsNamed st' /\ handlesIssued st'
  /\ handleCount st <= handleCount st'
  /\ tablesDisjoint st' /\ noneRevived st st'.

(** What the server puts into the store: the marker of a directory, or an
    upload, which is never empty, declares its length, and under a
    [ledgers] or [invoices] directory has a name that ends in [.pdf]
    (letter case apart). *)
Definition uploadPolicy (c : s3cmd) : Prop :=
  match c with
  | PutObject _ key body len contentType =>
      (contentType = Some "application/x-directory"
       /\ Js.endsWith key "/.directory" = true)
      \/ (contentType = None
          /\ body <> []
          /\ len = Some (Z.of_nat (List.length body))
          /\ ((Js.includes (Js.toLowerCase key) "/ledgers/"
               || Js.includes (Js.toLowerCase key) "/invoices/") = true ->
              Js.endsWith (Js.toLowerCase key) ".pdf" = true))
  | _ => True
  end.

(** A step of a session that leaves the home of the user alone, follows
    the upload policy and lists no name twice. *)
Definition stepInHome (srv : server) (u : user) (s : step) : Prop :=
  match s with
  | Sent c => commandInHome srv u c /\ uploadPolicy c
  | Replied (SftpName _ entries) => NoDup (map entryName entries)
  | _ => True
  end.

(** Every armed timer is the one [idleTimers] holds for its user, and is
    due 60 s after the last activity recorded for that user. *)
Definition timersRegistered (t : Connection.tracking) : Prop :=
  forall (id : nat) (tm : Connection.timer),
    Connection.armed t !! id = Some tm ->
    Connection.idleTimers t !! Connection.timerUser tm = Some id
    /\ (id < Connection.timerCount t)%nat
    /\ exists info : Connection.connectionInfo,
         Connection.userConnections t !! Connection.timerUser tm = Some info
         /\ Connection.due tm = Connection.lastActivity info + 60000.

(** The name has no slash in it. *)
Definition slashFree (name : string) : Prop :=
  Js.includes name "/" = false.

(** The name is one every JavaScript object inherits as a property.  For
    such a user name [allowedPaths[username]] is not a list of paths, and
    the functions of the access-control module throw; the model of the
    module is for the other names. *)
Definition inheritedName (username : string) : bool :=
  existsb (String.eqb username)
    ["constructor"; "__proto__"; "hasOwnProperty"; "isPrototypeOf";
     "propertyIsEnumerable"; "toLocaleString"; "toString"; "valueOf";
     "__defineGetter__"; "__defineSetter__"; "__lookupGetter__"; "__lookupSetter__"].

(** The last character of a string. *)
Fixpoint lastChar (s : string) : option ascii :=
  match s with
  | EmptyString => None
  | String c EmptyString => Some c
  | String _ s' => lastChar s'
  end.

(** The names READDIR answers with for a handle OPENDIR made of the store
    listing [contents] of [prefix]. *)
Definition listedNames (prefix : string) (contents : list s3obj) : list string :=
  map entryName
    (removeDuplicates ∅ (map (listingEntry prefix) (processDirectoryListings contents prefix))).

(** The request names a handle, and the handle is [hb]. *)
Definition usesHandle (r : request) (hb : list byte) : Prop :=
  match r with
  | READREQ _ h _ _ | WRITEREQ _ h _ _ | READDIR _ h | CLOSE _ h => h = hb
  | _ => False
  end.

(** [traces Q p]: on every path of [p] that does not end in an exception,
    the steps taken and the result satisfy [Q]. *)
Fixpoint traces {A : Type} (Q : list step -> A -> Prop) (p : io A) : Prop :=
  match p with
  | Ret a => Q [] a
  | Out o k => traces (fun tr a => Q (Replied o :: tr) a) k
  | Send c k => forall r : s3result, traces (fun tr a => Q (Sent c :: tr) a) (k r)
  | Now k => forall t : Z, traces Q (k t)
  | Sleep ms k => traces (fun tr a => Q (Slept ms :: tr) a) k
  | Crash _ => True
  end.


(** From [st] to [st'] the counter and every handle but [h] are as they
    were. *)
Definition onlyAt (h : Z) (st st' : session) : Prop :=
  handleCount st' = handleCount st
  /\ forall h' : Z,
       h' <> h ->
       openFiles st' !! h' = openFiles st !! h'
       /\ openDirs st' !! h' = openDirs st !! h'.

(** The step is not the answer of a handle. *)
Definition notHandle (s : step) : Prop :=
  match s with
  | Replied (SftpHandle _ _) => False
  | _ => True
  end.

(** The step puts the marker of one of the configured default directories
    of the user [name], as [_createDefaultSubdirectories] writes it. *)
Definition isMarkerPut (srv : server) (name : string) (s : step) : Prop :=
  exists dirName : string,
    In dirName (defaultSubdirectories (sftpConfig srv))
    /\ s = Sent (PutObject (bucketName srv)
                   (userBasePath (sftpConfig srv) ++ "/" ++ name ++ "/" ++ dirName
                    ++ "/.directory")
                   (list_byte_of_string ("Directory marker for " ++ dirName ++ " folder"))
                   None (Some "application/x-directory")).



(** The requests whose handlers call [_trackUserActivity]. *)
Definition tracked (r : request) : bool :=
  match r with
  | OPEN _ _ _ | READREQ _ _ _ _ | WRITEREQ _ _ _ _ | OPENDIR _ _ | READDIR _ _
  | CLOSE _ _ => true
  | _ => false
  end.

(** The step does not track activity. *)
Definition notTracking (s : step) : Prop :=
  match s with
  | Replied (TrackActivity _) => False
  | _ => True
  end.

(** The activity a trace tracks: the user names given to
    [_trackUserActivity], in order. *)
Fixpoint activityOf (tr : list step) : list string :=
  match tr with
  | [] => []
  | Replied (TrackActivity name) :: tr' => name :: activityOf tr'
  | _ :: tr' => activityOf tr'
  end.

(* ===================================================================== *)
(** * Properties *)
(* ===================================================================== *)

(** ** Running sequenced programs *)

Lemma exec_bind {W A B : Type} (E : world W) (m : io A) (f : A -> io B) (w : W) :
  exec E (bind m f) w =
    match exec E m w with
    | (tr, Done a, w1) =>
        let '(tr', r, w2) := exec E (f a) w1 in ((tr ++ tr')%list, r, w2)
    | (tr, Crashed e, w1) => (tr, Crashed e, w1)
    end.
Proof.
  revert w. induction m as [a | o k IH | c k IH | k IH | ms k IH | e]; intros w; simpl.
  - destruct (exec E (f a) w) as [[tr' r] w2]. reflexivity.
  - rewrite IH. destruct (exec E k w) as [[tr [a | e]] w1]; simpl.
    + destruct (exec E (f a) w1) as [[tr' r] w2]. reflexivity.
    + reflexivity.
  - destruct (worldSend E w c) as [res w0]. rewrite IH.
    destruct (exec E (k res) w0) as [[tr [a | e]] w1]; simpl.
    + destruct (exec E (f a) w1) as [[tr' r] w2]. reflexivity.
    + reflexivity.
  - apply IH.
  - rewrite IH. destruct (exec E k (worldSleep E w ms)) as [[tr [a | e]] w1]; simpl.
    + destruct (exec E (f a) w1) as [[tr' r] w2]. reflexivity.
    + reflexivity.
  - reflexivity.
Qed.

Lemma storeCalls_app (tr1 tr2 : list step) :
  storeCalls (tr1 ++ tr2) = (storeCalls tr1 ++ storeCalls tr2)%list.
Proof.
  induction tr1 as [| [o | c | ms] tr1 IH]; simpl; try assumption.
  - reflexivity.
  - now rewrite IH.
Qed.

Lemma serve_app {W : Type} (E : world W) (srv : server) (u : user) (polls : nat)
    (rs1 rs2 : list request) (st : session) (w : W) :
  exec E (serve srv u polls st (rs1 ++ rs2)) w =
    match exec E (serve srv u polls st rs1) w with
    | (tr, Done st1, w1) =>
        let '(tr', r, w2) := exec E (serve srv u polls st1 rs2) w1 in
        ((tr ++ tr')%list, r, w2)
    | (tr, Crashed e, w1) => (tr, Crashed e, w1)
    end.
Proof.
  revert st w. induction rs1 as [| r rs1 IH]; intros st w.
  - simpl. destruct (exec E (serve srv u polls st rs2) w) as [[tr' r] w2]. reflexivity.
  - cbn [serve app]. rewrite !exec_bind.
    destruct (exec E (handle srv u polls st r) w) as [[tr0 [st0 | e]] w0].
    + rewrite IH.
      destruct (exec E (serve srv u polls st0 rs1) w0) as [[tr1 [st1 | e]] w1].
      * destruct (exec E (serve srv u polls st1 rs2) w1) as [[tr2 r2] w2].
        now rewrite app_assoc.
      * reflexivity.
    + reflexivity.
Qed.

(** ** Unconditional refusals *)

(** C4: every MKDIR and every RMDIR, from any user and on any path, is
    answered PERMISSION_DENIED, the blocked event of its kind is emitted,
    and nothing is sent to the store (the world is left as it was). *)
Theorem mkdir_rmdir_always_denied :
  forall (W : Type) (E : world W) (w : W) (srv : server) (u : user) (polls : nat)
         (st : session) (reqid : Z) (dirPath : string),
    exec E (handle srv u polls st (MKDIR reqid dirPath)) w =
      ([Replied (SftpStatus reqid PERMISSION_DENIED);
        Replied (Emit (directory_creation_blocked (username u) dirPath (worldNow E w)))],
       Done st, w)
    /\ exec E (handle srv u polls st (RMDIR reqid dirPath)) w =
      ([Replied (SftpStatus reqid PERMISSION_DENIED);
        Replied (Emit (directory_deletion_blocked (username u) dirPath (worldNow E w)))],
       Done st, w).
Proof. intros. split; reflexivity. Qed.

(** ** Authentication *)

(** C9: when the user name or the password is missing or empty,
    [_authenticateUser] returns false and sends nothing to the store, so
    no HEAD of a credential key is made. *)
Theorem authenticate_without_credentials :
  forall (W : Type) (E : world W) (w : W) (srv : server)
         (username password : option string),
    username = None \/ username = Some "" \/ password = None \/ password = Some "" ->
    exec E (authenticateUser srv username password) w = ([], Done false, w).
Proof.
  intros W E w srv username password H.
  unfold authenticateUser.
  destruct username as [un |], password as [pw |]; try reflexivity.
  destruct H as [H | [H | [H | H]]]; try discriminate; inversion H; subst.
  - reflexivity.
  - rewrite String.eqb_refl, orb_true_r. reflexivity.
Qed.

Lemma authenticate_without_credentials_witness :
  exec scriptedWorld (authenticateUser demoServer (Some "alice") (Some ""))
       (storeAnswering [acknowledged])
  = ([], Done false, storeAnswering [acknowledged]).
Proof.
  apply (authenticate_without_credentials scripted scriptedWorld
           (storeAnswering [acknowledged]) demoServer (Some "alice") (Some "")).
  right. right. right. reflexivity.
Defined.

(** ** Downloads *)

Section Reads.
Context {W : Type} (E : world W).
Variables (srv : server) (u : user) (polls : nat).

Lemma read_at_eof (st : session) (h : list byte) (fs : fileState) :
  List.length h = 4%nat ->
  openFiles st !! readUInt32BE h = Some fs ->
  hasFlag (flags fs) READ = true ->
  read fs = true ->
  forall (reqid offset length : Z) (w : W),
    exec E (onREAD srv u st reqid h offset length) w =
      ([Replied (TrackActivity (username u)); Replied (SftpStatus reqid EOF)], Done st, w).
Proof.
  intros Hlen Hfs Hflag Hread reqid offset length w.
  unfold onREAD. rewrite Hlen. simpl. rewrite Hfs. simpl. rewrite Hflag, Hread. reflexivity.
Qed.

Lemma reads_at_eof (st : session) (h : list byte) (fs : fileState) :
  List.length h = 4%nat ->
  openFiles st !! readUInt32BE h = Some fs ->
  hasFlag (flags fs) READ = true ->
  read fs = true ->
  forall (rs : list readArgs) (w : W),
    exec E (serve srv u polls st (readRequests h rs)) w = (eofReplies u rs, Done st, w).
Proof.
  intros Hlen Hfs Hflag Hread rs w.
  induction rs as [| [[reqid offset] length] rs IH].
  - reflexivity.
  - cbn [readRequests map serve handle]. rewrite exec_bind.
    cbn [fst snd]. rewrite (read_at_eof st h fs Hlen Hfs Hflag Hread).
    fold (readRequests h rs). rewrite IH. reflexivity.
Qed.

Lemma readFileFromS3_sends_one_get (reqid : Z) (key : string) (offset length : Z) (w : W) :
  exists (tr : list step) (w' : W),
    exec E (readFileFromS3 srv reqid key offset length) w =
      (Sent (GetObject (bucketName srv) key offset (offset + length - 1)) :: tr, Done tt, w')
    /\ storeCalls tr = [].
Proof.
  unfold readFileFromS3. simpl.
  destruct (worldSend E w _) as [[response | e] w1]; simpl.
  - destruct (Body response) as [[chunks | e] |]; simpl.
    + destruct (List.length (concat chunks) =? 0)%nat; simpl; eauto.
    + eauto.
    + eauto.
  - eauto.
Qed.

(** C8 (amended): a READ on a read handle of recorded size [s] whose EOF
    flag is not set is answered EOF without a GET when the offset is at
    least [s] or the requested length is 0; otherwise one ranged GET is
    sent for the bytes from the offset on, as many as requested but no
    more than [s - offset], and when that range ends at [s] the flag is
    set, so that every later READ on the handle is answered EOF without a
    store call. *)
Theorem read_serves_clamped_range :
  forall (st : session) (h : list byte) (fs : fileState) (s reqid offset length : Z) (w : W),
    List.length h = 4%nat ->
    openFiles st !! readUInt32BE h = Some fs ->
    hasFlag (flags fs) READ = true ->
    size fs = Some s ->
    read fs = false ->
    0 <= offset ->
    0 <= length ->
    (s <= offset \/ length = 0 ->
       exec E (handle srv u polls st (READREQ reqid h offset length)) w =
         ([Replied (TrackActivity (username u)); Replied (SftpStatus reqid EOF)],
          Done st, w))
    /\ (offset < s -> 0 < length ->
        let clamped := Z.min length (s - offset) in
        exists (tr : list step) (st' : session) (w' : W),
          exec E (handle srv u polls st (READREQ reqid h offset length)) w =
            (tr, Done st', w')
          /\ storeCalls tr =
               [GetObject (bucketName srv) (fullname fs) offset (offset + clamped - 1)]
          /\ (offset + clamped < s -> st' = st)
          /\ (offset + clamped = s ->
              forall (rs : list readArgs) (w'' : W),
                exec E (serve srv u polls st' (readRequests h rs)) w'' =
                  (eofReplies u rs, Done st', w''))).
Proof.
  intros st h fs s reqid offset length w Hlen Hfs Hflag Hsize Hread Hoff Hlength.
  cbn [handle]. unfold onREAD. rewrite Hlen. cbn [Nat.eqb negb bind out].
  rewrite Hfs. cbn [bind]. rewrite Hflag, Hread, Hsize. cbn [negb geDefined gtDefined default from_option id].
  split.
  - intros [Hge | Hzero].
    + destruct (Z.leb_spec s offset); [reflexivity | lia].
    + subst length. destruct (Z.leb_spec s offset); [reflexivity |].
      destruct (Z.ltb_spec s (offset + 0)); [lia |]. reflexivity.
  - intros Hlt Hpos. set (clamped := Z.min length (s - offset)).
    destruct (Z.leb_spec s offset); [lia |].
    destruct (Z.ltb_spec s (offset + length)) as [Hover | Hwithin].
    + assert (Hc : clamped = s - offset) by (unfold clamped; lia).
      destruct (Z.eqb_spec (s - offset) 0); [lia |].
      destruct (Z.leb_spec s (offset + (s - offset))); [| lia].
      cbn [exec]. rewrite exec_bind.
      destruct (readFileFromS3_sends_one_get reqid (fullname fs) offset (s - offset) w)
        as (tr & w' & -> & Hcalls).
      cbn [exec]. eexists _, _, _. split; [reflexivity |].
      rewrite Hc. cbn [storeCalls app]. rewrite app_nil_r, Hcalls.
      split; [reflexivity |]. split; [lia |].
      intros _ rs w''. apply (reads_at_eof _ h (setRead fs)).
      * exact Hlen.
      * cbn [openFiles withFiles]. apply lookup_insert_eq.
      * exact Hflag.
      * reflexivity.
    + assert (Hc : clamped = length) by (unfold clamped; lia).
      destruct (Z.eqb_spec length 0); [lia |].
      cbn [exec]. rewrite exec_bind.
      destruct (readFileFromS3_sends_one_get reqid (fullname fs) offset length w)
        as (tr & w' & -> & Hcalls).
      cbn [exec]. eexists _, _, _. split; [reflexivity |].
      rewrite Hc. cbn [storeCalls app]. rewrite app_nil_r, Hcalls.
      split; [reflexivity |].
      destruct (Z.leb_spec s (offset + length)).
      * split; [lia |]. intros _ rs w''. apply (reads_at_eof _ h (setRead fs)).
        -- exact Hlen.
        -- cbn [openFiles withFiles]. apply lookup_insert_eq.
        -- exact Hflag.
        -- reflexivity.
      * split; [reflexivity | lia].
Qed.

(** C10: on a read handle the EOF flag of a READ that reaches the end of
    the object is set whatever the store answers to its GET; when the
    store rejects that GET the client gets FAILURE, and every later READ
    on the handle is still answered EOF without a store call. *)
Theorem failed_final_read_keeps_eof :
  forall (st : session) (h : list byte) (fs : fileState) (s reqid offset length : Z)
         (w : W),
    List.length h = 4%nat ->
    openFiles st !! readUInt32BE h = Some fs ->
    hasFlag (flags fs) READ = true ->
    size fs = Some s ->
    read fs = false ->
    0 <= offset ->
    offset < s ->
    s <= offset + length ->
    let get := GetObject (bucketName srv) (fullname fs) offset (s - 1) in
    let st' := withFiles st (<[ readUInt32BE h := setRead fs ]> (openFiles st)) in
    (exists (tr : list step) (w' : W),
        exec E (handle srv u polls st (READREQ reqid h offset length)) w =
          (Replied (TrackActivity (username u)) :: Sent get :: tr, Done st', w')
        /\ storeCalls tr = [])
    /\ (forall (e : string) (w1 : W),
          worldSend E w get = (Rejected e, w1) ->
          exec E (handle srv u polls st (READREQ reqid h offset length)) w =
            ([Replied (TrackActivity (username u)); Sent get;
              Replied (SftpStatus reqid FAILURE)], Done st', w1))
    /\ (forall (rs : list readArgs) (w'' : W),
          exec E (serve srv u polls st' (readRequests h rs)) w'' =
            (eofReplies u rs, Done st', w'')).
Proof.
  intros st h fs s reqid offset length w Hlen Hfs Hflag Hsize Hread Hoff Hlt Hend get st'.
  assert (Hrun :
    exec E (handle srv u polls st (READREQ reqid h offset length)) w =
      let '(tr, r, w') :=
        exec E (readFileFromS3 srv reqid (fullname fs) offset (s - offset) ;; Ret st') w in
      (Replied (TrackActivity (username u)) :: tr, r, w')).
  { cbn [handle]. unfold onREAD. rewrite Hlen. cbn [Nat.eqb negb bind out].
    rewrite Hfs. cbn [bind]. rewrite Hflag, Hread, Hsize.
    cbn [negb geDefined gtDefined default from_option id].
    destruct (Z.leb_spec s offset); [lia |].
    destruct (Z.ltb_spec s (offset + length)) as [Hover | Hwithin].
    - destruct (Z.eqb_spec (s - offset) 0); [lia |].
      destruct (Z.leb_spec s (offset + (s - offset))); [| lia].
      reflexivity.
    - assert (length = s - offset) as -> by lia.
      destruct (Z.eqb_spec (s - offset) 0); [lia |].
      destruct (Z.leb_spec s (offset + (s - offset))); [| lia].
      reflexivity. }
  assert (Hlast : offset + (s - offset) - 1 = s - 1) by lia.
  split; [| split].
  - rewrite Hrun, exec_bind.
    destruct (readFileFromS3_sends_one_get reqid (fullname fs) offset (s - offset) w)
      as (tr & w' & -> & Hcalls).
    rewrite Hlast. cbn [exec]. exists (tr ++ [])%list, w'. split; [reflexivity |].
    now rewrite app_nil_r.
  - intros e w1 Hrej. rewrite Hrun. unfold readFileFromS3.
    cbn [bind send exec]. rewrite Hlast. fold get. rewrite Hrej. reflexivity.
  - intros rs w''. apply (reads_at_eof _ h (setRead fs)).
    + exact Hlen.
    + apply lookup_insert_eq.
    + exact Hflag.
    + reflexivity.
Qed.
End Reads.

Lemma read_serves_clamped_range_witness :
  exists (tr : list step) (st' : session) (w' : scripted),
    exec scriptedWorld
         (handle demoServer alice 1 readSession (READREQ 7 handle0 4 100))
         (storeAnswering [body [x61; x62; x63; x64; x65; x66]]) = (tr, Done st', w')
    /\ storeCalls tr = [GetObject "uploads" "users/alice/a.txt" 4 9].
Proof.
  destruct (read_serves_clamped_range scriptedWorld demoServer alice 1%nat readSession
              handle0 (newReadState READ "/a.txt" 10 "users/alice/a.txt") 10 7 4 100
              (storeAnswering [body [x61; x62; x63; x64; x65; x66]]))
    as [_ H]; [reflexivity | reflexivity | reflexivity | reflexivity | reflexivity | lia | lia |].
  destruct H as (tr & st' & w' & Hrun & Hcalls & _); [lia | lia |].
  exists tr, st', w'. split; [exact Hrun | exact Hcalls].
Defined.

(** The claim of C8 as it was stated (every READ below the recorded size
    sends a GET for the clamped range) fails for a READ of length 0. *)
Lemma read_of_length_zero_sends_no_get :
  ~ (forall (reqid offset length : Z),
        0 <= offset < 10 -> 0 <= length ->
        storeCalls
          (exec scriptedWorld
                (handle demoServer alice 1 readSession (READREQ reqid handle0 offset length))
                (storeAnswering [body [x61]])).1.1
        = [GetObject "uploads" "users/alice/a.txt" offset
             (offset + Z.min length (10 - offset) - 1)]).
Proof.
  intros H. specialize (H 7 0 0 ltac:(lia) ltac:(lia)).
  vm_compute in H. discriminate H.
Qed.

Example read_of_length_zero :
  exec scriptedWorld (handle demoServer alice 1 readSession (READREQ 7 handle0 0 0))
       (storeAnswering [body [x61]])
  = ([Replied (TrackActivity "alice"); Replied (SftpStatus 7 EOF)],
     Done readSession, storeAnswering [body [x61]]).
Proof. reflexivity. Qed.

Lemma failed_final_read_keeps_eof_witness :
  exec scriptedWorld (handle demoServer alice 1 readSession (READREQ 7 handle0 4 100))
       (storeAnswering [Rejected "SlowDown"])
  = ([Replied (TrackActivity "alice");
      Sent (GetObject "uploads" "users/alice/a.txt" 4 9);
      Replied (SftpStatus 7 FAILURE)],
     Done (withFiles readSession
             (<[ 0 := setRead (newReadState READ "/a.txt" 10 "users/alice/a.txt") ]>
                (openFiles readSession))),
     storeAnswering [])
  /\ exec scriptedWorld
       (serve demoServer alice 1
          (withFiles readSession
             (<[ 0 := setRead (newReadState READ "/a.txt" 10 "users/alice/a.txt") ]>
                (openFiles readSession)))
          (readRequests handle0 [(8, 4, 100); (9, 0, 10)]))
       (storeAnswering [body [x61]])
     = ([Replied (TrackActivity "alice"); Replied (SftpStatus 8 EOF);
         Replied (TrackActivity "alice"); Replied (SftpStatus 9 EOF)],
        Done (withFiles readSession
             (<[ 0 := setRead (newReadState READ "/a.txt" 10 "users/alice/a.txt") ]>
                (openFiles readSession))),
        storeAnswering [body [x61]]).
Proof.
  destruct (failed_final_read_keeps_eof scriptedWorld demoServer alice 1%nat readSession
              handle0 (newReadState READ "/a.txt" 10 "users/alice/a.txt") 10 7 4 100
              (storeAnswering [Rejected "SlowDown"]))
    as (_ & Hfail & Hlater);
    [reflexivity | reflexivity | reflexivity | reflexivity | reflexivity | lia | lia | lia |].
  split.
  - exact (Hfail "SlowDown" (storeAnswering []) eq_refl).
  - exact (Hlater [(8, 4, 100); (9, 0, 10)] (storeAnswering [body [x61]])).
Defined.


(** ** Uploads *)

Section Uploads.
Context {W : Type} (E : world W).
Variables (srv : server) (u : user) (polls : nat).

Lemma checkUploadStatus_unfold (st : session) (reqid handleId : Z) :
  checkUploadStatus polls st reqid handleId =
    match openFiles st !! handleId with
    | None => Ret st
    | Some currentState =>
        if uploadComplete currentState then
          out (SftpStatus reqid OK) ;; Ret (deleteFile st handleId)
        else if bool_decide (is_Some (uploadError currentState)) then
          out (SftpStatus reqid FAILURE) ;; Ret (deleteFile st handleId)
        else
          match polls with
          | O => Ret st
          | S polls' => Sleep 100 (checkUploadStatus polls' st reqid handleId)
          end
    end.
Proof. destruct polls; reflexivity. Qed.

Lemma storeCalls_writeReplies (ws : list writeArgs) : storeCalls (writeReplies u ws) = [].
Proof. induction ws as [| x ws IH]; [reflexivity | exact IH]. Qed.

Lemma setStream_same (fs : fileState) (chunks : list (list byte)) :
  stream fs = Some chunks -> setStream fs chunks = fs.
Proof. destruct fs; simpl; intros ->; reflexivity. Qed.

Lemma writes_append (ws : list writeArgs) :
  forall (st : session) (h : list byte) (fs : fileState) (chunks : list (list byte)) (w : W),
    List.length h = 4%nat ->
    openFiles st !! readUInt32BE h = Some fs ->
    hasFlag (flags fs) WRITE = true ->
    stream fs = Some chunks ->
    exists st' : session,
      exec E (serve srv u polls st (writeRequests h ws)) w = (writeReplies u ws, Done st', w)
      /\ openFiles st' !! readUInt32BE h = Some (setStream fs (chunks ++ payloads ws)).
Proof.
  induction ws as [| [[reqid offset] data] ws IH]; intros st h fs chunks w Hlen Hfs Hflag Hstream.
  - exists st. split; [reflexivity |].
    cbn [payloads map]. rewrite app_nil_r, setStream_same; assumption.
  - cbn [writeRequests map serve handle fst snd]. fold (writeRequests h ws).
    rewrite exec_bind. unfold onWRITE. rewrite Hlen. cbn [Nat.eqb negb bind out].
    rewrite Hfs. cbn [bind]. rewrite Hflag, Hstream. cbn [negb bind exec].
    set (st1 := withFiles st _).
    destruct (IH st1 h (setStream fs (chunks ++ [data])) (chunks ++ [data])%list w)
      as (st' & Hrun & Hlook).
    + exact Hlen.
    + apply lookup_insert_eq.
    + exact Hflag.
    + reflexivity.
    + exists st'. rewrite Hrun. split; [reflexivity |].
      rewrite Hlook. cbn [payloads map snd]. fold (payloads ws).
      rewrite <- app_assoc. reflexivity.
Qed.


Lemma close_write_handle (st : session) (h : list byte) (fs : fileState)
    (chunks : list (list byte)) (reqid : Z) (w : W) :
  List.length h = 4%nat ->
  openFiles st !! readUInt32BE h = Some fs ->
  hasFlag (flags fs) WRITE = true ->
  stream fs = Some chunks ->
  uploadComplete fs = false ->
  uploadError fs = None ->
  exec E (onCLOSE srv u polls st reqid h) w =
    let '(tr, r, w') :=
      exec E (let* st1 := uploadOnEnd srv u st chunks (fullname fs) (readUInt32BE h) in
              Sleep 100 (checkUploadStatus polls st1 reqid (readUInt32BE h))) w in
    (Replied (TrackActivity (username u)) :: tr, r, w').
Proof.
  intros Hlen Hfs Hflag Hstream Hdone Herr.
  unfold onCLOSE. rewrite Hlen. cbn [Nat.eqb negb bind out].
  rewrite Hfs. unfold closeFile. rewrite Hflag, Hstream, Hdone, Herr.
  rewrite bool_decide_eq_false_2 by (intros [? ?]; discriminate).
  reflexivity.
Qed.

Lemma poll_after_error (st : session) (id reqid : Z) (fs : fileState) (e : string) (w : W) :
  openFiles st !! id = Some fs ->
  uploadComplete fs = false ->
  exec E (checkUploadStatus polls (recordUploadError st id e) reqid id) w =
    ([Replied (SftpStatus reqid FAILURE)],
     Done (deleteFile (recordUploadError st id e) id), w).
Proof.
  intros Hfs Hdone. rewrite checkUploadStatus_unfold.
  unfold recordUploadError. rewrite Hfs. cbn [openFiles withFiles].
  rewrite lookup_insert_eq. cbn [uploadComplete uploadError setUploadError].
  rewrite Hdone. rewrite bool_decide_eq_true_2 by eauto. reflexivity.
Qed.

Lemma deleteFile_lookup (st : session) (id : Z) : openFiles (deleteFile st id) !! id = None.
Proof. apply lookup_delete_eq. Qed.

(** C5: a write handle that is closed after WRITEs carrying no byte at
    all: nothing is sent to the store, an [upload-error] event with the
    message [Empty files are not allowed] is emitted, and CLOSE is
    answered FAILURE (the handle is then gone). *)
Theorem empty_upload_never_reaches_store :
  forall (st : session) (h : list byte) (flags : Z) (filename fullname : string)
         (ws : list writeArgs) (reqid : Z) (w : W),
    List.length h = 4%nat ->
    openFiles st !! readUInt32BE h = Some (newWriteState flags filename fullname) ->
    hasFlag flags WRITE = true ->
    concat (payloads ws) = [] ->
    exists (tr : list step) (st' : session),
      exec E (serve srv u polls st (writeRequests h ws ++ [CLOSE reqid h])) w =
        (tr, Done st', worldSleep E w 100)
      /\ tr = (writeReplies u ws ++
               [Replied (TrackActivity (username u));
                Replied (Emit (upload_error fullname "Empty files are not allowed"
                                 (username u)));
                Slept 100;
                Replied (SftpStatus reqid FAILURE)])%list
      /\ storeCalls tr = []
      /\ openFiles st' !! readUInt32BE h = None.
Proof.
  intros st h flags filename fullname ws reqid w Hlen Hfs Hflag Hempty.
  destruct (writes_append ws st h _ [] w Hlen Hfs Hflag eq_refl) as (st1 & Hrun & Hlook).
  rewrite serve_app, Hrun. cbn [serve handle]. rewrite exec_bind.
  rewrite (close_write_handle st1 h _ ([] ++ payloads ws) reqid w Hlen Hlook Hflag
             eq_refl eq_refl eq_refl).
  rewrite exec_bind. unfold uploadOnEnd. cbn [app]. rewrite Hempty.
  cbn [List.length Nat.eqb bind out exec].
  erewrite poll_after_error by (first [exact Hlook | reflexivity]).
  cbn [exec app]. eexists _, _. split; [reflexivity |]. split; [reflexivity |].
  split.
  - rewrite storeCalls_app, storeCalls_writeReplies. reflexivity.
  - apply deleteFile_lookup.
Qed.


Lemma poll_after_success (st : session) (id reqid t : Z) (fs : fileState) (w : W) :
  let st1 := withLastUploadTime
               (withFiles st (<[ id := setUploadComplete fs ]> (openFiles st))) t in
  exec E (checkUploadStatus polls st1 reqid id) w =
    ([Replied (SftpStatus reqid OK)], Done (deleteFile st1 id), w).
Proof.
  intros st1. rewrite checkUploadStatus_unfold. unfold st1.
  cbn [openFiles withFiles withLastUploadTime].
  rewrite lookup_insert_eq. reflexivity.
Qed.

(** C6: for a write handle that received the payloads of [ws] (whatever
    their offsets), the store commands of the session up to the answer to
    CLOSE are a single PUT whose body is the concatenation of the payloads
    in the order of receipt and whose ContentLength is the length of that
    body; no command at all when the upload is refused before the store
    (empty body, or a name under ledgers or invoices that is not a PDF). *)
Theorem put_body_is_concatenation :
  forall (st : session) (h : list byte) (flags : Z) (filename fullname : string)
         (ws : list writeArgs) (reqid : Z) (w : W),
    List.length h = 4%nat ->
    openFiles st !! readUInt32BE h = Some (newWriteState flags filename fullname) ->
    hasFlag flags WRITE = true ->
    let body := concat (payloads ws) in
    let lowerFullname := Js.toLowerCase fullname in
    let refused :=
      (List.length body =? 0)%nat
      || ((Js.includes lowerFullname "/ledgers/" || Js.includes lowerFullname "/invoices/")
          && negb (Js.endsWith lowerFullname ".pdf")) in
    exists (tr : list step) (st' : session) (w' : W),
      exec E (serve srv u polls st (writeRequests h ws ++ [CLOSE reqid h])) w =
        (tr, Done st', w')
      /\ storeCalls tr =
           (if refused then []
            else [PutObject (bucketName srv) fullname body
                    (Some (Z.of_nat (List.length body))) None])
      /\ openFiles st' !! readUInt32BE h = None.
Proof.
  intros st h flags filename fullname ws reqid w Hlen Hfs Hflag body lowerFullname refused.
  destruct (writes_append ws st h _ [] w Hlen Hfs Hflag eq_refl) as (st1 & Hrun & Hlook).
  rewrite serve_app, Hrun. cbn [serve handle]. rewrite exec_bind.
  rewrite (close_write_handle st1 h _ ([] ++ payloads ws) reqid w Hlen Hlook Hflag
             eq_refl eq_refl eq_refl).
  rewrite exec_bind. unfold uploadOnEnd. cbn [app Sftp.fullname setStream newWriteState].
  fold body. fold lowerFullname. unfold refused.
  destruct (List.length body =? 0)%nat.
  { cbn [bind out exec orb].
    erewrite poll_after_error by (first [exact Hlook | reflexivity]).
    cbn [exec app]. eexists _, _, _. split; [reflexivity |]. split.
    - rewrite storeCalls_app, storeCalls_writeReplies. reflexivity.
    - apply deleteFile_lookup. }
  cbn [orb].
  destruct ((Js.includes lowerFullname "/ledgers/" || Js.includes lowerFullname "/invoices/")
            && negb (Js.endsWith lowerFullname ".pdf")).
  { cbn [bind out exec].
    erewrite poll_after_error by (first [exact Hlook | reflexivity]).
    cbn [exec app]. eexists _, _, _. split; [reflexivity |]. split.
    - rewrite storeCalls_app, storeCalls_writeReplies. reflexivity.
    - apply deleteFile_lookup. }
  cbn [bind send exec].
  destruct (worldSend E w _) as [[response | e] w1].
  - rewrite Hlook. cbn [bind now out exec].
    rewrite poll_after_success.
    cbn [exec app]. eexists _, _, _. split; [reflexivity |]. split.
    + rewrite storeCalls_app, storeCalls_writeReplies. reflexivity.
    + apply deleteFile_lookup.
  - cbn [bind out exec].
    erewrite poll_after_error by (first [exact Hlook | reflexivity]).
    cbn [exec app]. eexists _, _, _. split; [reflexivity |]. split.
    + rewrite storeCalls_app, storeCalls_writeReplies. reflexivity.
    + apply deleteFile_lookup.
Qed.

End Uploads.

(** [writeSession] is the state OPEN leaves. *)
Example open_for_write_leaves_writeSession :
  exec scriptedWorld (handle demoServer alice 1 newSession (OPEN 1 "/ledgers/jan.pdf" 26))
       (storeAnswering [listed []])
  = ([Replied (TrackActivity "alice");
      Sent (ListObjectsV2 "uploads" "users/alice/ledgers/jan.pdf");
      Replied (SftpHandle 1 handle0)],
     Done writeSession, storeAnswering []).
Proof. reflexivity. Qed.

Lemma empty_upload_never_reaches_store_witness :
  exists (tr : list step) (st' : session),
    exec scriptedWorld
         (serve demoServer alice 1 writeSession
            (writeRequests handle0 [(2, 0, [])] ++ [CLOSE 3 handle0]))
         (storeAnswering [acknowledged]) =
      (tr, Done st', {| answers := [acknowledged]; clock := 1700000100100 |})
    /\ storeCalls tr = []
    /\ In (Replied (Emit (upload_error "users/alice/ledgers/jan.pdf"
                            "Empty files are not allowed" "alice"))) tr
    /\ In (Replied (SftpStatus 3 FAILURE)) tr.
Proof.
  destruct (empty_upload_never_reaches_store scriptedWorld demoServer alice 1%nat
              writeSession handle0 26 "/ledgers/jan.pdf" "users/alice/ledgers/jan.pdf"
              [(2, 0, [])] 3 (storeAnswering [acknowledged]))
    as (tr & st' & Hrun & Htr & Hcalls & _);
    [reflexivity | reflexivity | reflexivity | reflexivity |].
  exists tr, st'. split; [exact Hrun |]. split; [exact Hcalls |].
  rewrite Htr. split; simpl; tauto.
Defined.

Lemma put_body_is_concatenation_witness :
  exists (tr : list step) (st' : session) (w' : scripted),
    exec scriptedWorld
         (serve demoServer alice 1 writeSession
            (writeRequests handle0 [(2, 3, [x25; x50]); (3, 0, [x44; x46])]
             ++ [CLOSE 4 handle0]))
         (storeAnswering [acknowledged]) = (tr, Done st', w')
    /\ storeCalls tr =
         [PutObject "uploads" "users/alice/ledgers/jan.pdf" [x25; x50; x44; x46]
            (Some 4) None].
Proof.
  destruct (put_body_is_concatenation scriptedWorld demoServer alice 1%nat
              writeSession handle0 26 "/ledgers/jan.pdf" "users/alice/ledgers/jan.pdf"
              [(2, 3, [x25; x50]); (3, 0, [x44; x46])] 4 (storeAnswering [acknowledged]))
    as (tr & st' & w' & Hrun & Hcalls & _);
    [reflexivity | reflexivity | reflexivity |].
  exists tr, st', w'. split; [exact Hrun | exact Hcalls].
Defined.

(** ** Handles on the wire *)

Lemma byteToZ_byteOfZ (n : Z) : byteToZ (byteOfZ n) = n mod 256.
Proof.
  unfold byteToZ, byteOfZ.
  assert (Hr : 0 <= n mod 256 < 256) by (apply Z.mod_pos_bound; lia).
  destruct (Strings.Byte.of_N (Z.to_N (n mod 256))) as [b |] eqn:Hb.
  - apply Strings.Byte.to_of_N in Hb. rewrite Hb. lia.
  - apply Strings.Byte.of_N_None_iff in Hb. lia.
Qed.

(** A handle id written on the wire is read back as it was. *)
Lemma handle_roundtrip (handleId : Z) :
  0 <= handleId < 4294967296 ->
  exists h : list byte,
    writeUInt32BE handleId = Some h /\ List.length h = 4%nat /\ readUInt32BE h = handleId.
Proof.
  intros H. unfold writeUInt32BE.
  destruct (Z.leb_spec 0 handleId); [| lia].
  destruct (Z.ltb_spec handleId 4294967296); [| lia].
  eexists. split; [reflexivity |]. split; [reflexivity |].
  cbn [readUInt32BE]. rewrite !byteToZ_byteOfZ.
  pose proof (Z.div_mod handleId 256 ltac:(lia)).
  pose proof (Z.div_mod (handleId / 256) 256 ltac:(lia)).
  pose proof (Z.div_mod (handleId / 256 / 256) 256 ltac:(lia)).
  replace 65536 with (256 * 256) by lia.
  replace 16777216 with (256 * 256 * 256) by lia.
  rewrite <- !Z.div_div by lia.
  assert (handleId / 256 / 256 / 256 < 256).
  { apply Z.div_lt_upper_bound; [lia |]. apply Z.div_lt_upper_bound; [lia |].
    apply Z.div_lt_upper_bound; lia. }
  assert (0 <= handleId / 256 / 256 / 256) by (repeat apply Z.div_pos; lia).
  rewrite (Z.mod_small (handleId / 256 / 256 / 256)) by lia.
  lia.
Qed.

(** ** Protected paths and the access policy *)

Lemma append_cons (c : ascii) (s t : string) : String c s ++ t = String c (s ++ t).
Proof. reflexivity. Qed.

Lemma length_append (s t : string) :
  String.length (s ++ t) = (String.length s + String.length t)%nat.
Proof. induction s as [| c s IH]; [reflexivity |]. rewrite append_cons. simpl. now rewrite IH. Qed.

Lemma substringFrom_append (s t : string) :
  Js.substringFrom (String.length s) (s ++ t) = t.
Proof. induction s as [| c s IH]; [reflexivity | exact IH]. Qed.

Lemma endsWith_append (s t : string) : Js.endsWith (s ++ t) t = true.
Proof.
  unfold Js.endsWith. rewrite length_append.
  replace (String.length s + String.length t - String.length t)%nat
    with (String.length s) by lia.
  rewrite substringFrom_append, String.eqb_refl, andb_true_r.
  apply Nat.leb_le. lia.
Qed.

(** The markers of the two directories are protected under any prefix,
    hence for every user. *)
Lemma markers_are_protected (dir : string) :
  isProtectedPath (dir ++ "/ledgers/.directory") = true
  /\ isProtectedPath (dir ++ "/invoices/.directory") = true.
Proof.
  unfold isProtectedPath. rewrite !endsWith_append.
  split; repeat (rewrite ?orb_true_r, ?orb_true_l); reflexivity.
Qed.

Section Refusals.
Context {W : Type} (E : world W).
Variables (srv : server) (u : user) (polls : nat).

(** What the test of the REMOVE and RENAME handlers accepts is refused
    before anything is sent to the store. *)
Lemma protected_path_refused (st : session) (reqid : Z) (filePath newPath : string) (w : W) :
  isProtectedPath filePath = true ->
  exec E (handle srv u polls st (REMOVE reqid filePath)) w =
    ([Replied (SftpStatus reqid PERMISSION_DENIED);
      Replied (Emit (protected_directory_deletion_blocked (username u) filePath
                       (worldNow E w)))], Done st, w)
  /\ exec E (handle srv u polls st (RENAME reqid filePath newPath)) w =
    ([Replied (SftpStatus reqid PERMISSION_DENIED);
      Replied (Emit (protected_directory_rename_blocked (username u) filePath newPath
                       (worldNow E w)))], Done st, w).
Proof.
  intros H. cbn [handle]. unfold onREMOVE, onRENAME. rewrite H. split; reflexivity.
Qed.

(** The verbs that consult the access policy: a path it denies is answered
    PERMISSION_DENIED and nothing is sent to the store. *)
Lemma denied_path_refused (st : session) (reqid : Z) (p : string) (w : W) :
  accessControl srv (username u) p = false ->
  exec E (handle srv u polls st (OPENDIR reqid p)) w =
    ([Replied (TrackActivity (username u)); Replied (SftpStatus reqid PERMISSION_DENIED)],
     Done st, w)
  /\ exec E (handle srv u polls st (STAT reqid p)) w =
    ([Replied (SftpStatus reqid PERMISSION_DENIED)], Done st, w)
  /\ exec E (handle srv u polls st (LSTAT reqid p)) w =
    ([Replied (SftpStatus reqid PERMISSION_DENIED)], Done st, w)
  /\ (isProtectedPath p = false ->
      exec E (handle srv u polls st (REMOVE reqid p)) w =
        ([Replied (SftpStatus reqid PERMISSION_DENIED)], Done st, w)).
Proof.
  intros H. cbn [handle]. unfold onOPENDIR, onSTAT, onLSTAT, onREMOVE. rewrite H.
  repeat split; try reflexivity. intros ->. reflexivity.
Qed.

(** OPEN consults the policy on the name without its last separator. *)
Lemma denied_open_refused (st : session) (reqid flags : Z) (p : string) (w : W) :
  accessControl srv (username u) (stripTrailingSeparator p) = false ->
  exec E (handle srv u polls st (OPEN reqid p flags)) w =
    ([Replied (TrackActivity (username u)); Replied (SftpStatus reqid PERMISSION_DENIED)],
     Done st, w).
Proof. intros H. cbn [handle]. unfold onOPEN. rewrite H. reflexivity. Qed.

End Refusals.

(** RENAME and REALPATH are the same programs whatever the access-control
    module is. *)
Lemma rename_ignores_policy (bucket : string) (cfg : config)
    (policy1 policy2 : string -> string -> bool) (u : user) (st : session)
    (reqid : Z) (oldPath newPath : string) :
  onRENAME {| bucketName := bucket; accessControl := policy1; sftpConfig := cfg |}
           u st reqid oldPath newPath
  = onRENAME {| bucketName := bucket; accessControl := policy2; sftpConfig := cfg |}
             u st reqid oldPath newPath
  /\ onREALPATH {| bucketName := bucket; accessControl := policy1; sftpConfig := cfg |}
                u st reqid oldPath
     = onREALPATH {| bucketName := bucket; accessControl := policy2; sftpConfig := cfg |}
                  u st reqid oldPath.
Proof. split; reflexivity. Qed.

Lemma cleanPath_starts_with_slash (filename : string) :
  exists rest : string, cleanPath filename = String "/" rest.
Proof.
  unfold cleanPath.
  set (p := Js.replaceBackslash _).
  destruct (Js.startsWith p "/") eqn:Hp.
  - destruct p as [| c p']; [discriminate |]. cbn [Js.startsWith] in Hp.
    apply andb_prop in Hp as [Hc _]. apply Ascii.eqb_eq in Hc. subst c. eauto.
  - eauto.
Qed.

(** The key [_mapKey] returns is never the empty string. *)
Lemma mapKey_not_empty (userPath filename : string) : mapKey userPath filename <> "".
Proof.
  unfold mapKey. destruct (cleanPath_starts_with_slash filename) as [rest ->].
  set (up := if (userPath =? "")%string then "users" else userPath).
  assert (H : up ++ String "/" rest <> "") by (destruct up; discriminate).
  destruct (_ && _); exact H.
Qed.

(** A directory state whose prefix is not empty lists the entries of its
    store listing; the prefix OPENDIR stores is a mapped key, hence such. *)
Lemma named_prefix_lists_store_entries {W : Type} (E : world W) (reqid : Z)
    (state : dirState) (w : W) :
  dirFullname state <> "" ->
  exec E (listDirectoryContents reqid state) w =
    ([Replied (SftpName reqid
                 (removeDuplicates ∅
                    (map (listingEntry (dirFullname state)) (listings state))))],
     Done tt, w).
Proof.
  intros H. unfold listDirectoryContents.
  destruct (String.eqb_spec (dirFullname state) ""); [contradiction | reflexivity].
Qed.

(** The names [removeDuplicates] leaves are pairwise different. *)
Lemma removeDuplicates_fresh (entries : list entry) :
  forall (seen : gset string) (e : entry),
    e ∈ removeDuplicates seen entries -> entryName e ∉ seen.
Proof.
  induction entries as [| x entries IH]; intros seen e He; simpl in He.
  - inversion He.
  - destruct (decide (entryName x ∈ seen)) as [Hin | Hout].
    + now apply IH.
    + apply elem_of_cons in He as [-> | He]; [assumption |].
      apply IH in He. set_solver.
Qed.

Lemma removeDuplicates_NoDup (entries : list entry) (seen : gset string) :
  NoDup (map entryName (removeDuplicates seen entries)).
Proof.
  revert seen. induction entries as [| x entries IH]; intros seen; simpl.
  - constructor.
  - destruct (decide (entryName x ∈ seen)) as [Hin | Hout]; [apply IH |].
    cbn [map]. apply NoDup_cons. split; [| apply IH].
    intros Hx. apply list_elem_of_In, in_map_iff in Hx as (e & Heq & He).
    apply list_elem_of_In, removeDuplicates_fresh in He. rewrite <- Heq in He. set_solver.
Qed.

(** ** The code at the inputs where it leaves the specification *)

(** C1 (the code at the failing input): for the user alice the paths
    [/alice/ledgers] and [/alice/invoices] do not pass the test of the
    REMOVE and RENAME handlers, which names the directories of the user
    called [user] only: REMOVE sends a DELETE and answers OK, RENAME sends
    a COPY and a DELETE and answers OK, and no blocked event is emitted. *)
Theorem own_directories_of_other_users_not_protected :
  isProtectedPath "/alice/ledgers" = false
  /\ isProtectedPath "/alice/invoices" = false
  /\ exec scriptedWorld
          (handle demoServer alice 1 newSession (REMOVE 1 "/alice/ledgers"))
          (storeAnswering [acknowledged])
     = ([Sent (DeleteObject "uploads" "users/alice/alice/ledgers");
         Replied (Emit (file_deleted "users/alice/alice/ledgers" "alice"));
         Replied (SftpStatus 1 OK)],
        Done newSession, storeAnswering [])
  /\ exec scriptedWorld
          (handle demoServer alice 1 newSession (RENAME 2 "/alice/invoices" "/alice/old"))
          (storeAnswering [acknowledged; acknowledged])
     = ([Sent (CopyObject "uploads" "users/alice/alice/old"
                 "uploads/users/alice/alice/invoices");
         Sent (DeleteObject "uploads" "users/alice/alice/invoices");
         Replied (Emit (file_renamed "users/alice/alice/old"
                          "users/alice/alice/invoices" "alice"));
         Replied (SftpStatus 2 OK)],
        Done newSession, storeAnswering []).
Proof. repeat split; reflexivity. Qed.

(** The same requests from the user called [user] are refused. *)
Example directories_of_user_protected :
  exec scriptedWorld
       (handle demoServer {| username := "user"; path := "users/user" |} 1 newSession
          (REMOVE 1 "/user/ledgers"))
       (storeAnswering [acknowledged])
  = ([Replied (SftpStatus 1 PERMISSION_DENIED);
      Replied (Emit (protected_directory_deletion_blocked "user" "/user/ledgers"
                       1700000100000))],
     Done newSession, storeAnswering [acknowledged]).
Proof. reflexivity. Qed.

(** C2 (the code at the failing input): both access-control modules deny
    alice the paths [/bob/a.txt] and [/bob/b.txt], and her RENAME of the
    one to the other is not refused: a COPY and a DELETE are sent to the
    store and the answer is OK, with either module. *)
Theorem rename_of_denied_paths_reaches_store :
  AccessControl.isPathAllowed "alice" "/bob/a.txt" = false
  /\ AccessControl.isPathAllowed "alice" "/bob/b.txt" = false
  /\ ConfigAccessControl.isPathAllowed "alice" "/bob/a.txt" = false
  /\ ConfigAccessControl.isPathAllowed "alice" "/bob/b.txt" = false
  /\ exec scriptedWorld
          (handle demoServer alice 1 newSession (RENAME 1 "/bob/a.txt" "/bob/b.txt"))
          (storeAnswering [acknowledged; acknowledged])
     = ([Sent (CopyObject "uploads" "users/alice/bob/b.txt"
                 "uploads/users/alice/bob/a.txt");
         Sent (DeleteObject "uploads" "users/alice/bob/a.txt");
         Replied (Emit (file_renamed "users/alice/bob/b.txt" "users/alice/bob/a.txt"
                          "alice"));
         Replied (SftpStatus 1 OK)],
        Done newSession, storeAnswering [])
  /\ exec scriptedWorld
          (handle demoServerConfig alice 1 newSession (RENAME 1 "/bob/a.txt" "/bob/b.txt"))
          (storeAnswering [acknowledged; acknowledged])
     = exec scriptedWorld
          (handle demoServer alice 1 newSession (RENAME 1 "/bob/a.txt" "/bob/b.txt"))
          (storeAnswering [acknowledged; acknowledged]).
Proof. repeat split; reflexivity. Qed.

(** REALPATH of a denied path sends a LIST as well. *)
Example realpath_of_denied_path_reaches_store :
  exec scriptedWorld
       (handle demoServer alice 1 newSession (REALPATH 1 "/bob/a.txt"))
       (storeAnswering [listed []])
  = ([Sent (ListObjectsV2 "uploads" "users/alice/bob/a.txt");
      Replied (SftpStatus 1 NO_SUCH_FILE)],
     Done newSession, storeAnswering []).
Proof. reflexivity. Qed.

(** C3 (the code at the failing input): alice opens [/] while her home
    holds the two markers written at login; READDIR on the handle returns
    the two entries of the store listing, [invoices] and [ledgers], and no
    entry named [alice]: the three synthetic entries are not produced. *)
Theorem root_listing_comes_from_store :
  exec scriptedWorld
       (serve demoServer alice 1 newSession [OPENDIR 1 "/"; READDIR 2 handle0])
       (storeAnswering [listed [object "users/alice/invoices/.directory" 36;
                                object "users/alice/ledgers/.directory" 35]])
  = ([Replied (TrackActivity "alice");
      Sent (ListObjectsV2 "uploads" "users/alice/");
      Replied (SftpHandle 1 handle0);
      Replied (TrackActivity "alice");
      Replied (SftpName 2
        [ {| entryName := "invoices";
             entryLongname := ListingLine true 0 1700000000000 "invoices";
             entryAttrs := Some (directoryAttrs 1700000000000) |};
          {| entryName := "ledgers";
             entryLongname := ListingLine true 0 1700000000000 "ledgers";
             entryAttrs := Some (directoryAttrs 1700000000000) |} ])],
     Done {| openFiles := ∅;
             openDirs :=
               {[ 0 := {| dirFullname := "users/alice/";
                          listings := [setDir (object "users/alice/invoices/.directory" 36)
                                         "users/alice/invoices";
                                       setDir (object "users/alice/ledgers/.directory" 35)
                                         "users/alice/ledgers"];
                          dirUser := alice;
                          dirRead := true |} ]};
             handleCount := 1;
             lastUploadTime := 0 |},
     storeAnswering []).
Proof. reflexivity. Qed.

(** C7 (the code at the failing input): the listing of [users/alice/docs]
    holds the object [d] and the marker [d/.directory], in the order of
    the keys; the one entry emitted for the name [d] is the file (mode
    0644, size 5), not the directory. *)
Theorem file_entry_wins_over_directory_marker :
  let contents := [object "users/alice/docs/d" 5;
                   object "users/alice/docs/d/.directory" 33] in
  processDirectoryListings contents "users/alice/docs"
  = [object "users/alice/docs/d" 5;
     setDir (object "users/alice/docs/d/.directory" 33) "users/alice/docs/d"]
  /\ exec scriptedWorld
          (serve demoServer alice 1 newSession [OPENDIR 1 "/docs"; READDIR 2 handle0])
          (storeAnswering [listed contents])
     = ([Replied (TrackActivity "alice");
         Sent (ListObjectsV2 "uploads" "users/alice/docs");
         Replied (SftpHandle 1 handle0);
         Replied (TrackActivity "alice");
         Replied (SftpName 2
           [ {| entryName := "d";
                entryLongname := ListingLine false 5 1700000000000 "d";
                entryAttrs := Some (fileAttrs (object "users/alice/docs/d" 5)) |} ])],
        Done {| openFiles := ∅;
                openDirs :=
                  {[ 0 := {| dirFullname := "users/alice/docs";
                             listings := [object "users/alice/docs/d" 5;
                                          setDir (object "users/alice/docs/d/.directory" 33)
                                            "users/alice/docs/d"];
                             dirUser := alice;
                             dirRead := true |} ]};
                handleCount := 1;
                lastUploadTime := 0 |},
        storeAnswering []).
Proof. split; reflexivity. Qed.

(** With the marker first in the listing the directory is the entry kept. *)
Example directory_marker_first :
  map (fun e => (entryName e, mode <$> entryAttrs e))
      (removeDuplicates ∅
         (map (listingEntry "users/alice/docs")
              (processDirectoryListings
                 [object "users/alice/docs/d/.directory" 33; object "users/alice/docs/d" 5]
                 "users/alice/docs")))
  = [("d", Some 493)].
Proof. reflexivity. Qed.

(** ** Path primitives on examples *)

Example normalize_root : Path.normalize "/" = "/". Proof. reflexivity. Qed.
Example normalize_t1 : Path.normalize "/a//b/./c/../d/" = "/a/b/d/". Proof. reflexivity. Qed.
Example normalize_t2 : Path.normalize "../x/../../y" = "../../y". Proof. reflexivity. Qed.
Example normalize_t3 : Path.normalize "/../bob/a.txt" = "/bob/a.txt". Proof. reflexivity. Qed.
Example normalize_t4 : Path.normalize "a/.." = ".". Proof. reflexivity. Qed.
Example normalize_t5 : Path.normalize "./" = "./". Proof. reflexivity. Qed.
Example dirname_t1 : Path.dirname "users/alice/ledgers/jan.pdf" = "users/alice/ledgers". Proof. reflexivity. Qed.
Example dirname_t2 : Path.dirname "/abc" = "/". Proof. reflexivity. Qed.
Example dirname_t3 : Path.dirname "/a/b/" = "/a". Proof. reflexivity. Qed.
Example dirname_t4 : Path.dirname "abc" = ".". Proof. reflexivity. Qed.
Example basename_t1 : Path.basename "users/alice/ledgers/jan.pdf" = "jan.pdf". Proof. reflexivity. Qed.
Example basename_t2 : Path.basename "/a/b//" = "b". Proof. reflexivity. Qed.
Example split_t1 : Js.split Js.slash "/bob/secret.txt" = [""; "bob"; "secret.txt"]. Proof. reflexivity. Qed.
Example split_t2 : Js.split Js.slash "" = [""]. Proof. reflexivity. Qed.
Example ends_t1 : Js.endsWith "/alice/ledgers/.directory" "/ledgers/.directory" = true. Proof. reflexivity. Qed.
Example rep_t1 : Js.replaceBackslashDotBackslash "a\b\c\d\e" = "a/c/e". Proof. reflexivity. Qed.

(* ===================================================================== *)
(** * Whole sessions: the home of the user, handles, listings, access control *)
(* ===================================================================== *)

(** ** Reasoning on every path of a program *)

Lemma ensures_weaken {A : Type} (S S' : step -> Prop) (P P' : A -> Prop) (p : io A) :
  (forall s, S s -> S' s) -> (forall a, P a -> P' a) -> ensures S P p -> ensures S' P' p.
Proof.
  intros HS HP. induction p as [a | o k IH | c k IH | k IH | ms k IH | e]; simpl; auto.
  - intros [Hc Hk]. split; auto.
  - intros [Hc Hk]. split; auto.
  - intros [Hc Hk]. split; auto.
Qed.

Lemma ensures_bind {A B : Type} (S : step -> Prop) (P : B -> Prop) (m : io A)
    (f : A -> io B) :
  ensures S (fun a => ensures S P (f a)) m -> ensures S P (bind m f).
Proof.
  induction m as [a | o k IH | c k IH | k IH | ms k IH | e]; simpl; auto.
  - intros [Hc Hk]. split; auto.
  - intros [Hc Hk]. split; auto.
  - intros [Hc Hk]. split; auto.
Qed.

Lemma ensures_exec {W A : Type} (E : world W) (S : step -> Prop) (P : A -> Prop)
    (p : io A) :
  ensures S P p ->
  forall (w : W) (tr : list step) (r : outcome A) (w' : W),
    exec E p w = (tr, r, w') ->
    Forall S tr /\ (forall a : A, r = Done a -> P a).
Proof.
  induction p as [a | o k IH | c k IH | k IH | ms k IH | e]; simpl; intros H w tr r w' Hrun.
  - inversion Hrun; subst. split; [constructor | intros ? [= <-]; exact H].
  - destruct H as [Ho H]. destruct (exec E k w) as [[tr0 r0] w0] eqn:Hk. inversion Hrun; subst.
    apply (IH H) in Hk as [Htr Hres]. split; [constructor; assumption | exact Hres].
  - destruct H as [Hc Hk]. destruct (worldSend E w c) as [res w1].
    destruct (exec E (k res) w1) as [[tr0 r0] w0] eqn:Hrun0. inversion Hrun; subst.
    apply (IH res (Hk res)) in Hrun0 as [Hcalls Hres]. split; [| exact Hres].
    constructor; assumption.
  - exact (IH _ (H _) _ _ _ _ Hrun).
  - destruct H as [Hs H].
    destruct (exec E k (worldSleep E w ms)) as [[tr0 r0] w0] eqn:Hk. inversion Hrun; subst.
    apply (IH H) in Hk as [Htr Hres]. split; [constructor; assumption | exact Hres].
  - inversion Hrun; subst. split; [constructor | intros ? [=]].
Qed.

Lemma append_nil_r (s : string) : s ++ "" = s.
Proof. induction s as [| c s IH]; [reflexivity |]. rewrite append_cons. now rewrite IH. Qed.

Lemma append_assoc (a b c : string) : (a ++ b) ++ c = a ++ b ++ c.
Proof. induction a as [| x a IH]; [reflexivity |]. rewrite !append_cons. now rewrite IH. Qed.

Lemma startsWith_append (a b : string) : Js.startsWith (a ++ b) a = true.
Proof.
  induction a as [| x a IH]; [destruct b; reflexivity |].
  rewrite append_cons. cbn [Js.startsWith]. rewrite Ascii.eqb_refl. exact IH.
Qed.

Lemma mapKey_append (userPath filename : string) :
  userPath <> "" ->
  exists rest : string, mapKey userPath filename = (userPath ++ "/") ++ rest.
Proof.
  intros H. unfold mapKey. destruct (cleanPath_starts_with_slash filename) as [rest ->].
  destruct (String.eqb_spec userPath ""); [contradiction |].
  exists rest. rewrite append_assoc. destruct (_ && _); reflexivity.
Qed.

Lemma mapKey_inHome (u : user) (filename : string) :
  path u <> "" -> inHome u (mapKey (path u) filename).
Proof.
  intros H. destruct (mapKey_append (path u) filename H) as [rest ->].
  apply startsWith_append.
Qed.

(** ** What every handler keeps

    The handlers of a user whose base path is [<userBasePath>/<username>]
    keep [sessionKept] and take only steps of [stepInHome]. *)

Section Home.
Variables (srv : server) (u : user).
Hypothesis Hpath : path u = userBasePath (sftpConfig srv) ++ "/" ++ username u.

Lemma path_not_empty : path u <> "".
Proof. rewrite Hpath. destruct (userBasePath (sftpConfig srv)); discriminate. Qed.

Lemma kept_refl (st0 st : session) : sessionKept u st0 st -> sessionKept u st st.
Proof.
  intros (Hf & Hd & Hh & Hc & Hdis & Hrev).
  split; [exact Hf | split; [exact Hd | split; [exact Hh | split; [lia | split]]]].
  - exact Hdis.
  - intros h _. split; auto.
Qed.

Lemma kept_bump (st0 st : session) :
  sessionKept u st0 st -> sessionKept u st0 (bumpHandleCount st).
Proof.
  intros (Hf & Hd & Hh & Hc & Hdis & Hrev).
  split; [exact Hf | split; [exact Hd | split; [| split; [cbn; lia | split]]]].
  - intros h Hin. apply Hh in Hin. cbn. lia.
  - exact Hdis.
  - exact Hrev.
Qed.

Lemma kept_update_file (st0 st : session) (h : Z) (fs fs' : fileState) :
  sessionKept u st0 st -> openFiles st !! h = Some fs -> inHome u (fullname fs') ->
  sessionKept u st0 (withFiles st (<[ h := fs' ]> (openFiles st))).
Proof.
  intros (Hf & Hd & Hh & Hc & Hdis & Hrev) Hk Hin.
  split; [| split; [exact Hd | split; [| split; [exact Hc | split]]]].
  - intros k fs'' Hk'. cbn in Hk'. apply lookup_insert_Some in Hk' as [[<- <-] | [_ Hk']].
    + exact Hin.
    + exact (Hf _ _ Hk').
  - intros k [Hk' | Hk']; cbn in Hk' |- *.
    + apply lookup_insert_is_Some in Hk' as [<- | [_ Hk']]; apply Hh; eauto.
    + apply Hh; auto.
  - intros k Hk'. cbn in Hk' |- *.
    apply lookup_insert_is_Some in Hk' as [<- | [_ Hk']]; apply Hdis; eauto.
  - intros k Hlt. destruct (Hrev k Hlt) as [Hfiles Hdirs]. split; [| exact Hdirs].
    intros Hk'. cbn in Hk'. apply Hfiles.
    apply lookup_insert_is_Some in Hk' as [<- | [_ Hk']]; eauto.
Qed.

Lemma kept_new_file (st0 st : session) (fs : fileState) :
  sessionKept u st0 st -> inHome u (fullname fs) ->
  sessionKept u st0
    (withFiles (bumpHandleCount st)
       (<[ handleCount st := fs ]> (openFiles (bumpHandleCount st)))).
Proof.
  intros (Hf & Hd & Hh & Hc & Hdis & Hrev) Hin.
  assert (Hfresh : openFiles st !! handleCount st = None /\ openDirs st !! handleCount st = None).
  { split.
    - destruct (openFiles st !! handleCount st) eqn:Hk; [| reflexivity].
      assert (handleCount st < handleCount st) by (apply Hh; eauto). lia.
    - destruct (openDirs st !! handleCount st) eqn:Hk; [| reflexivity].
      assert (handleCount st < handleCount st) by (apply Hh; eauto). lia. }
  destruct Hfresh as [Hnofile Hnodir].
  split; [| split; [exact Hd | split; [| split; [cbn; lia | split]]]].
  - intros k fs' Hk. cbn in Hk. apply lookup_insert_Some in Hk as [[<- <-] | [_ Hk]].
    + exact Hin.
    + exact (Hf _ _ Hk).
  - intros k [Hk | Hk]; cbn in Hk |- *.
    + apply lookup_insert_is_Some in Hk as [<- | [_ Hk]]; [lia |].
      assert (k < handleCount st) by (apply Hh; auto). lia.
    + assert (k < handleCount st) by (apply Hh; auto). lia.
  - intros k Hk. cbn in Hk |- *.
    apply lookup_insert_is_Some in Hk as [<- | [_ Hk]]; [exact Hnodir | apply Hdis, Hk].
  - intros k Hlt. destruct (Hrev k Hlt) as [Hfiles Hdirs]. split; [| exact Hdirs].
    intros Hk. cbn in Hk. apply Hfiles.
    apply lookup_insert_is_Some in Hk as [<- | [_ Hk]]; [lia | exact Hk].
Qed.

Lemma kept_update_dir (st0 st : session) (h : Z) (ds ds' : dirState) :
  sessionKept u st0 st -> openDirs st !! h = Some ds -> dirFullname ds' <> "" ->
  sessionKept u st0 (withDirs st (<[ h := ds' ]> (openDirs st))).
Proof.
  intros (Hf & Hd & Hh & Hc & Hdis & Hrev) Hk Hne.
  split; [exact Hf | split; [| split; [| split; [exact Hc | split]]]].
  - intros k ds'' Hk'. cbn in Hk'. apply lookup_insert_Some in Hk' as [[<- <-] | [_ Hk']].
    + exact Hne.
    + exact (Hd _ _ Hk').
  - intros k [Hk' | Hk']; cbn in Hk' |- *.
    + apply Hh; auto.
    + apply lookup_insert_is_Some in Hk' as [<- | [_ Hk']]; apply Hh; eauto.
  - intros k Hk'. cbn in Hk' |- *. pose proof (Hdis k Hk') as Hnone.
    rewrite lookup_insert_ne; [exact Hnone |]. intros <-. congruence.
  - intros k Hlt. destruct (Hrev k Hlt) as [Hfiles Hdirs]. split; [exact Hfiles |].
    intros Hk'. cbn in Hk'. apply Hdirs.
    apply lookup_insert_is_Some in Hk' as [<- | [_ Hk']]; eauto.
Qed.

Lemma kept_new_dir (st0 st : session) (ds : dirState) :
  sessionKept u st0 st -> dirFullname ds <> "" ->
  sessionKept u st0
    (withDirs (bumpHandleCount st)
       (<[ handleCount st := ds ]> (openDirs (bumpHandleCount st)))).
Proof.
  intros (Hf & Hd & Hh & Hc & Hdis & Hrev) Hne.
  assert (Hnofile : openFiles st !! handleCount st = None).
  { destruct (openFiles st !! handleCount st) eqn:Hk; [| reflexivity].
    assert (handleCount st < handleCount st) by (apply Hh; eauto). lia. }
  split; [exact Hf | split; [| split; [| split; [cbn; lia | split]]]].
  - intros k ds' Hk. cbn in Hk. apply lookup_insert_Some in Hk as [[<- <-] | [_ Hk]].
    + exact Hne.
    + exact (Hd _ _ Hk).
  - intros k [Hk | Hk]; cbn in Hk |- *.
    + assert (k < handleCount st) by (apply Hh; auto). lia.
    + apply lookup_insert_is_Some in Hk as [<- | [_ Hk]]; [lia |].
      assert (k < handleCount st) by (apply Hh; auto). lia.
  - intros k Hk. cbn in Hk |- *. pose proof (Hdis k Hk) as Hnone.
    rewrite lookup_insert_ne; [exact Hnone |]. intros <-.
    rewrite Hnofile in Hk. destruct Hk; discriminate.
  - intros k Hlt. destruct (Hrev k Hlt) as [Hfiles Hdirs]. split; [exact Hfiles |].
    intros Hk. cbn in Hk. apply Hdirs.
    apply lookup_insert_is_Some in Hk as [<- | [_ Hk]]; [lia | exact Hk].
Qed.

Lemma kept_delete_file (st0 st : session) (h : Z) :
  sessionKept u st0 st -> sessionKept u st0 (deleteFile st h).
Proof.
  intros (Hf & Hd & Hh & Hc & Hdis & Hrev).
  split; [| split; [exact Hd | split; [| split; [exact Hc | split]]]].
  - intros k fs Hk. cbn in Hk. apply lookup_delete_Some in Hk as [_ Hk]. exact (Hf _ _ Hk).
  - intros k [Hk | Hk]; cbn in Hk |- *.
    + apply lookup_delete_is_Some in Hk as [_ Hk]. apply Hh; auto.
    + apply Hh; auto.
  - intros k Hk. cbn in Hk |- *. apply lookup_delete_is_Some in Hk as [_ Hk]. apply Hdis, Hk.
  - intros k Hlt. destruct (Hrev k Hlt) as [Hfiles Hdirs]. split; [| exact Hdirs].
    intros Hk. cbn in Hk. apply lookup_delete_is_Some in Hk as [_ Hk]. auto.
Qed.

Lemma kept_delete_dir (st0 st : session) (h : Z) :
  sessionKept u st0 st -> sessionKept u st0 (withDirs st (delete h (openDirs st))).
Proof.
  intros (Hf & Hd & Hh & Hc & Hdis & Hrev).
  split; [exact Hf | split; [| split; [| split; [exact Hc | split]]]].
  - intros k ds Hk. cbn in Hk. apply lookup_delete_Some in Hk as [_ Hk]. exact (Hd _ _ Hk).
  - intros k [Hk | Hk]; cbn in Hk |- *.
    + apply Hh; auto.
    + apply lookup_delete_is_Some in Hk as [_ Hk]. apply Hh; auto.
  - intros k Hk. cbn in Hk |- *. apply lookup_delete_None. right. apply Hdis, Hk.
  - intros k Hlt. destruct (Hrev k Hlt) as [Hfiles Hdirs]. split; [exact Hfiles |].
    intros Hk. cbn in Hk. apply lookup_delete_is_Some in Hk as [_ Hk]. auto.
Qed.

Lemma kept_lastUploadTime (st0 st : session) (t : Z) :
  sessionKept u st0 st -> sessionKept u st0 (withLastUploadTime st t).
Proof. intros (Hf & Hd & Hh & Hc & Hdis & Hrev). repeat split; try assumption; apply Hrev; assumption. Qed.

Lemma kept_file_known (st0 st : session) (h : Z) (fs : fileState) :
  sessionKept u st0 st -> openFiles st !! h = Some fs ->
  h < handleCount st /\ inHome u (fullname fs).
Proof. intros (Hf & _ & Hh & _) Hk. split; [apply Hh; eauto | exact (Hf _ _ Hk)]. Qed.

Lemma kept_dir_known (st0 st : session) (h : Z) (ds : dirState) :
  sessionKept u st0 st -> openDirs st !! h = Some ds ->
  h < handleCount st /\ dirFullname ds <> "".
Proof. intros (_ & Hd & Hh & _) Hk. split; [apply Hh; eauto | exact (Hd _ _ Hk)]. Qed.

Lemma kept_recordUploadError (st0 st : session) (h : Z) (e : string) :
  sessionKept u st0 st -> sessionKept u st0 (recordUploadError st h e).
Proof.
  intros H. unfold recordUploadError. destruct (openFiles st !! h) as [fs |] eqn:Hk; [| exact H].
  destruct (kept_file_known _ _ _ _ H Hk). eapply kept_update_file; eassumption.
Qed.

Ltac ensures_step :=
  lazymatch goal with
  | |- sessionKept _ _ _ => fail
  | |- stepInHome _ _ (Replied (SftpName _ _)) => fail
  | |- stepInHome _ _ (Sent _) => fail
  | |- stepInHome _ _ _ => exact I
  | |- ensures _ _ (match ?x with _ => _ end) => destruct x eqn:?
  | |- ensures _ _ _ =>
      first [ progress cbn [ensures bind out send now failure] | apply ensures_bind ]
  | |- _ /\ _ => split
  | |- forall _, _ => intro
  end.

Ltac ensures_auto := repeat ensures_step.

Ltac in_home :=
  lazymatch goal with
  | |- stepInHome _ _ (Sent _) =>
      cbn [stepInHome commandInHome uploadPolicy]; repeat split; try reflexivity;
      try (apply mapKey_inHome, path_not_empty); eauto
  end.

Lemma onREMOVE_ensures (st0 st : session) (reqid : Z) (filePath : string) :
  sessionKept u st0 st ->
  ensures (stepInHome srv u) (sessionKept u st0) (onREMOVE srv u st reqid filePath).
Proof. intros H. unfold onREMOVE, deleteFileFromS3. ensures_auto; try assumption; in_home. Qed.

Lemma onRENAME_ensures (st0 st : session) (reqid : Z) (oldPath newPath : string) :
  sessionKept u st0 st ->
  ensures (stepInHome srv u) (sessionKept u st0) (onRENAME srv u st reqid oldPath newPath).
Proof.
  intros H. unfold onRENAME, renameInS3. ensures_auto; try assumption; in_home.
  eexists. split; [reflexivity |]. apply mapKey_inHome, path_not_empty.
Qed.

Lemma onMKDIR_ensures (st0 st : session) (reqid : Z) (dirPath : string) :
  sessionKept u st0 st ->
  ensures (stepInHome srv u) (sessionKept u st0) (onMKDIR u st reqid dirPath)
  /\ ensures (stepInHome srv u) (sessionKept u st0) (onRMDIR u st reqid dirPath).
Proof. intros H. unfold onMKDIR, onRMDIR. ensures_auto; assumption. Qed.

Lemma getFileStats_ensures (P : unit -> Prop) (reqid : Z) (filePath : string) :
  P tt -> ensures (stepInHome srv u) P (getFileStats srv u reqid filePath).
Proof. intros H. unfold getFileStats. ensures_auto; try assumption; in_home. Qed.

Lemma onSTAT_ensures (st0 st : session) (reqid : Z) (filePath : string) :
  sessionKept u st0 st ->
  ensures (stepInHome srv u) (sessionKept u st0) (onSTAT srv u st reqid filePath)
  /\ ensures (stepInHome srv u) (sessionKept u st0) (onLSTAT srv u st reqid filePath).
Proof.
  intros H. unfold onSTAT, onLSTAT. split.
  all: destruct (negb _); [ensures_auto; exact H |].
  all: apply ensures_bind, getFileStats_ensures; exact H.
Qed.

Lemma onREALPATH_ensures (st0 st : session) (reqid : Z) (filePath : string) :
  sessionKept u st0 st ->
  ensures (stepInHome srv u) (sessionKept u st0) (onREALPATH srv u st reqid filePath).
Proof.
  intros H. unfold onREALPATH, resolvePath. ensures_auto; try assumption; try in_home.
  all: cbn [stepInHome map]; apply NoDup_singleton.
Qed.

Lemma checkIfDirectory_ensures (P : bool -> Prop) (filename : string) :
  (forall b, P b) ->
  ensures (stepInHome srv u) P (checkIfDirectory srv (mapKey (path u) filename)).
Proof. intros H. unfold checkIfDirectory. ensures_auto; try apply H; in_home. Qed.

Lemma onOPEN_ensures (st0 st : session) (reqid : Z) (filename : string) (flags : Z) :
  sessionKept u st0 st ->
  ensures (stepInHome srv u) (sessionKept u st0) (onOPEN srv u st reqid filename flags).
Proof.
  intros H. unfold onOPEN. cbn [ensures bind out]. split; [exact I |].
  destruct (negb _); [ensures_auto; exact H |]. destruct (_ && _); [ensures_auto; exact H |].
  apply ensures_bind, checkIfDirectory_ensures. intros isDirectory.
  pose proof (kept_bump _ _ H) as Hb.
  unfold handleFileOpenRead, handleFileOpenWrite.
  ensures_auto; try assumption; try in_home.
  all: apply kept_new_file; [exact H | apply mapKey_inHome, path_not_empty].
Qed.

Lemma readFileFromS3_ensures (P : unit -> Prop) (reqid : Z) (key : string)
    (offset length : Z) :
  P tt -> inHome u key ->
  ensures (stepInHome srv u) P (readFileFromS3 srv reqid key offset length).
Proof.
  intros H Hin. unfold readFileFromS3. ensures_auto; try assumption; in_home.
Qed.

Lemma onREAD_ensures (st0 st : session) (reqid : Z) (h : list byte) (offset length : Z) :
  sessionKept u st0 st ->
  ensures (stepInHome srv u) (sessionKept u st0) (onREAD srv u st reqid h offset length).
Proof.
  intros H. unfold onREAD. cbn [ensures bind out]. split; [exact I |].
  destruct (negb _); [ensures_auto; exact H |].
  destruct (openFiles st !! readUInt32BE h) as [fs |] eqn:Hk; [| ensures_auto; exact H].
  destruct (kept_file_known _ _ _ _ H Hk) as [Hlt Hin].
  destruct (negb _); [ensures_auto; exact H |]. destruct (read fs); [ensures_auto; exact H |].
  destruct (geDefined offset (size fs)); [ensures_auto; exact H |].
  destruct (_ =? 0); [ensures_auto; exact H |].
  apply ensures_bind, readFileFromS3_ensures; [| exact Hin].
  cbn [ensures]. destruct (geDefined _ _); [| exact H].
  eapply kept_update_file; eassumption.
Qed.

Lemma onWRITE_ensures (st0 st : session) (reqid : Z) (h : list byte) (offset : Z)
    (data : list byte) :
  sessionKept u st0 st ->
  ensures (stepInHome srv u) (sessionKept u st0) (onWRITE u st reqid h offset data).
Proof.
  intros H. unfold onWRITE. cbn [ensures bind out]. split; [exact I |].
  destruct (negb _); [ensures_auto; exact H |].
  destruct (openFiles st !! readUInt32BE h) as [fs |] eqn:Hk; [| ensures_auto; exact H].
  destruct (kept_file_known _ _ _ _ H Hk) as [Hlt Hin].
  destruct (negb _); [ensures_auto; exact H |]. destruct (stream fs); [| exact I].
  ensures_auto. eapply kept_update_file; eassumption.
Qed.

Lemma createDefaultSubdirectories_ensures (P : unit -> Prop) (dirs : list string) :
  P tt ->
  ensures (stepInHome srv u) P (createDefaultSubdirectories srv (username u) dirs).
Proof.
  intros H. induction dirs as [| dirName rest IH]; [exact H |].
  cbn [createDefaultSubdirectories ensures bind send]. split.
  - cbn [stepInHome commandInHome uploadPolicy]. split; [split; [reflexivity |] |].
    + unfold inHome. rewrite Hpath.
      rewrite <- !append_assoc. rewrite (append_assoc _ dirName). apply startsWith_append.
    + left. split; [reflexivity |]. rewrite <- !append_assoc. apply endsWith_append.
  - intros [r | e]; [exact IH | exact H].
Qed.

Lemma ensureUserDirectory_ensures (P : unit -> Prop) :
  P tt -> ensures (stepInHome srv u) P (ensureUserDirectory srv (username u)).
Proof.
  intros H. unfold ensureUserDirectory.
  destruct (createDefaultSubdirs _); [| exact H].
  apply createDefaultSubdirectories_ensures, H.
Qed.

Lemma onOPENDIR_ensures (st0 st : session) (reqid : Z) (dirPath : string) :
  sessionKept u st0 st ->
  ensures (stepInHome srv u) (sessionKept u st0) (onOPENDIR srv u st reqid dirPath).
Proof.
  intros H. unfold onOPENDIR. cbn [ensures bind out]. split; [exact I |].
  destruct (negb _); [ensures_auto; exact H |].
  pose proof (kept_bump _ _ H) as Hb.
  pose proof (mapKey_not_empty (path u) dirPath) as Hne.
  unfold openDirectory. cbn [ensures bind send]. split; [in_home |].
  intros [response | e]; [| ensures_auto; exact Hb].
  apply ensures_bind.
  match goal with
  | |- ensures _ ?P (if ?c then _ else _) =>
      assert (Hgoal : ensures (stepInHome srv u) P (Ret tt) ->
                      ensures (stepInHome srv u) P
                        (if c then ensureUserDirectory srv (username u) else Ret tt))
  end.
  { intros Hk. destruct (_ && _); [| exact Hk]. apply ensureUserDirectory_ensures. exact Hk. }
  apply Hgoal. clear Hgoal. cbn [ensures bind now]. intros t.
  apply ensures_bind.
  destruct (_ <? 10000).
  - cbn [ensures bind send]. split; [exact I |]. split; [in_home |].
    intros [freshResponse | e]; cbn [ensures]; [| ensures_auto; exact Hb].
    destruct (_ && _); [ensures_auto; exact Hb |].
    destruct (writeUInt32BE _); [| ensures_auto; exact Hb].
    ensures_auto. apply kept_new_dir; assumption.
  - cbn [ensures].
    destruct (_ && _); [ensures_auto; exact Hb |].
    destruct (writeUInt32BE _); [| ensures_auto; exact Hb].
    ensures_auto. apply kept_new_dir; assumption.
Qed.

Lemma listDirectoryContents_ensures (P : unit -> Prop) (reqid : Z) (state : dirState) :
  P tt -> dirFullname state <> "" ->
  ensures (stepInHome srv u) P (listDirectoryContents reqid state).
Proof.
  intros H Hne. unfold listDirectoryContents.
  destruct (String.eqb_spec (dirFullname state) ""); [contradiction |].
  cbn [ensures out]. split; [| exact H].
  cbn [stepInHome]. apply removeDuplicates_NoDup.
Qed.

Lemma onREADDIR_ensures (st0 st : session) (reqid : Z) (h : list byte) :
  sessionKept u st0 st ->
  ensures (stepInHome srv u) (sessionKept u st0) (onREADDIR u st reqid h).
Proof.
  intros H. unfold onREADDIR. cbn [ensures bind out]. split; [exact I |].
  destruct (negb _); [ensures_auto; exact H |].
  destruct (openDirs st !! readUInt32BE h) as [ds |] eqn:Hk; [| ensures_auto; exact H].
  destruct (kept_dir_known _ _ _ _ H Hk) as [Hlt Hne].
  destruct (dirRead ds); [ensures_auto; exact H |].
  apply ensures_bind, listDirectoryContents_ensures; [| exact Hne]. cbn [ensures].
  eapply kept_update_dir; eassumption.
Qed.

Lemma checkUploadStatus_ensures (polls : nat) (st0 st : session) (reqid h : Z) :
  sessionKept u st0 st ->
  ensures (stepInHome srv u) (sessionKept u st0) (checkUploadStatus polls st reqid h).
Proof.
  intros H. induction polls as [| polls IH]; cbn [checkUploadStatus].
  all: destruct (openFiles st !! h) as [fs |]; [| exact H].
  all: destruct (uploadComplete fs); [ensures_auto; apply kept_delete_file, H |].
  all: destruct (bool_decide _); [ensures_auto; apply kept_delete_file, H |].
  - exact H.
  - split; [exact I | exact IH].
Qed.

Lemma uploadOnEnd_ensures (P : session -> Prop) (st0 st : session)
    (chunks : list (list byte)) (key : string) (h : Z) :
  sessionKept u st0 st -> inHome u key ->
  (forall st', sessionKept u st0 st' -> P st') ->
  ensures (stepInHome srv u) P (uploadOnEnd srv u st chunks key h).
Proof.
  intros H Hin HP. unfold uploadOnEnd.
  destruct (_ =? _)%nat eqn:Hlen; [split; [exact I | apply HP, kept_recordUploadError, H] |].
  destruct (_ && _) eqn:Hpdf; [split; [exact I | apply HP, kept_recordUploadError, H] |].
  cbn [ensures bind send]. split.
  { cbn [stepInHome commandInHome uploadPolicy]. split; [split; [reflexivity | exact Hin] |].
    right. split; [reflexivity |]. split; [| split; [reflexivity |]].
    - intros Hnil. rewrite Hnil in Hlen. discriminate.
    - intros Hinc. rewrite Hinc in Hpdf. cbn [andb] in Hpdf.
      now apply negb_false_iff in Hpdf. }
  intros [response | e]; cbn [ensures bind out].
  - destruct (openFiles st !! h) as [fs |] eqn:Hk; cbn [ensures bind now out]; [| apply HP, H].
    intros t. split; [exact I |]. split; [exact I |]. apply HP, kept_lastUploadTime.
    destruct (kept_file_known _ _ _ _ H Hk). eapply kept_update_file; eassumption.
  - split; [exact I |]. apply HP, kept_recordUploadError, H.
Qed.

Lemma onCLOSE_ensures (polls : nat) (st0 st : session) (reqid : Z) (h : list byte) :
  sessionKept u st0 st ->
  ensures (stepInHome srv u) (sessionKept u st0) (onCLOSE srv u polls st reqid h).
Proof.
  intros H. unfold onCLOSE. cbn [ensures bind out]. split; [exact I |].
  destruct (negb _); [ensures_auto; exact H |].
  destruct (openFiles st !! readUInt32BE h) as [fs |] eqn:Hk.
  - destruct (kept_file_known _ _ _ _ H Hk) as [Hlt Hin]. unfold closeFile.
    destruct (hasFlag _ _); [| ensures_auto; apply kept_delete_file, H].
    destruct (stream fs) as [chunks |]; [| exact I].
    destruct (uploadComplete fs); [ensures_auto; apply kept_delete_file, H |].
    destruct (bool_decide _); [ensures_auto; apply kept_delete_file, H |].
    apply ensures_bind. apply (uploadOnEnd_ensures _ st0); [exact H | exact Hin |].
    intros st' H'. cbn [ensures]. split; [exact I |]. apply checkUploadStatus_ensures, H'.
  - destruct (openDirs st !! readUInt32BE h);
      [ensures_auto; apply kept_delete_dir, H | ensures_auto; exact H].
Qed.

Lemma handle_ensures (polls : nat) (st0 st : session) (r : request) :
  sessionKept u st0 st ->
  ensures (stepInHome srv u) (sessionKept u st0) (handle srv u polls st r).
Proof.
  intros H. destruct r; cbn [handle].
  - apply onOPEN_ensures, H.
  - apply onREAD_ensures, H.
  - apply onWRITE_ensures, H.
  - apply onOPENDIR_ensures, H.
  - apply onREADDIR_ensures, H.
  - apply onCLOSE_ensures, H.
  - apply onREMOVE_ensures, H.
  - apply onMKDIR_ensures, H.
  - apply onMKDIR_ensures, H.
  - apply onRENAME_ensures, H.
  - apply onSTAT_ensures, H.
  - apply onSTAT_ensures, H.
  - apply onREALPATH_ensures, H.
Qed.

Lemma serve_ensures (polls : nat) (rs : list request) :
  forall st0 st : session,
    sessionKept u st0 st ->
    ensures (stepInHome srv u) (sessionKept u st0) (serve srv u polls st rs).
Proof.
  induction rs as [| r rs IH]; intros st0 st H; cbn [serve].
  - exact H.
  - apply ensures_bind. eapply ensures_weaken; [| | apply handle_ensures, H]; [auto |].
    intros st' H'. apply IH, H'.
Qed.

Lemma newSession_kept : sessionKept u newSession newSession.
Proof.
  split; [| split; [| split; [| split; [| split]]]].
  - intros h fs Hk. cbn in Hk. rewrite lookup_empty in Hk. discriminate.
  - intros h ds Hk. cbn in Hk. rewrite lookup_empty in Hk. discriminate.
  - intros h [[? Hk] | [? Hk]]; cbn in Hk; rewrite lookup_empty in Hk; discriminate.
  - lia.
  - intros h _. apply lookup_empty.
  - intros h _. split; auto.
Qed.

End Home.

Lemma stepInHome_storeCalls (srv : server) (u : user) (tr : list step) :
  Forall (stepInHome srv u) tr -> Forall (commandInHome srv u) (storeCalls tr).
Proof.
  induction 1 as [| s tr Hs Htr IH]; [constructor |].
  destruct s; cbn [storeCalls]; [exact IH | constructor; [apply Hs | assumption] | exact IH].
Qed.

(** X1: in a session of a user whose base path is
    [<userBasePath>/<username>] (what the authentication listener stores),
    whatever requests arrive and whatever the store answers, every command
    sent to the store names the bucket of the server and a key that begins
    with the base path of the user and a slash; the copy source of a rename
    is such a key of the same bucket. *)
Theorem session_commands_stay_in_home :
  forall (W : Type) (E : world W) (srv : server) (u : user) (polls : nat)
         (rs : list request) (w : W) (tr : list step) (res : outcome session) (w' : W),
    path u = userBasePath (sftpConfig srv) ++ "/" ++ username u ->
    exec E (serve srv u polls newSession rs) w = (tr, res, w') ->
    Forall (commandInHome srv u) (storeCalls tr).
Proof.
  intros W E srv u polls rs w tr res w' Hpath Hrun.
  apply stepInHome_storeCalls.
  exact (proj1 (ensures_exec E _ _ _
                  (serve_ensures srv u Hpath polls rs _ _ (newSession_kept u)) _ _ _ _ Hrun)).
Qed.

Lemma session_commands_stay_in_home_witness :
  Forall (commandInHome demoServer alice)
    (storeCalls
       (exec scriptedWorld
          (serve demoServer alice 1 newSession
             [OPENDIR 1 "/"; RENAME 2 "/../bob/x" "..\y"; STAT 3 "/ledgers/a.pdf"])
          (storeAnswering [listed []; acknowledged; acknowledged; acknowledged;
                           acknowledged; listed []])).1.1).
Proof.
  destruct (exec scriptedWorld _ _) as [[tr res] w'] eqn:Hrun.
  exact (session_commands_stay_in_home scripted scriptedWorld demoServer alice 1%nat
           _ _ tr res w' eq_refl Hrun).
Defined.

(** X2: no list of names a session answers with (READDIR, REALPATH) holds
    a name twice. *)
Theorem listed_names_are_distinct :
  forall (W : Type) (E : world W) (srv : server) (u : user) (polls : nat)
         (rs : list request) (w : W) (tr : list step) (res : outcome session) (w' : W)
         (reqid : Z) (entries : list entry),
    path u = userBasePath (sftpConfig srv) ++ "/" ++ username u ->
    exec E (serve srv u polls newSession rs) w = (tr, res, w') ->
    In (Replied (SftpName reqid entries)) tr ->
    NoDup (map entryName entries).
Proof.
  intros W E srv u polls rs w tr res w' reqid entries Hpath Hrun Hin.
  pose proof (proj1 (ensures_exec E _ _ _
                  (serve_ensures srv u Hpath polls rs _ _ (newSession_kept u)) _ _ _ _ Hrun))
    as Hall.
  exact (proj1 (List.Forall_forall _ _) Hall _ Hin).
Qed.

(** X3: in every state a session reaches, each handle of the two tables
    is below the handle counter, no handle is in both tables, and the next
    handle to be issued is in neither. *)
Theorem open_handles_are_below_the_counter :
  forall (W : Type) (E : world W) (srv : server) (u : user) (polls : nat)
         (rs : list request) (w : W) (tr : list step) (st' : session) (w' : W),
    path u = userBasePath (sftpConfig srv) ++ "/" ++ username u ->
    exec E (serve srv u polls newSession rs) w = (tr, Done st', w') ->
    handlesIssued st'
    /\ tablesDisjoint st'
    /\ openFiles st' !! handleCount st' = None
    /\ openDirs st' !! handleCount st' = None
    /\ 0 <= handleCount st'.
Proof.
  intros W E srv u polls rs w tr st' w' Hpath Hrun.
  destruct (proj2 (ensures_exec E _ _ _
                  (serve_ensures srv u Hpath polls rs _ _ (newSession_kept u)) _ _ _ _ Hrun)
              st' eq_refl) as (_ & _ & Hh & Hc & Hdis & _).
  split; [exact Hh |]. split; [exact Hdis |]. split; [| split].
  - destruct (openFiles st' !! handleCount st') eqn:Hk; [| reflexivity].
    assert (handleCount st' < handleCount st') by (apply Hh; left; eauto). lia.
  - destruct (openDirs st' !! handleCount st') eqn:Hk; [| reflexivity].
    assert (handleCount st' < handleCount st') by (apply Hh; right; eauto). lia.
  - exact Hc.
Qed.

Lemma listed_names_are_distinct_witness :
  NoDup (map entryName
           [ {| entryName := "d";
                entryLongname := ListingLine false 5 1700000000000 "d";
                entryAttrs := Some (fileAttrs (object "users/alice/docs/d" 5)) |} ]).
Proof.
  eapply (listed_names_are_distinct scripted scriptedWorld demoServer alice 1%nat
            [OPENDIR 1 "/docs"; READDIR 2 handle0]
            (storeAnswering [listed [object "users/alice/docs/d" 5;
                                     object "users/alice/docs/d/.directory" 33]])
            _ _ _ 2).
  - reflexivity.
  - vm_compute. reflexivity.
  - do 4 right. left. reflexivity.
Defined.

Lemma open_handles_are_below_the_counter_witness :
  openFiles writeSession !! handleCount writeSession = None
  /\ openDirs writeSession !! handleCount writeSession = None.
Proof.
  destruct (open_handles_are_below_the_counter scripted scriptedWorld demoServer alice
              1%nat [OPEN 1 "/ledgers/jan.pdf" 26] (storeAnswering [listed []])
              [Replied (TrackActivity "alice");
               Sent (ListObjectsV2 "uploads" "users/alice/ledgers/jan.pdf");
               Replied (SftpHandle 1 handle0)]
              writeSession (storeAnswering []) eq_refl eq_refl)
    as (_ & _ & Hf & Hd & _).
  split; assumption.
Defined.

(** ** One answer per request *)




Section Answers.
Variables (srv : server) (u : user) (polls : nat).






















End Answers.

(** ** Strings *)

Lemma startsWith_nil (s : string) : Js.startsWith s "" = true.
Proof. destruct s; reflexivity. Qed.

Lemma startsWith_slash_cons (s : string) : Js.startsWith (String "/" s) "/" = true.
Proof. cbn [Js.startsWith]. now rewrite startsWith_nil. Qed.

Lemma includes_cons (c : ascii) (s p : string) :
  Js.includes (String c s) p = Js.startsWith (String c s) p || Js.includes s p.
Proof. reflexivity. Qed.

Lemma slashFree_cons (c : ascii) (s : string) :
  slashFree (String c s) <-> c <> Js.slash /\ slashFree s.
Proof.
  unfold slashFree. rewrite includes_cons. cbn [Js.startsWith].
  rewrite startsWith_nil, orb_false_iff, andb_true_r. split.
  - intros [Hc Hs]. split; [| exact Hs]. intros ->. discriminate.
  - intros [Hc Hs]. split; [| exact Hs].
    apply Ascii.eqb_neq. intros Heq. apply Hc. symmetry. exact Heq.
Qed.

Lemma split_slashFree (name : string) :
  slashFree name -> Js.split Js.slash name = [name].
Proof.
  induction name as [| c name IH]; [reflexivity |].
  intros [Hc Hs]%slashFree_cons. cbn [Js.split].
  destruct (Ascii.eqb_spec c Js.slash); [contradiction |]. now rewrite (IH Hs).
Qed.

Lemma split_append_slash (name rest : string) :
  slashFree name ->
  Js.split Js.slash (name ++ String "/" rest) = name :: Js.split Js.slash rest.
Proof.
  induction name as [| c name IH]; [reflexivity |].
  intros [Hc Hs]%slashFree_cons. rewrite append_cons. cbn [Js.split].
  destruct (Ascii.eqb_spec c Js.slash); [contradiction |]. now rewrite (IH Hs).
Qed.



Lemma includes_append_slash (v rest : string) :
  Js.includes (v ++ String "/" rest) "/" = true.
Proof.
  induction v as [| c v IH].
  - change ("" ++ String "/" rest) with (String "/" rest).
    now rewrite includes_cons, startsWith_slash_cons.
  - rewrite append_cons, includes_cons, IH. apply orb_true_r.
Qed.

Lemma not_slashFree_append (v rest : string) : ~ slashFree (v ++ String "/" rest).
Proof. unfold slashFree. rewrite includes_append_slash. discriminate. Qed.

(** ** The access policy *)

Lemma userPaths_cases (username : string) :
  AccessControl.lookupPaths AccessControl.allowedPaths username
    = (if String.eqb "user" username
       then Some ["/"; "/user"; "/ledgers"; "/invoices"] else None)
  /\ AccessControl.lookupPaths ConfigAccessControl.allowedPaths username
    = (if String.eqb "user" username then Some ["/"; "/user"] else None).
Proof. split; reflexivity. Qed.

(** X4: both copies of the access-control module allow every user the
    path [/<username>] and every path below it (for a user name that is
    not the name of an inherited property: see [inheritedName]). *)
Theorem own_home_is_allowed :
  forall (username rest : string),
    inheritedName username = false ->
    AccessControl.isPathAllowed username ("/" ++ username) = true
    /\ AccessControl.isPathAllowed username ("/" ++ username ++ "/" ++ rest) = true
    /\ ConfigAccessControl.isPathAllowed username ("/" ++ username) = true
    /\ ConfigAccessControl.isPathAllowed username ("/" ++ username ++ "/" ++ rest) = true.
Proof.
  intros username rest _.
  assert (Hsub : Js.startsWith ("/" ++ username ++ "/" ++ rest) ("/" ++ username ++ "/") = true).
  { rewrite <- !append_assoc. apply startsWith_append. }
  unfold AccessControl.isPathAllowed, ConfigAccessControl.isPathAllowed.
  change ("/" ++ username) with (String "/" username).
  change ("/" ++ username ++ "/" ++ rest) with (String "/" (username ++ "/" ++ rest)) in *.
  rewrite !startsWith_slash_cons.
  change (String "/" username) with ("/" ++ username).
  change (String "/" (username ++ "/" ++ rest)) with ("/" ++ username ++ "/" ++ rest) in *.
  rewrite String.eqb_refl, Hsub, orb_true_r. cbn [orb].
  repeat split.
  all: repeat match goal with
         | |- (if ?c then true else _) = true => destruct c; [reflexivity |]
         end; reflexivity.
Qed.

Lemma own_home_is_allowed_witness :
  AccessControl.isPathAllowed "alice" ("/" ++ "alice" ++ "/" ++ "ledgers/jan.pdf") = true.
Proof.
  exact (proj1 (proj2 (own_home_is_allowed "alice" "ledgers/jan.pdf" eq_refl))).
Defined.

Lemma root_in_paths (username : string) :
  AccessControl.includesPath
    (match AccessControl.lookupPaths AccessControl.allowedPaths username with
     | Some ps => ps | None => AccessControl.defaultPaths end) "/" = true
  /\ AccessControl.includesPath
    (match AccessControl.lookupPaths ConfigAccessControl.allowedPaths username with
     | Some ps => ps | None => ConfigAccessControl.defaultPaths end) "/" = true.
Proof.
  destruct (userPaths_cases username) as [-> ->].
  destruct (String.eqb "user" username); split; reflexivity.
Qed.

(** X5: both copies of the access-control module allow every user every
    path of one segment ([/] followed by a name without a slash); so the
    top-level directory of another user can be named, while what is below
    it cannot (X6). *)
Theorem top_level_names_are_allowed :
  forall (username name : string),
    inheritedName username = false ->
    slashFree name ->
    AccessControl.isPathAllowed username ("/" ++ name) = true
    /\ ConfigAccessControl.isPathAllowed username ("/" ++ name) = true.
Proof.
  intros username name _ Hname.
  unfold AccessControl.isPathAllowed, ConfigAccessControl.isPathAllowed.
  change ("/" ++ name) with (String "/" name). rewrite !startsWith_slash_cons.
  destruct name as [| c name].
  - destruct (root_in_paths username) as [-> ->]. split; reflexivity.
  - assert (Hlen : (length (Js.split Js.slash (String "/" (String c name))) =? 2)%nat = true).
    { change (String "/" (String c name)) with ("" ++ String "/" (String c name)).
      rewrite split_append_slash by reflexivity. now rewrite (split_slashFree _ Hname). }
    rewrite Hlen.
    assert (Hroot : negb (String.eqb (String "/" (String c name)) "/") = true) by reflexivity.
    rewrite Hroot. cbn [andb].
    split.
    all: repeat match goal with
           | |- (if ?c then true else _) = true => destruct c; [reflexivity |]
           end; reflexivity.
Qed.

Lemma top_level_names_are_allowed_witness :
  AccessControl.isPathAllowed "alice" ("/" ++ "bob") = true
  /\ ConfigAccessControl.isPathAllowed "alice" ("/" ++ "bob") = true.
Proof. apply (top_level_names_are_allowed "alice" "bob"); reflexivity. Defined.

Lemma eqb_slash_segment (v rest a : string) :
  slashFree a -> String.eqb (String "/" (v ++ String "/" rest)) (String "/" a) = false.
Proof.
  intros Ha. apply String.eqb_neq. intros [= Heq].
  rewrite <- Heq in Ha. exact (not_slashFree_append _ _ Ha).
Qed.




(** X7: every path [getAllowedPaths] lists for a user is a path
    [isPathAllowed] allows that user. *)
Theorem listed_allowed_paths_are_allowed :
  forall (username p : string),
    inheritedName username = false ->
    In p (AccessControl.getAllowedPaths username) ->
    AccessControl.isPathAllowed username p = true.
Proof.
  intros username p _ Hin. unfold AccessControl.getAllowedPaths in Hin.
  apply in_app_or in Hin as [Hin | [<- | []]].
  - unfold AccessControl.isPathAllowed.
    destruct (userPaths_cases username) as [Hcases _]. rewrite Hcases in Hin |- *.
    destruct (String.eqb "user" username); cbn [In AccessControl.defaultPaths] in Hin.
    + destruct Hin as [<- | [<- | [<- | [<- | []]]]]; reflexivity.
    + destruct Hin as [<- | [<- | [<- | []]]]; reflexivity.
  - unfold AccessControl.isPathAllowed.
    change ("/" ++ username) with (String "/" username).
    rewrite startsWith_slash_cons.
    change (String "/" username) with ("/" ++ username).
    rewrite String.eqb_refl. cbn [orb].
    repeat match goal with
           | |- (if ?c then true else _) = true => destruct c; [reflexivity |]
           end; reflexivity.
Qed.

Lemma listed_allowed_paths_are_allowed_witness :
  AccessControl.isPathAllowed "alice" "/invoices" = true.
Proof.
  apply (listed_allowed_paths_are_allowed "alice" "/invoices"); [reflexivity |].
  right. right. left. reflexivity.
Defined.

(** ** The file-type rule *)

Lemma lowerChar_idempotent (c : ascii) : Js.lowerChar (Js.lowerChar c) = Js.lowerChar c.
Proof. destruct c as [[] [] [] [] [] [] [] []]; reflexivity. Qed.

Lemma toLowerCase_idempotent (s : string) :
  Js.toLowerCase (Js.toLowerCase s) = Js.toLowerCase s.
Proof.
  induction s as [| c s IH]; [reflexivity |].
  cbn [Js.toLowerCase]. now rewrite lowerChar_idempotent, IH.
Qed.

Lemma lastChar_substringFrom (n : nat) (s : string) :
  Js.substringFrom n s <> "" -> lastChar (Js.substringFrom n s) = lastChar s.
Proof.
  revert s. induction n as [| n IH]; intros s H; [destruct s; reflexivity |].
  destruct s as [| c s]; [reflexivity |]. cbn [Js.substringFrom] in *.
  rewrite (IH s H). destruct s as [| d s]; [| reflexivity].
  destruct n; contradiction.
Qed.

Lemma endsWith_substring (s p : string) :
  Js.endsWith s p = true ->
  Js.substringFrom (String.length s - String.length p) s = p.
Proof. unfold Js.endsWith. intros [_ H]%andb_prop. now apply String.eqb_eq. Qed.

Lemma endsWith_lastChar (s p : string) :
  Js.endsWith s p = true -> p <> "" -> lastChar s = lastChar p.
Proof.
  intros H Hp. apply endsWith_substring in H.
  rewrite <- H. symmetry. apply lastChar_substringFrom. now rewrite H.
Qed.

Lemma isFileTypeAllowed_rule (filename : string) :
  isFileTypeAllowed filename =
    (let lower := Js.toLowerCase filename in
     negb (Js.startsWith lower "/ledgers/" || Js.startsWith lower "/invoices/"
           || String.eqb lower "/ledgers" || String.eqb lower "/invoices")
     || Js.endsWith lower ".pdf").
Proof.
  unfold isFileTypeAllowed. cbv zeta. set (lower := Js.toLowerCase filename).
  destruct (_ || _ || _ || _); [| reflexivity]. cbn [negb orb].
  destruct (Js.endsWith lower ".pdf") eqn:Hpdf; [| reflexivity]. cbn [negb].
  assert (Hlast : lastChar lower = Some "f"%char)
    by (rewrite (endsWith_lastChar _ _ Hpdf); [reflexivity | discriminate]).
  assert (Hends : forall p, lastChar p = Some "/"%char -> Js.endsWith lower p = false).
  { intros p Hp. destruct (Js.endsWith lower p) eqn:He; [| reflexivity].
    rewrite (endsWith_lastChar _ _ He) in Hlast; [congruence |].
    intros ->. discriminate. }
  assert (Heq : forall p, lastChar p <> Some "f"%char -> String.eqb lower p = false).
  { intros p Hp. apply String.eqb_neq. intros ->. contradiction. }
  rewrite (Heq "/ledgers"), (Heq "/invoices"), (Heq "/ledgers/"), (Heq "/invoices/")
    by discriminate.
  rewrite (Hends "/ledgers/"), (Hends "/invoices/") by reflexivity.
  reflexivity.
Qed.

(** X8: [_isFileTypeAllowed] allows a name exactly when its lower-case
    form is outside [/ledgers] and [/invoices] or ends in [.pdf] (the third
    test of the function, for the directories themselves, never decides);
    the answer does not depend on the letter case of the name. *)
Theorem file_type_rule :
  forall filename : string,
    isFileTypeAllowed filename =
      (let lower := Js.toLowerCase filename in
       negb (Js.startsWith lower "/ledgers/" || Js.startsWith lower "/invoices/"
             || String.eqb lower "/ledgers" || String.eqb lower "/invoices")
       || Js.endsWith lower ".pdf")
    /\ isFileTypeAllowed (Js.toLowerCase filename) = isFileTypeAllowed filename.
Proof.
  intros filename. split; [apply isFileTypeAllowed_rule |].
  rewrite !isFileTypeAllowed_rule. cbv zeta. now rewrite toLowerCase_idempotent.
Qed.

(** ** Listings *)

Lemma substringTo_append (a b : string) : Js.substringTo (String.length a) (a ++ b) = a.
Proof.
  induction a as [| c a IH]; [destruct b; reflexivity |].
  rewrite append_cons. cbn [String.length Js.substringTo]. now rewrite IH.
Qed.

Lemma endsWith_slash_includes (s : string) :
  Js.endsWith s "/" = true -> Js.includes s "/" = true.
Proof.
  intros H. pose proof (endsWith_substring _ _ H) as Hsub.
  unfold Js.endsWith in H. apply andb_prop in H as [Hlen _]. apply Nat.leb_le in Hlen.
  revert Hsub Hlen. generalize (String.length s - String.length "/")%nat as n.
  induction s as [| c s IH]; intros n Hsub Hlen; [cbn in Hlen; lia |].
  rewrite includes_cons. destruct n as [| n].
  - cbn [Js.substringFrom] in Hsub. rewrite Hsub. reflexivity.
  - cbn [Js.substringFrom] in Hsub. destruct s as [| d s]; [destruct n; discriminate |].
    rewrite (IH n Hsub); [apply orb_true_r | cbn; lia].
Qed.

Lemma relative_name (sep name rest : string) :
  sep = "" \/ sep = "/" -> slashFree name -> name <> "" ->
  (if Js.startsWith (sep ++ name ++ rest) "/" then sep ++ name ++ rest
   else "/" ++ sep ++ name ++ rest) = String "/" (name ++ rest).
Proof.
  intros [-> | ->] Hname Hne.
  - destruct name as [| c name]; [contradiction |].
    apply slashFree_cons in Hname as [Hc _].
    change ("" ++ String c name ++ rest) with (String c (name ++ rest)).
    cbn [Js.startsWith]. destruct (Ascii.eqb_spec "/"%char c) as [<- | _]; [contradiction |].
    reflexivity.
  - change ("/" ++ name ++ rest) with (String "/" (name ++ rest)).
    now rewrite startsWith_slash_cons.
Qed.

Lemma classifyListing_marker (prefix sep name : string) (contents : list s3obj)
    (c : s3obj) :
  sep = "" \/ sep = "/" ->
  Key c = prefix ++ sep ++ name ++ "/.directory" ->
  slashFree name -> name <> "" ->
  classifyListing prefix contents c = (true, setDir c (prefix ++ sep ++ name)).
Proof.
  intros Hsep Hkey Hname Hne. unfold classifyListing. rewrite Hkey.
  rewrite substringFrom_append. rewrite (relative_name sep name _ Hsep Hname Hne).
  change (name ++ "/.directory") with (name ++ String "/" ".directory").
  assert (Hdir : String.eqb (String "/" (name ++ String "/" ".directory")) "/.dir" = false).
  { apply (eqb_slash_segment name ".directory" ".dir"). reflexivity. }
  rewrite Hdir.
  change (String "/" (name ++ String "/" ".directory"))
    with ("" ++ String "/" (name ++ String "/" ".directory")).
  rewrite split_append_slash by reflexivity. rewrite split_append_slash by exact Hname.
  cbn [Js.split nth length Nat.eqb negb andb].
  change (String.eqb "" "") with true. cbn [negb].
  change (String.eqb ".directory" ".directory") with true. cbn [andb].
  destruct (String.eqb_spec name ""); [contradiction |].
  f_equal. f_equal.
  rewrite <- !append_assoc. rewrite length_append.
  change (String.length "/.directory") with 11%nat.
  replace (String.length ((prefix ++ sep) ++ name) + 11 - 11)%nat
    with (String.length ((prefix ++ sep) ++ name)) by lia.
  apply substringTo_append.
Qed.

Lemma classifyListing_child (prefix sep name : string) (contents : list s3obj)
    (c : s3obj) :
  sep = "" \/ sep = "/" ->
  Key c = prefix ++ sep ++ name ->
  slashFree name -> name <> "" -> name <> ".dir" ->
  classifyListing prefix contents c = (true, c).
Proof.
  intros Hsep Hkey Hname Hne Hdir. unfold classifyListing. rewrite Hkey.
  rewrite substringFrom_append.
  pose proof (relative_name sep name "" Hsep Hname Hne) as Hrel.
  rewrite !append_nil_r in Hrel. rewrite Hrel.
  destruct (String.eqb_spec (String "/" name) "/.dir") as [[= ->] |]; [contradiction |].
  change (String "/" name) with ("" ++ String "/" name).
  rewrite split_append_slash by reflexivity. rewrite (split_slashFree _ Hname).
  reflexivity.
Qed.

Lemma filterListings_keeps (prefix : string) (c c' : s3obj) (rest : list s3obj) :
  (forall contents, classifyListing prefix contents c = (true, c')) ->
  forall visited : list s3obj,
    In c rest -> In c' (filterListings prefix visited rest).
Proof.
  intros Hc. induction rest as [| x rest IH]; intros visited Hin; [contradiction |].
  cbn [filterListings].
  destruct (classifyListing prefix (visited ++ x :: rest) x) as [keep x'] eqn:Hx.
  destruct Hin as [-> | Hin].
  - rewrite Hc in Hx. inversion Hx; subst. left. reflexivity.
  - specialize (IH (visited ++ [x'])%list Hin). destruct keep; [right |]; exact IH.
Qed.

Lemma removeDuplicates_names (entries : list entry) :
  forall (seen : gset string) (e : entry),
    In e entries ->
    entryName e ∈ seen \/ In (entryName e) (map entryName (removeDuplicates seen entries)).
Proof.
  induction entries as [| x entries IH]; intros seen e Hin; [contradiction |].
  cbn [removeDuplicates]. destruct Hin as [-> | Hin].
  - destruct (decide (entryName e ∈ seen)); [left; assumption | right; left; reflexivity].
  - destruct (decide (entryName x ∈ seen)); [apply IH, Hin |].
    destruct (IH ({[entryName x]} ∪ seen) e Hin) as [Hs | Hl].
    + apply elem_of_union in Hs as [Hs | Hs]; [| left; exact Hs].
      apply elem_of_singleton in Hs. right. left. symmetry. exact Hs.
    + right. right. exact Hl.
Qed.

Lemma listingEntry_name (prefix sep name : string) (l : s3obj) :
  sep = "" \/ sep = "/" ->
  Key l = prefix ++ sep ++ name -> slashFree name -> name <> "" ->
  entryName (listingEntry prefix l) = name.
Proof.
  intros Hsep Hkey Hname Hne. unfold listingEntry. cbn [entryName]. rewrite Hkey.
  rewrite substringFrom_append.
  assert (Hrel : (if Js.startsWith (sep ++ name) "/"
                  then Js.substringFrom 1 (sep ++ name) else sep ++ name) = name).
  { destruct Hsep as [-> | ->].
    - destruct name as [| c name]; [contradiction |].
      apply slashFree_cons in Hname as [Hc _].
      change ("" ++ String c name) with (String c name).
      cbn [Js.startsWith]. destruct (Ascii.eqb_spec "/"%char c) as [<- | _]; [contradiction |].
      reflexivity.
    - change ("/" ++ name) with (String "/" name). now rewrite startsWith_slash_cons. }
  rewrite Hrel.
  destruct (Js.endsWith name "/") eqn:He; [| reflexivity].
  apply endsWith_slash_includes in He. unfold slashFree in Hname. congruence.
Qed.

Lemma listedNames_covers (prefix sep name : string) (contents : list s3obj)
    (c c' : s3obj) :
  sep = "" \/ sep = "/" ->
  In c contents ->
  (forall context, classifyListing prefix context c = (true, c')) ->
  Key c' = prefix ++ sep ++ name -> slashFree name -> name <> "" ->
  In name (listedNames prefix contents).
Proof.
  intros Hsep Hin Hc Hkey Hname Hne. unfold listedNames, processDirectoryListings.
  pose proof (filterListings_keeps prefix c c' contents Hc [] Hin) as Hkept.
  apply (in_map (listingEntry prefix)) in Hkept.
  destruct (removeDuplicates_names _ ∅ _ Hkept) as [Hs | Hl].
  - apply not_elem_of_empty in Hs. contradiction.
  - now rewrite (listingEntry_name prefix sep name c' Hsep Hkey Hname Hne) in Hl.
Qed.

(** X9: a directory listing names every direct child the store returns:
    for a listing of [prefix] and a name that is not empty and has no
    slash, a key [prefix/name/.directory] (a marker) or [prefix/name] (a
    child, which [.dir] is not) gives an entry called [name]; the same
    holds when the prefix ends in the slash itself, as the prefix of the
    root of a user does. *)
Theorem markers_and_children_are_listed :
  forall (prefix sep name : string) (contents : list s3obj) (c : s3obj),
    In c contents ->
    sep = "" \/ sep = "/" ->
    slashFree name ->
    name <> "" ->
    Key c = prefix ++ sep ++ name ++ "/.directory"
    \/ Key c = prefix ++ sep ++ name /\ name <> ".dir" ->
    In name (listedNames prefix contents).
Proof.
  intros prefix sep name contents c Hin Hsep Hname Hne [Hkey | [Hkey Hdir]].
  - apply (listedNames_covers prefix sep name contents c
             (setDir c (prefix ++ sep ++ name))); try assumption.
    + intros context. now apply (classifyListing_marker prefix sep name).
    + reflexivity.
  - apply (listedNames_covers prefix sep name contents c c); try assumption.
    intros context. now apply (classifyListing_child prefix sep name).
Qed.

Lemma markers_and_children_are_listed_witness :
  In "ledgers"
    (listedNames "users/alice/"
       [object "users/alice/invoices/.directory" 33;
        object "users/alice/ledgers/.directory" 33]).
Proof.
  apply (markers_and_children_are_listed "users/alice/" "" "ledgers" _
           (object "users/alice/ledgers/.directory" 33)).
  - right. left. reflexivity.
  - left. reflexivity.
  - reflexivity.
  - discriminate.
  - left. reflexivity.
Defined.

(* ===================================================================== *)
(** * Handles, directories and authentication *)
(* ===================================================================== *)

(** ** Uploads *)

Lemma uploadPolicy_storeCalls (srv : server) (u : user) (tr : list step) :
  Forall (stepInHome srv u) tr -> Forall uploadPolicy (storeCalls tr).
Proof.
  induction 1 as [| s tr Hs Htr IH]; [constructor |].
  destruct s; cbn [storeCalls]; [exact IH | constructor; [apply Hs | assumption] | exact IH].
Qed.

(** X10: every PUT of a session is the marker of a directory (content
    type [application/x-directory], key ending in [/.directory]) or an
    upload whose body is not empty, whose declared length is the length of
    the body, and whose key, when it has [/ledgers/] or [/invoices/] in it
    (letter case apart), ends in [.pdf]. *)
Theorem session_uploads_follow_policy :
  forall (W : Type) (E : world W) (srv : server) (u : user) (polls : nat)
         (rs : list request) (w : W) (tr : list step) (res : outcome session) (w' : W),
    path u = userBasePath (sftpConfig srv) ++ "/" ++ username u ->
    exec E (serve srv u polls newSession rs) w = (tr, res, w') ->
    Forall uploadPolicy (storeCalls tr).
Proof.
  intros W E srv u polls rs w tr res w' Hpath Hrun.
  apply (uploadPolicy_storeCalls srv u).
  exact (proj1 (ensures_exec E _ _ _
                  (serve_ensures srv u Hpath polls rs _ _ (newSession_kept u)) _ _ _ _ Hrun)).
Qed.

Lemma session_uploads_follow_policy_witness :
  Forall uploadPolicy
    (storeCalls
       (exec scriptedWorld
          (serve demoServer alice 1 newSession
             [OPEN 1 "/ledgers/jan.pdf" 26; WRITEREQ 2 handle0 0 [x25; x50];
              CLOSE 3 handle0; OPENDIR 4 "/"])
          (storeAnswering [listed []; acknowledged; listed []; acknowledged;
                           acknowledged; listed []])).1.1).
Proof.
  destruct (exec scriptedWorld _ _) as [[tr res] w'] eqn:Hrun.
  exact (session_uploads_follow_policy scripted scriptedWorld demoServer alice 1%nat
           _ _ tr res w' eq_refl Hrun).
Defined.

(** ** The life of a handle *)

Lemma unknown_handle_fails {W : Type} (E : world W) (srv : server) (u : user)
    (polls : nat) (st : session) (r : request) (hb : list byte) (w : W) :
  usesHandle r hb ->
  openFiles st !! readUInt32BE hb = None ->
  openDirs st !! readUInt32BE hb = None ->
  exec E (handle srv u polls st r) w
  = ([Replied (TrackActivity (username u)); Replied (SftpStatus (requestId r) FAILURE)],
     Done st, w).
Proof.
  intros Huses Hf Hd.
  destruct r; cbn [usesHandle] in Huses; try contradiction; subst; cbn [handle requestId].
  - unfold onREAD. destruct (negb _); [reflexivity |]. rewrite Hf. reflexivity.
  - unfold onWRITE. destruct (negb _); [reflexivity |]. rewrite Hf. reflexivity.
  - unfold onREADDIR. destruct (negb _); [reflexivity |]. rewrite Hd. reflexivity.
  - unfold onCLOSE. destruct (negb _); [reflexivity |]. rewrite Hf, Hd. reflexivity.
Qed.

(** X11: handles are not issued twice.  A handle below the counter that
    is in neither table (it was closed, or its OPEN failed) is in neither
    table after any further requests, and READ, WRITE, READDIR and CLOSE on
    it are answered FAILURE, with no store command and the session
    unchanged. *)
Theorem closed_handles_stay_closed :
  forall (W : Type) (E : world W) (srv : server) (u : user) (polls : nat)
         (before after : list request) (w w1 w2 : W) (tr1 tr2 : list step)
         (st1 st2 : session) (hb : list byte),
    path u = userBasePath (sftpConfig srv) ++ "/" ++ username u ->
    exec E (serve srv u polls newSession before) w = (tr1, Done st1, w1) ->
    exec E (serve srv u polls st1 after) w1 = (tr2, Done st2, w2) ->
    readUInt32BE hb < handleCount st1 ->
    openFiles st1 !! readUInt32BE hb = None ->
    openDirs st1 !! readUInt32BE hb = None ->
    openFiles st2 !! readUInt32BE hb = None
    /\ openDirs st2 !! readUInt32BE hb = None
    /\ forall r : request,
         usesHandle r hb ->
         exec E (handle srv u polls st2 r) w2
         = ([Replied (TrackActivity (username u));
             Replied (SftpStatus (requestId r) FAILURE)], Done st2, w2).
Proof.
  intros W E srv u polls before after w w1 w2 tr1 tr2 st1 st2 hb Hpath Hrun1 Hrun2
         Hlt Hf Hd.
  pose proof (proj2 (ensures_exec E _ _ _
                  (serve_ensures srv u Hpath polls before _ _ (newSession_kept u))
                  _ _ _ _ Hrun1) st1 eq_refl) as Hkept1.
  pose proof (proj2 (ensures_exec E _ _ _
                  (serve_ensures srv u Hpath polls after _ _ (kept_refl u _ _ Hkept1))
                  _ _ _ _ Hrun2) st2 eq_refl) as (_ & _ & _ & _ & _ & Hrev).
  destruct (Hrev _ Hlt) as [Hfiles Hdirs].
  assert (Hf2 : openFiles st2 !! readUInt32BE hb = None).
  { destruct (openFiles st2 !! readUInt32BE hb) eqn:Hk; [| reflexivity].
    destruct Hfiles as [? Hsome]; [eauto | congruence]. }
  assert (Hd2 : openDirs st2 !! readUInt32BE hb = None).
  { destruct (openDirs st2 !! readUInt32BE hb) eqn:Hk; [| reflexivity].
    destruct Hdirs as [? Hsome]; [eauto | congruence]. }
  split; [exact Hf2 | split; [exact Hd2 |]].
  intros r Huses. now apply unknown_handle_fails with (hb := hb).
Qed.

(** ** Traces of a program, with its result *)

Lemma traces_exec {W A : Type} (E : world W) (p : io A) :
  forall (Q : list step -> A -> Prop) (w : W) (tr : list step) (a : A) (w' : W),
    traces Q p -> exec E p w = (tr, Done a, w') -> Q tr a.
Proof.
  induction p as [x | o k IH | c k IH | k IH | ms k IH | e];
    intros Q w tr a w' H Hrun; cbn [traces exec] in *.
  - inversion Hrun; subst. exact H.
  - destruct (exec E k w) as [[tr0 r0] w0] eqn:Hk. inversion Hrun; subst.
    exact (IH _ _ _ _ _ H Hk).
  - destruct (worldSend E w c) as [res w1].
    destruct (exec E (k res) w1) as [[tr0 r0] w0] eqn:Hk. inversion Hrun; subst.
    exact (IH _ _ _ _ _ _ (H res) Hk).
  - exact (IH _ _ _ _ _ _ (H _) Hrun).
  - destruct (exec E k (worldSleep E w ms)) as [[tr0 r0] w0] eqn:Hk. inversion Hrun; subst.
    exact (IH _ _ _ _ _ H Hk).
  - inversion Hrun.
Qed.

Lemma traces_bind {A B : Type} (m : io A) (f : A -> io B) :
  forall Q : list step -> B -> Prop,
    traces (fun tr1 a => traces (fun tr2 b => Q (tr1 ++ tr2)%list b) (f a)) m ->
    traces Q (bind m f).
Proof.
  induction m as [x | o k IH | c k IH | k IH | ms k IH | e]; intros Q H;
    cbn [traces bind] in *; auto.
Qed.

Lemma traces_weaken {A : Type} (p : io A) :
  forall Q Q' : list step -> A -> Prop,
    (forall tr a, Q tr a -> Q' tr a) -> traces Q p -> traces Q' p.
Proof.
  induction p as [x | o k IH | c k IH | k IH | ms k IH | e]; intros Q Q' HQ H;
    cbn [traces] in *; eauto.
  - eapply IH; [| exact H]. cbn. auto.
  - intros r. eapply IH; [| exact (H r)]. cbn. auto.
  - eapply IH; [| exact H]. cbn. auto.
Qed.

Ltac traces_step :=
  lazymatch goal with
  | |- traces _ (match ?x with _ => _ end) => destruct x eqn:?
  | |- traces _ (bind (match ?x with _ => _ end) _) => destruct x eqn:?
  | |- traces _ _ => progress cbn [traces bind out send now failure]
  | |- forall _, traces _ _ => intro
  end.

Ltac traces_auto := repeat traces_step.

Ltac not_in_trace :=
  repeat match goal with
         | H : In _ (_ :: _) |- _ => destruct H as [H | H]; [try discriminate H |]
         | H : In _ [] |- _ => destruct H
         | H : _ \/ _ |- _ => destruct H as [H | H]; [try discriminate H |]
         | H : False |- _ => destruct H
         end.

(** What OPEN leaves when it answers with a handle. *)
Lemma onOPEN_traces (srv : server) (u : user) (st : session) (reqid : Z)
    (filename : string) (flags : Z) :
  traces
    (fun tr st' =>
       forall (r : Z) (hb : list byte),
         In (Replied (SftpHandle r hb)) tr ->
         r = reqid
         /\ writeUInt32BE (handleCount st) = Some hb
         /\ exists fs : fileState,
              st' = withFiles (bumpHandleCount st)
                      (<[ handleCount st := fs ]> (openFiles st))
              /\ fullname fs = mapKey (path u) (stripTrailingSeparator filename)
              /\ Sftp.flags fs = flags
              /\ (if hasFlag flags READ
                  then stream fs = None /\ read fs = false
                  else stream fs = Some [] /\ uploadComplete fs = false
                       /\ uploadError fs = None))
    (onOPEN srv u st reqid filename flags).
Proof.
  unfold onOPEN, checkIfDirectory, handleFileOpenRead, handleFileOpenWrite.
  traces_auto; intros reqid' hb' Hin; not_in_trace.
  all: injection Hin as <- <-.
  all: split; [reflexivity |]; split; [reflexivity |].
  all: eexists; repeat split; reflexivity.
Qed.

Lemma writeUInt32BE_Some (handleId : Z) (hb : list byte) :
  writeUInt32BE handleId = Some hb ->
  List.length hb = 4%nat /\ readUInt32BE hb = handleId /\ 0 <= handleId < 4294967296.
Proof.
  intros H.
  assert (Hrange : 0 <= handleId < 4294967296).
  { unfold writeUInt32BE in H.
    destruct (Z.leb_spec 0 handleId); [| discriminate].
    destruct (Z.ltb_spec handleId 4294967296); [lia | discriminate]. }
  destruct (handle_roundtrip handleId Hrange) as (h & Hh & Hlen & Hread).
  rewrite H in Hh. injection Hh as ->. auto.
Qed.

Lemma createDefaultSubdirectories_traces (srv : server) (name : string)
    (dirs : list string) :
  traces (fun tr (_ : unit) => Forall notHandle tr)
    (createDefaultSubdirectories srv name dirs).
Proof.
  induction dirs as [| dirName rest IH];
    cbn [createDefaultSubdirectories traces bind send]; [constructor |].
  intros [r | e].
  - eapply traces_weaken; [| exact IH]. intros tr a H. constructor; [exact I | exact H].
  - cbn [traces]. repeat constructor.
Qed.

(** What OPENDIR leaves when it answers with a handle. *)
Lemma onOPENDIR_traces (srv : server) (u : user) (st : session) (reqid : Z)
    (dirPath : string) :
  traces
    (fun tr st' =>
       forall (r : Z) (hb : list byte),
         In (Replied (SftpHandle r hb)) tr ->
         r = reqid
         /\ writeUInt32BE (handleCount st) = Some hb
         /\ exists contents : list s3obj,
              st' = withDirs (bumpHandleCount st)
                      (<[ handleCount st :=
                            {| dirFullname := mapKey (path u) dirPath;
                               listings := processDirectoryListings contents
                                             (mapKey (path u) dirPath);
                               dirUser := u;
                               dirRead := false |} ]> (openDirs st))
              /\ (contents <> [] \/ dirPath = "/"))
    (onOPENDIR srv u st reqid dirPath).
Proof.
  unfold onOPENDIR, openDirectory. cbn [traces bind out].
  destruct (negb _); [traces_auto; intros reqid' hb' Hin; not_in_trace |].
  cbn [traces bind send]. intros [response | e];
    [| traces_auto; intros reqid' hb' Hin; not_in_trace].
  apply traces_bind.
  assert (Hafter :
    forall tr0 : list step,
      Forall notHandle tr0 ->
      traces
        (fun tr2 st' =>
           forall (r : Z) (hb : list byte),
             In (Replied (SftpHandle r hb))
                (Replied (TrackActivity (username u))
                 :: Sent (ListObjectsV2 (bucketName srv) (mapKey (path u) dirPath))
                 :: tr0 ++ tr2)%list ->
             r = reqid
             /\ writeUInt32BE (handleCount st) = Some hb
             /\ exists contents : list s3obj,
                  st' = withDirs (bumpHandleCount st)
                          (<[ handleCount st :=
                                {| dirFullname := mapKey (path u) dirPath;
                                   listings := processDirectoryListings contents
                                                 (mapKey (path u) dirPath);
                                   dirUser := u;
                                   dirRead := false |} ]> (openDirs st))
                  /\ (contents <> [] \/ dirPath = "/"))
        (let* t := now in
         let timeSinceUpload := t - lastUploadTime (bumpHandleCount st) in
         let* fresh :=
           (if timeSinceUpload <? 10000 then
              Sleep 1000
                (let* freshRes := send (ListObjectsV2 (bucketName srv)
                                          (mapKey (path u) dirPath)) in
                 match freshRes with
                 | Rejected _ => Ret None
                 | Resolved freshResponse =>
                     Ret (Some (default [] (Contents freshResponse)))
                 end)
            else Ret (Some (default [] (Contents response)))) in
         match fresh with
         | None => failure reqid (bumpHandleCount st)
         | Some contents =>
             if (length contents =? 0)%nat && negb (String.eqb dirPath "/") then
               out (SftpStatus reqid NO_SUCH_FILE) ;; Ret (bumpHandleCount st)
             else
               match writeUInt32BE (handleCount st) with
               | None => failure reqid (bumpHandleCount st)
               | Some handle =>
                   let listings := processDirectoryListings contents
                                     (mapKey (path u) dirPath) in
                   let st' := withDirs (bumpHandleCount st)
                                (<[ handleCount st :=
                                      {| dirFullname := mapKey (path u) dirPath;
                                         listings := listings;
                                         dirUser := u;
                                         dirRead := false |} ]>
                                   (openDirs (bumpHandleCount st))) in
                   out (SftpHandle reqid handle) ;; Ret st'
               end
         end)).
  { intros tr0 Htr0. cbn [traces bind now]. intros t.
    assert (Hshape : forall (contents : list s3obj) (b : bool),
               ((length contents =? 0)%nat && negb (dirPath =? "/")%string = false) ->
               contents <> [] \/ dirPath = "/").
    { intros contents b Hc. apply andb_false_iff in Hc as [Hc | Hc].
      - left. intros ->. discriminate.
      - right. apply negb_false_iff, String.eqb_eq in Hc. exact Hc. }
    traces_auto; intros reqid' hb' Hin.
    all: destruct Hin as [Hin | [Hin | Hin]]; try discriminate.
    all: apply in_app_or in Hin as [Hin | Hin];
      [exfalso; exact (proj1 (List.Forall_forall _ _) Htr0 _ Hin) |].
    all: not_in_trace.
    all: injection Hin as <- <-.
    all: split; [reflexivity |]; split; [reflexivity |].
    all: eexists; split; [reflexivity |]; eapply Hshape; [exact true | eassumption]. }
  destruct (_ && _).
  - unfold ensureUserDirectory. destruct (createDefaultSubdirs _).
    + eapply traces_weaken; [| apply createDefaultSubdirectories_traces].
      intros tr1 [] Htr1. apply Hafter. exact Htr1.
    + cbn [traces]. apply (Hafter []). constructor.
  - cbn [traces]. apply (Hafter []). constructor.
Qed.

Lemma checkUploadStatus_notHandle (polls : nat) (st : session) (reqid h : Z) :
  ensures notHandle (fun _ => True) (checkUploadStatus polls st reqid h).
Proof.
  revert st. induction polls as [| polls IH]; intros st; cbn [checkUploadStatus].
  all: destruct (openFiles st !! h) as [fs |]; [| exact I].
  all: destruct (uploadComplete fs); [repeat split |].
  all: destruct (bool_decide _); [repeat split |].
  - exact I.
  - split; [exact I | apply IH].
Qed.

Ltac plain_step :=
  lazymatch goal with
  | |- notHandle _ => exact I
  | |- True => exact I
  | |- ensures _ _ (checkUploadStatus _ _ _ _) =>
      eapply ensures_weaken; [| | apply checkUploadStatus_notHandle]; auto
  | |- ensures _ _ (match ?x with _ => _ end) => destruct x eqn:?
  | |- ensures _ _ (bind (match ?x with _ => _ end) _) => destruct x eqn:?
  | |- ensures _ _ _ =>
      first [ progress cbn [ensures bind out send now failure] | apply ensures_bind ]
  | |- _ /\ _ => split
  | |- forall _, _ => intro
  end.

Ltac plain_auto := repeat plain_step.

Lemma others_notHandle (srv : server) (u : user) (polls : nat) (st : session)
    (r : request) :
  match r with OPEN _ _ _ | OPENDIR _ _ => False | _ => True end ->
  ensures notHandle (fun _ => True) (handle srv u polls st r).
Proof.
  intros Hr. destruct r; try contradiction; cbn [handle].
  - unfold onREAD, readFileFromS3. plain_auto.
  - unfold onWRITE. plain_auto.
  - unfold onREADDIR, listDirectoryContents. plain_auto.
  - unfold onCLOSE, closeFile, uploadOnEnd. plain_auto.
  - unfold onREMOVE, deleteFileFromS3. plain_auto.
  - unfold onMKDIR. plain_auto.
  - unfold onRMDIR. plain_auto.
  - unfold onRENAME, renameInS3. plain_auto.
  - unfold onSTAT, getFileStats. plain_auto.
  - unfold onLSTAT, getFileStats. plain_auto.
  - unfold onREALPATH, resolvePath. plain_auto.
Qed.

(** X12: only OPEN and OPENDIR answer with a handle.  The handle is the
    answer to that request, it is the 4-byte big-endian form of the counter
    the request found, the counter has moved by one, and the table of its
    kind holds under it the state of the path asked for (the other table is
    as it was). *)
Theorem issued_handles_name_the_new_state :
  forall (W : Type) (E : world W) (srv : server) (u : user) (polls : nat)
         (st : session) (r : request) (w : W) (tr : list step) (st' : session) (w' : W)
         (reqid : Z) (hb : list byte),
    exec E (handle srv u polls st r) w = (tr, Done st', w') ->
    In (Replied (SftpHandle reqid hb)) tr ->
    reqid = requestId r
    /\ List.length hb = 4%nat
    /\ readUInt32BE hb = handleCount st
    /\ handleCount st' = handleCount st + 1
    /\ match r with
       | OPEN _ filename flags =>
           openDirs st' = openDirs st
           /\ exists fs : fileState,
                openFiles st' = <[ handleCount st := fs ]> (openFiles st)
                /\ fullname fs = mapKey (path u) (stripTrailingSeparator filename)
                /\ Sftp.flags fs = flags
       | OPENDIR _ dirPath =>
           openFiles st' = openFiles st
           /\ exists ds : dirState,
                openDirs st' = <[ handleCount st := ds ]> (openDirs st)
                /\ dirFullname ds = mapKey (path u) dirPath
                /\ dirRead ds = false
       | _ => False
       end.
Proof.
  intros W E srv u polls st r w tr st' w' reqid hb Hrun Hin.
  assert (Hother : match r with OPEN _ _ _ | OPENDIR _ _ => False | _ => True end -> False).
  { intros Hr.
    pose proof (proj1 (ensures_exec E _ _ _ (others_notHandle srv u polls st r Hr)
                         _ _ _ _ Hrun)) as Hall.
    exact (proj1 (List.Forall_forall _ _) Hall _ Hin). }
  destruct r; try (exfalso; exact (Hother I)); cbn [handle requestId] in *.
  - destruct (traces_exec E _ _ _ _ _ _ (onOPEN_traces srv u st _ _ _) Hrun _ _ Hin)
      as (-> & Hhb & fs & -> & Hname & Hflags & _).
    destruct (writeUInt32BE_Some _ _ Hhb) as (Hlen & Hread & _).
    repeat split; try assumption; try reflexivity. exists fs. auto.
  - destruct (traces_exec E _ _ _ _ _ _ (onOPENDIR_traces srv u st _ _) Hrun _ _ Hin)
      as (-> & Hhb & contents & -> & _).
    destruct (writeUInt32BE_Some _ _ Hhb) as (Hlen & Hread & _).
    repeat split; try assumption; try reflexivity. eexists. repeat split.
Qed.

Lemma issued_handles_name_the_new_state_witness :
  readUInt32BE handle0 = handleCount newSession
  /\ handleCount writeSession = handleCount newSession + 1
  /\ openDirs writeSession = openDirs newSession.
Proof.
  destruct (issued_handles_name_the_new_state scripted scriptedWorld demoServer alice
              1%nat newSession (OPEN 1 "/ledgers/jan.pdf" 26) (storeAnswering [listed []])
              [Replied (TrackActivity "alice");
               Sent (ListObjectsV2 "uploads" "users/alice/ledgers/jan.pdf");
               Replied (SftpHandle 1 handle0)]
              writeSession (storeAnswering []) 1 handle0 eq_refl)
    as (_ & _ & Hread & Hcount & Hdirs & _).
  - do 2 right. left. reflexivity.
  - split; [exact Hread | split; [exact Hcount | exact Hdirs]].
Defined.

(** X13: a file opened with both the READ and the WRITE flag gets the
    state of a download, which has no stream: a WRITE or a CLOSE on the
    handle OPEN answered with throws a [TypeError] after the activity was
    tracked, and gives no answer. *)
Theorem read_write_handles_break_the_handlers :
  forall (W : Type) (E : world W) (srv : server) (u : user) (polls : nat)
         (st : session) (reqid : Z) (filename : string) (flags : Z) (w : W)
         (tr : list step) (st' : session) (w' : W) (hb : list byte),
    hasFlag flags READ = true ->
    hasFlag flags WRITE = true ->
    exec E (handle srv u polls st (OPEN reqid filename flags)) w = (tr, Done st', w') ->
    In (Replied (SftpHandle reqid hb)) tr ->
    forall (w1 : W) (reqid' offset : Z) (data : list byte),
      exec E (handle srv u polls st' (WRITEREQ reqid' hb offset data)) w1
      = ([Replied (TrackActivity (username u))],
         Crashed "TypeError: state.stream is undefined", w1)
      /\ exec E (handle srv u polls st' (CLOSE reqid' hb)) w1
         = ([Replied (TrackActivity (username u))],
            Crashed "TypeError: state.stream is undefined", w1).
Proof.
  intros W E srv u polls st reqid filename flags w tr st' w' hb Hread Hwrite Hrun Hin
         w1 reqid' offset data.
  cbn [handle] in Hrun.
  destruct (traces_exec E _ _ _ _ _ _ (onOPEN_traces srv u st _ _ _) Hrun _ _ Hin)
    as (_ & Hhb & fs & -> & _ & Hflags & Hstate).
  rewrite Hread in Hstate. destruct Hstate as [Hstream _].
  destruct (writeUInt32BE_Some _ _ Hhb) as (Hlen & Hid & _).
  cbn [handle]. unfold onWRITE, onCLOSE, closeFile.
  rewrite Hlen, Hid. cbn [Nat.eqb negb openFiles withFiles bumpHandleCount].
  rewrite lookup_insert_eq. rewrite Hflags, Hwrite, Hstream. split; reflexivity.
Qed.

Lemma read_write_handles_break_the_handlers_witness :
  exec scriptedWorld
    (handle demoServer alice 1
       (withFiles (bumpHandleCount newSession)
          (<[ 0 := newReadState 3 "/a.txt" 10 "users/alice/a.txt" ]> ∅))
       (WRITEREQ 2 handle0 0 [x61])) (storeAnswering [])
  = ([Replied (TrackActivity "alice")],
     Crashed "TypeError: state.stream is undefined", storeAnswering []).
Proof.
  refine (proj1 (read_write_handles_break_the_handlers scripted scriptedWorld demoServer
                   alice 1%nat newSession 1 "/a.txt" 3
                   (storeAnswering [listed []; listed [object "users/alice/a.txt" 10]])
                   [Replied (TrackActivity "alice");
                    Sent (ListObjectsV2 "uploads" "users/alice/a.txt");
                    Sent (ListObjectsV2 "uploads" "users/alice/a.txt");
                    Replied (SftpHandle 1 handle0)]
                   _ (storeAnswering []) handle0 eq_refl eq_refl eq_refl _
                   (storeAnswering []) 2 0 [x61])).
  do 3 right. left. reflexivity.
Defined.

(** ** CLOSE *)

Section Release.
Variables (srv : server) (u : user).

Lemma recordUploadError_onlyAt (st : session) (h : Z) (e : string) :
  onlyAt h st (recordUploadError st h e)
  /\ openDirs (recordUploadError st h e) = openDirs st.
Proof.
  unfold recordUploadError, onlyAt. destruct (openFiles st !! h); cbn; [| auto].
  split; [split; [reflexivity |] | reflexivity].
  intros h' Hne. now rewrite lookup_insert_ne by congruence.
Qed.

Lemma uploadOnEnd_onlyAt (st : session) (chunks : list (list byte)) (key : string)
    (h : Z) (fs : fileState) :
  openFiles st !! h = Some fs ->
  ensures (fun _ => True)
    (fun st1 =>
       (exists fs1 : fileState,
           openFiles st1 !! h = Some fs1
           /\ (uploadComplete fs1 = true \/ is_Some (uploadError fs1)))
       /\ onlyAt h st st1 /\ openDirs st1 = openDirs st)
    (uploadOnEnd srv u st chunks key h).
Proof.
  intros Hk. unfold uploadOnEnd.
  assert (Herr : forall e,
             (exists fs1 : fileState,
                 openFiles (recordUploadError st h e) !! h = Some fs1
                 /\ (uploadComplete fs1 = true \/ is_Some (uploadError fs1)))
             /\ onlyAt h st (recordUploadError st h e)
             /\ openDirs (recordUploadError st h e) = openDirs st).
  { intros e. split; [| apply recordUploadError_onlyAt].
    unfold recordUploadError. rewrite Hk. cbn [openFiles withFiles].
    rewrite lookup_insert_eq. eexists. split; [reflexivity |]. right. cbn. eauto. }
  destruct (_ =? _)%nat; [cbn [ensures bind out]; split; [exact I | apply Herr] |].
  destruct (_ && _); [cbn [ensures bind out]; split; [exact I | apply Herr] |].
  cbn [ensures bind send]. split; [exact I |].
  intros [response | e]; cbn [ensures bind out].
  - rewrite Hk. cbn [ensures bind now out]. intros t. split; [exact I |]. split; [exact I |].
    cbn [openFiles openDirs handleCount withFiles withLastUploadTime].
    rewrite lookup_insert_eq. split; [| split; [split |]]; try reflexivity.
    + eexists. split; [reflexivity |]. left. reflexivity.
    + intros h' Hne. cbn. now rewrite lookup_insert_ne by congruence.
  - split; [exact I | apply Herr].
Qed.

Lemma checkUploadStatus_releases (polls : nat) (st0 st1 : session) (reqid h : Z) :
  (exists fs1 : fileState,
      openFiles st1 !! h = Some fs1
      /\ (uploadComplete fs1 = true \/ is_Some (uploadError fs1))) ->
  onlyAt h st0 st1 -> openDirs st1 = openDirs st0 ->
  ensures (fun _ => True)
    (fun st2 => openFiles st2 !! h = None /\ onlyAt h st0 st2
                /\ openDirs st2 = openDirs st0)
    (checkUploadStatus polls st1 reqid h).
Proof.
  intros (fs1 & Hk & Hres) [Hcount Hothers] Hdirs.
  assert (Hdel : openFiles (deleteFile st1 h) !! h = None
                 /\ onlyAt h st0 (deleteFile st1 h)
                 /\ openDirs (deleteFile st1 h) = openDirs st0).
  { cbn. rewrite lookup_delete_eq. split; [reflexivity |]. split; [| exact Hdirs].
    split; [exact Hcount |]. intros h' Hne. cbn.
    rewrite lookup_delete_ne by congruence. apply Hothers, Hne. }
  destruct polls; cbn [checkUploadStatus]; rewrite Hk.
  all: destruct (uploadComplete fs1); [split; [exact I | exact Hdel] |].
  all: destruct Hres as [? | Hres]; [discriminate |].
  all: rewrite bool_decide_eq_true_2 by exact Hres; split; [exact I | exact Hdel].
Qed.

Lemma onlyAt_refl (h : Z) (st : session) : onlyAt h st st.
Proof. split; [reflexivity | auto]. Qed.

Lemma onCLOSE_releases (polls : nat) (st : session) (reqid : Z) (hb : list byte) :
  tablesDisjoint st ->
  List.length hb = 4%nat ->
  ensures (fun _ => True)
    (fun st' =>
       openFiles st' !! readUInt32BE hb = None
       /\ openDirs st' !! readUInt32BE hb = None
       /\ onlyAt (readUInt32BE hb) st st')
    (onCLOSE srv u polls st reqid hb).
Proof.
  intros Hdis Hlen. unfold onCLOSE. rewrite Hlen. cbn [Nat.eqb negb ensures bind out].
  split; [exact I |].
  destruct (openFiles st !! readUInt32BE hb) as [fs |] eqn:Hk.
  - assert (Hnodir : openDirs st !! readUInt32BE hb = None) by (apply Hdis; eauto).
    assert (Hdel : openFiles (deleteFile st (readUInt32BE hb)) !! readUInt32BE hb = None
                   /\ openDirs (deleteFile st (readUInt32BE hb)) !! readUInt32BE hb = None
                   /\ onlyAt (readUInt32BE hb) st (deleteFile st (readUInt32BE hb))).
    { cbn. rewrite lookup_delete_eq. split; [reflexivity |]. split; [exact Hnodir |].
      split; [reflexivity |]. intros h' Hne. cbn.
      now rewrite lookup_delete_ne by congruence. }
    unfold closeFile.
    destruct (hasFlag _ _);
      [| cbn [ensures bind out]; repeat (split; [exact I |]); exact Hdel].
    destruct (stream fs) as [chunks |]; [| exact I].
    destruct (uploadComplete fs);
      [cbn [ensures bind out]; repeat (split; [exact I |]); exact Hdel |].
    destruct (bool_decide _);
      [cbn [ensures bind out]; repeat (split; [exact I |]); exact Hdel |].
    apply ensures_bind.
    eapply ensures_weaken; [| | apply (uploadOnEnd_onlyAt _ _ _ _ fs Hk)]; [auto |].
    intros st1 (Hsettled & Honly & Hdirs). cbn [ensures]. split; [exact I |].
    eapply ensures_weaken;
      [| | apply (checkUploadStatus_releases polls st st1 reqid _ Hsettled Honly Hdirs)];
      [auto |].
    intros st2 (Hnone & Honly2 & Hdirs2). split; [exact Hnone |]. split; [| exact Honly2].
    now rewrite Hdirs2.
  - destruct (openDirs st !! readUInt32BE hb) as [ds |] eqn:Hd; cbn [ensures bind out failure].
    + split; [exact I |]. cbn. rewrite lookup_delete_eq. split; [exact Hk |].
      split; [reflexivity |]. split; [reflexivity |]. intros h' Hne. cbn.
      now rewrite lookup_delete_ne by congruence.
    + split; [exact I |]. split; [exact Hk |]. split; [exact Hd |]. apply onlyAt_refl.
Qed.

End Release.

(** X14: after CLOSE on a 4-byte handle the handle is in neither table,
    whatever it named and however the upload ended; the counter and every
    other handle are as before. *)
Theorem close_releases_the_handle :
  forall (W : Type) (E : world W) (srv : server) (u : user) (polls : nat)
         (st : session) (reqid : Z) (hb : list byte) (w : W) (tr : list step)
         (st' : session) (w' : W),
    tablesDisjoint st ->
    List.length hb = 4%nat ->
    exec E (handle srv u polls st (CLOSE reqid hb)) w = (tr, Done st', w') ->
    openFiles st' !! readUInt32BE hb = None
    /\ openDirs st' !! readUInt32BE hb = None
    /\ onlyAt (readUInt32BE hb) st st'.
Proof.
  intros W E srv u polls st reqid hb w tr st' w' Hdis Hlen Hrun.
  exact (proj2 (ensures_exec E _ _ _ (onCLOSE_releases srv u polls st reqid hb Hdis Hlen)
                  _ _ _ _ Hrun) st' eq_refl).
Qed.

Lemma close_releases_the_handle_witness :
  openFiles (deleteFile readSession 0) !! readUInt32BE handle0 = None
  /\ openDirs (deleteFile readSession 0) !! readUInt32BE handle0 = None
  /\ onlyAt (readUInt32BE handle0) readSession (deleteFile readSession 0).
Proof.
  apply (close_releases_the_handle scripted scriptedWorld demoServer alice 1%nat
           readSession 9 handle0 (storeAnswering [])
           [Replied (TrackActivity "alice");
            Replied (Emit (file_downloaded "users/alice/a.txt" "alice"));
            Replied (SftpStatus 9 OK)]
           (deleteFile readSession 0) (storeAnswering [])).
  - intros h [fs Hk]. reflexivity.
  - reflexivity.
  - reflexivity.
Defined.

(** ** Directories *)

Lemma readdir_again {W : Type} (E : world W) (srv : server) (u : user) (polls : nat)
    (st : session) (hb : list byte) (ds : dirState) (later : list Z) (w : W) :
  List.length hb = 4%nat ->
  openDirs st !! readUInt32BE hb = Some ds ->
  dirRead ds = true ->
  exec E (serve srv u polls st (map (fun r => READDIR r hb) later)) w
  = (flat_map (fun r => [Replied (TrackActivity (username u));
                         Replied (SftpStatus r EOF)]) later,
     Done st, w).
Proof.
  intros Hlen Hk Hread. induction later as [| r later IH]; [reflexivity |].
  cbn [map serve flat_map]. rewrite exec_bind. cbn [handle]. unfold onREADDIR.
  rewrite Hlen, Hk, Hread. cbn [Nat.eqb negb bind out exec]. rewrite IH. reflexivity.
Qed.

(** X15: the first READDIR on a directory handle answers with the
    entries of its listing (one per name, in order); every READDIR after it
    on the same handle answers EOF and leaves the session as it is.  No
    store command is sent. *)
Theorem readdir_lists_once_then_eof :
  forall (W : Type) (E : world W) (srv : server) (u : user) (polls : nat)
         (st : session) (reqid : Z) (hb : list byte) (ds : dirState) (later : list Z)
         (w : W),
    List.length hb = 4%nat ->
    openDirs st !! readUInt32BE hb = Some ds ->
    dirRead ds = false ->
    dirFullname ds <> "" ->
    exec E (serve srv u polls st (READDIR reqid hb :: map (fun r => READDIR r hb) later)) w
    = (Replied (TrackActivity (username u))
       :: Replied (SftpName reqid
                     (removeDuplicates ∅
                        (map (listingEntry (dirFullname ds)) (listings ds))))
       :: flat_map (fun r => [Replied (TrackActivity (username u));
                              Replied (SftpStatus r EOF)]) later,
       Done (withDirs st (<[ readUInt32BE hb := setDirRead ds ]> (openDirs st))), w).
Proof.
  intros W E srv u polls st reqid hb ds later w Hlen Hk Hread Hne.
  cbn [serve]. rewrite exec_bind. cbn [handle]. unfold onREADDIR.
  rewrite Hlen, Hk, Hread. cbn [Nat.eqb negb bind out exec].
  rewrite exec_bind, (named_prefix_lists_store_entries E reqid (setDirRead ds) w Hne).
  cbn [exec app].
  rewrite (readdir_again E srv u polls _ hb (setDirRead ds) later w Hlen);
    [reflexivity | | reflexivity].
  cbn. apply lookup_insert_eq.
Qed.

(** X16: when OPENDIR of a directory other than the root finds that the
    last upload is less than 10 s old, it waits one second and lists the
    prefix again; the answer and the listing kept under the handle come
    from the second listing alone (NO_SUCH_FILE when it is empty). *)
Theorem opendir_lists_again_after_an_upload :
  forall (W : Type) (E : world W) (srv : server) (u : user) (st : session) (reqid : Z)
         (dirPath : string) (w w1 w2 : W) (first fresh : s3response),
    let fullname := mapKey (path u) dirPath in
    accessControl srv (username u) dirPath = true ->
    dirPath <> "/" ->
    worldSend E w (ListObjectsV2 (bucketName srv) fullname) = (Resolved first, w1) ->
    worldNow E w1 - lastUploadTime st < 10000 ->
    worldSend E (worldSleep E w1 1000) (ListObjectsV2 (bucketName srv) fullname)
    = (Resolved fresh, w2) ->
    exists (answer : output) (st' : session),
      exec E (onOPENDIR srv u st reqid dirPath) w
      = ([Replied (TrackActivity (username u));
          Sent (ListObjectsV2 (bucketName srv) fullname);
          Slept 1000;
          Sent (ListObjectsV2 (bucketName srv) fullname);
          Replied answer], Done st', w2)
      /\ handleCount st' = handleCount st + 1
      /\ openFiles st' = openFiles st
      /\ match Contents fresh with
         | None | Some [] => answer = SftpStatus reqid NO_SUCH_FILE /\ openDirs st' = openDirs st
         | Some contents =>
             match writeUInt32BE (handleCount st) with
             | Some hb =>
                 answer = SftpHandle reqid hb
                 /\ openDirs st'
                    = <[ handleCount st :=
                           {| dirFullname := fullname;
                              listings := processDirectoryListings contents fullname;
                              dirUser := u;
                              dirRead := false |} ]> (openDirs st)
             | None => answer = SftpStatus reqid FAILURE /\ openDirs st' = openDirs st
             end
         end.
Proof.
  intros W E srv u st reqid dirPath w w1 w2 first fresh fullname Hallowed Hroot
         Hfirst Hstale Hfresh.
  unfold onOPENDIR, openDirectory. rewrite Hallowed. fold fullname.
  destruct (String.eqb_spec dirPath "/") as [? | _]; [contradiction |].
  cbn [negb andb bind out send exec]. rewrite Hfirst.
  cbn [bind now exec lastUploadTime bumpHandleCount].
  apply Z.ltb_lt in Hstale. rewrite Hstale. cbn [bind send exec]. rewrite Hfresh.
  cbn [bind exec]. rewrite andb_true_r.
  destruct (Contents fresh) as [[| c contents] |]; cbn [default from_option id length Nat.eqb].
  - eexists _, _. split; [reflexivity |]. repeat split; reflexivity.
  - destruct (writeUInt32BE (handleCount st)) as [hb |];
      eexists _, _; (split; [reflexivity |]); repeat split; reflexivity.
  - eexists _, _. split; [reflexivity |]. repeat split; reflexivity.
Qed.

(** ** STAT and the directory test of OPEN *)




(** X18: when the authentication listener accepts, the method was
    [password], name and password were given and not empty, the store
    resolved the HEAD of [auth/<name>_<password>], and the user it keeps
    has that name and the base path [<userBasePath>/<name>]; every store
    command of an SFTP session of that user stays in that home. *)
Theorem authenticated_sessions_stay_in_home :
  forall (W : Type) (E : world W) (srv : server) (method : Connection.authMethod)
         (name password : option string) (w w1 : W) (tr : list step) (user : Sftp.user),
    exec E (Connection.onAuthentication srv method name password) w = (tr, Done (Connection.Accept user), w1) ->
    method = Connection.password
    /\ name = Some (username user)
    /\ username user <> ""
    /\ path user = userBasePath (sftpConfig srv) ++ "/" ++ username user
    /\ (exists (pw : string) (response : s3response) (w0 : W),
           password = Some pw /\ pw <> ""
           /\ worldSend E w
                (HeadObject (bucketName srv) ("auth/" ++ username user ++ "_" ++ pw))
              = (Resolved response, w0))
    /\ forall (polls : nat) (rs : list request) (w2 w3 : W) (tr2 : list step)
              (res : outcome session),
         exec E (sftpSession srv user polls rs) w2 = (tr2, res, w3) ->
         Forall (commandInHome srv user) (storeCalls tr2).
Proof.
  intros W E srv method name pw w w1 tr user Hrun.
  destruct method; cbn [Connection.onAuthentication exec] in Hrun; try discriminate.
  unfold authenticateUser in Hrun.
  destruct name as [name |]; [| discriminate]. destruct pw as [pw |]; [| discriminate].
  destruct (String.eqb_spec name "") as [| Hname]; [discriminate |].
  destruct (String.eqb_spec pw "") as [| Hpw]; [discriminate |].
  cbn [orb bind send exec] in Hrun.
  destruct (worldSend E w _) as [[response | e] w0] eqn:Hsend; cbn [bind exec] in Hrun;
    [| discriminate].
  rewrite exec_bind in Hrun.
  destruct (exec E (ensureUserDirectory srv _) w0) as [[tr0 [[] | e]] w0'];
    cbn [exec] in Hrun; [| discriminate].
  injection Hrun as _ <- _. cbn [username path default from_option id].
  split; [reflexivity |]. split; [reflexivity |]. split; [exact Hname |].
  split; [reflexivity |]. split; [exists pw, response, w0; auto |].
  intros polls rs w2 w3 tr2 res Hsession.
  unfold sftpSession, setupUser in Hsession. cbn [username path] in Hsession.
  destruct (String.eqb_spec name ""); [contradiction |].
  destruct (String.eqb_spec (userBasePath (sftpConfig srv) ++ "/" ++ name) "") as [Hempty |].
  - destruct (userBasePath (sftpConfig srv)); discriminate.
  - cbn [bind out exec] in Hsession.
    destruct (exec E (serve srv _ polls newSession rs) w2) as [[tr3 res3] w4] eqn:Hserve.
    injection Hsession as <- <- <-. cbn [storeCalls].
    apply (stepInHome_storeCalls srv).
    set (user := {| username := name;
                    path := userBasePath (sftpConfig srv) ++ "/" ++ name |}) in *.
    exact (proj1 (ensures_exec E _ _ _
                    (serve_ensures srv user eq_refl polls rs _ _ (newSession_kept user))
                    _ _ _ _ Hserve)).
Qed.

Lemma authenticated_sessions_stay_in_home_witness :
  Forall (commandInHome demoServer alice)
    (storeCalls
       (exec scriptedWorld (sftpSession demoServer alice 1 [REMOVE 1 "/../bob/x"])
          (storeAnswering [acknowledged])).1.1).
Proof.
  destruct (exec scriptedWorld (sftpSession demoServer alice 1 [REMOVE 1 "/../bob/x"])
              (storeAnswering [acknowledged])) as [[tr2 res] w3] eqn:Hsession.
  refine (proj2 (proj2 (proj2 (proj2 (proj2
            (authenticated_sessions_stay_in_home scripted scriptedWorld demoServer
               Connection.password (Some "alice") (Some "secret")
               (storeAnswering [acknowledged; acknowledged; acknowledged])
               (storeAnswering [])
               _ alice eq_refl)))))
            1%nat [REMOVE 1 "/../bob/x"] (storeAnswering [acknowledged]) w3 tr2 res Hsession).
Defined.

(** X19: the credential key joins name and password with an underscore
    and nothing else: the name [a_b] with password [c] and the name [a]
    with password [b_c] are checked against the same object of the store. *)
Theorem credential_key_does_not_separate_name_from_password :
  forall (srv : server) (a b c : string),
    a <> "" -> c <> "" ->
    authenticateUser srv (Some (a ++ "_" ++ b)) (Some c)
    = authenticateUser srv (Some a) (Some (b ++ "_" ++ c)).
Proof.
  intros srv a b c Ha Hc. unfold authenticateUser.
  assert (H1 : String.eqb (a ++ "_" ++ b) "" = false)
    by (destruct a; [contradiction | reflexivity]).
  assert (H2 : String.eqb c "" = false) by (destruct c; [contradiction | reflexivity]).
  assert (H3 : String.eqb a "" = false) by (destruct a; [contradiction | reflexivity]).
  assert (H4 : String.eqb (b ++ "_" ++ c) "" = false) by (destruct b; reflexivity).
  rewrite H1, H2, H3, H4. cbn [orb].
  replace ("auth/" ++ (a ++ "_" ++ b) ++ "_" ++ c)
    with ("auth/" ++ a ++ "_" ++ (b ++ "_" ++ c)); [reflexivity |].
  f_equal. rewrite !append_assoc. reflexivity.
Qed.

Lemma credential_key_does_not_separate_name_from_password_witness :
  authenticateUser demoServer (Some "ann_b") (Some "c")
  = authenticateUser demoServer (Some "ann") (Some "b_c").
Proof.
  apply (credential_key_does_not_separate_name_from_password demoServer "ann" "b" "c");
    discriminate.
Defined.

(** ** Login *)

Lemma createDefaultSubdirectories_runs {W : Type} (E : world W) (srv : server)
    (name : string) (dirs : list string) :
  forall w : W,
    exists (tr : list step) (w' : W),
      exec E (createDefaultSubdirectories srv name dirs) w = (tr, Done tt, w')
      /\ (length tr <= length dirs)%nat
      /\ Forall (fun s => exists dirName : string,
                    In dirName dirs
                    /\ s = Sent (PutObject (bucketName srv)
                                   (userBasePath (sftpConfig srv) ++ "/" ++ name ++ "/"
                                    ++ dirName ++ "/.directory")
                                   (list_byte_of_string
                                      ("Directory marker for " ++ dirName ++ " folder"))
                                   None (Some "application/x-directory"))) tr.
Proof.
  induction dirs as [| dirName rest IH]; intros w.
  - exists [], w. repeat split; [cbn; lia | constructor].
  - cbn [createDefaultSubdirectories bind send exec].
    destruct (worldSend E w _) as [[response | e] w0].
    + cbn [bind]. destruct (IH w0) as (tr & w' & Hrun & Hlen & Hall). rewrite Hrun.
      exists (Sent (PutObject (bucketName srv)
                      (userBasePath (sftpConfig srv) ++ "/" ++ name ++ "/" ++ dirName
                       ++ "/.directory")
                      (list_byte_of_string ("Directory marker for " ++ dirName ++ " folder"))
                      None (Some "application/x-directory")) :: tr), w'.
      split; [reflexivity |]. split; [cbn; lia |]. constructor.
      * exists dirName. split; [left; reflexivity | reflexivity].
      * eapply List.Forall_impl; [| exact Hall]. intros s (d & Hd & ->).
        exists d. split; [right; exact Hd | reflexivity].
    + cbn [bind exec]. eexists _, w0. split; [reflexivity |]. split; [cbn; lia |].
      constructor; [| constructor]. exists dirName. split; [left; reflexivity | reflexivity].
Qed.

(** X20: for a name and a password that are not empty, the listener
    sends the HEAD of [auth/<name>_<password>] first; if the store rejects
    it the client is rejected and nothing else is sent; if the store
    resolves it the client is accepted with the home [<userBasePath>/<name>],
    whatever the store answers to the markers of the default directories
    that are put in between (at most one per configured directory). *)
Theorem login_follows_the_credential_object :
  forall (W : Type) (E : world W) (srv : server) (name pw : string) (w : W),
    name <> "" ->
    pw <> "" ->
    let head := HeadObject (bucketName srv) ("auth/" ++ name ++ "_" ++ pw) in
    match worldSend E w head with
    | (Resolved _, w0) =>
        exists (tr : list step) (w1 : W),
          exec E (Connection.onAuthentication srv Connection.password (Some name) (Some pw)) w
          = (Sent head :: tr,
             Done (Connection.Accept
                     {| username := name;
                        path := userBasePath (sftpConfig srv) ++ "/" ++ name |}), w1)
          /\ (length tr <= length (defaultSubdirectories (sftpConfig srv)))%nat
          /\ Forall (isMarkerPut srv name) tr
    | (Rejected _, w0) =>
        exec E (Connection.onAuthentication srv Connection.password (Some name) (Some pw)) w
        = ([Sent head], Done Connection.Reject, w0)
    end.
Proof.
  intros W E srv name pw w Hname Hpw head.
  unfold Connection.onAuthentication, authenticateUser.
  destruct (String.eqb_spec name ""); [contradiction |].
  destruct (String.eqb_spec pw ""); [contradiction |].
  cbn [orb bind send exec]. fold head.
  destruct (worldSend E w head) as [[response | e] w0]; [| reflexivity].
  cbn [bind default from_option id]. rewrite exec_bind. unfold ensureUserDirectory.
  destruct (createDefaultSubdirs (sftpConfig srv)).
  - destruct (createDefaultSubdirectories_runs E srv name
                (defaultSubdirectories (sftpConfig srv)) w0)
      as (tr & w1 & Hrun & Hlen & Hall).
    rewrite Hrun. cbn [exec]. exists tr, w1. rewrite app_nil_r.
    split; [reflexivity |]. split; [exact Hlen | exact Hall].
  - cbn [exec app]. exists [], w0. split; [reflexivity |]. split; [cbn; lia | constructor].
Qed.

Lemma login_follows_the_credential_object_witness :
  exec scriptedWorld
    (Connection.onAuthentication demoServer Connection.password (Some "alice")
       (Some "secret")) (storeAnswering [Rejected "NotFound"])
  = ([Sent (HeadObject "uploads" "auth/alice_secret")], Done Connection.Reject,
     storeAnswering []).
Proof.
  apply (login_follows_the_credential_object scripted scriptedWorld demoServer
           "alice" "secret" (storeAnswering [Rejected "NotFound"])); discriminate.
Defined.

(** X21: an OPEN with the WRITE flag of a name under [/ledgers] or
    [/invoices] (letter case apart, one trailing separator removed) that
    does not end in [.pdf] is answered PERMISSION_DENIED; no store command
    is sent and the session is unchanged, whatever the access policy is. *)
Theorem open_for_write_checks_the_file_type :
  forall (W : Type) (E : world W) (srv : server) (u : user) (st : session) (reqid : Z)
         (filename : string) (flags : Z) (w : W),
    hasFlag flags WRITE = true ->
    let lower := Js.toLowerCase (stripTrailingSeparator filename) in
    (Js.startsWith lower "/ledgers/" || Js.startsWith lower "/invoices/"
     || String.eqb lower "/ledgers" || String.eqb lower "/invoices") = true ->
    Js.endsWith lower ".pdf" = false ->
    exec E (onOPEN srv u st reqid filename flags) w
    = ([Replied (TrackActivity (username u)); Replied (SftpStatus reqid PERMISSION_DENIED)],
       Done st, w).
Proof.
  intros W E srv u st reqid filename flags w Hwrite lower Hdir Hpdf.
  unfold onOPEN. destruct (negb (accessControl _ _ _)); [reflexivity |].
  rewrite Hwrite, isFileTypeAllowed_rule. cbv zeta. fold lower. rewrite Hdir, Hpdf.
  reflexivity.
Qed.

Lemma open_for_write_checks_the_file_type_witness :
  exec scriptedWorld (onOPEN demoServer alice newSession 1 "/Ledgers/notes.txt" 26)
    (storeAnswering [])
  = ([Replied (TrackActivity "alice"); Replied (SftpStatus 1 PERMISSION_DENIED)],
     Done newSession, storeAnswering []).
Proof.
  apply (open_for_write_checks_the_file_type scripted scriptedWorld demoServer alice
           newSession 1 "/Ledgers/notes.txt" 26 (storeAnswering [])); reflexivity.
Defined.

Lemma closed_handles_stay_closed_witness :
  openFiles
    (withFiles (bumpHandleCount (withLastUploadTime (bumpHandleCount newSession)
                                   1700000100000))
       (<[ 1 := newWriteState 26 "/ledgers/feb.pdf" "users/alice/ledgers/feb.pdf" ]> ∅))
    !! readUInt32BE handle0 = None.
Proof.
  refine (proj1
            (closed_handles_stay_closed scripted scriptedWorld demoServer alice 1%nat
               [OPEN 1 "/ledgers/jan.pdf" 26; WRITEREQ 2 handle0 0 [x25; x50];
                CLOSE 3 handle0]
               [OPEN 4 "/ledgers/feb.pdf" 26]
               (storeAnswering [listed []; acknowledged; listed []])
               _ _ _ _ _ _ handle0 eq_refl _ _ _ _ _)).
  - vm_compute. reflexivity.
  - vm_compute. reflexivity.
  - vm_compute. reflexivity.
  - vm_compute. reflexivity.
  - vm_compute. reflexivity.
Defined.

Lemma readdir_lists_once_then_eof_witness :
  exec scriptedWorld
    (serve demoServer alice 1
       (withDirs newSession
          (<[ 0 := {| dirFullname := "users/alice/docs";
                      listings := [object "users/alice/docs/a.txt" 3];
                      dirUser := alice; dirRead := false |} ]> ∅))
       [READDIR 1 handle0; READDIR 2 handle0; READDIR 3 handle0])
    (storeAnswering [])
  = ([Replied (TrackActivity "alice");
      Replied (SftpName 1
                 (removeDuplicates ∅
                    (map (listingEntry "users/alice/docs")
                       [object "users/alice/docs/a.txt" 3])));
      Replied (TrackActivity "alice"); Replied (SftpStatus 2 EOF);
      Replied (TrackActivity "alice"); Replied (SftpStatus 3 EOF)],
     Done (withDirs newSession
             (<[ 0 := {| dirFullname := "users/alice/docs";
                         listings := [object "users/alice/docs/a.txt" 3];
                         dirUser := alice; dirRead := true |} ]> ∅)),
     storeAnswering []).
Proof.
  refine (eq_trans
            (readdir_lists_once_then_eof scripted scriptedWorld demoServer alice 1%nat
               (withDirs newSession
                  (<[ 0 := {| dirFullname := "users/alice/docs";
                              listings := [object "users/alice/docs/a.txt" 3];
                              dirUser := alice; dirRead := false |} ]> ∅))
               1 handle0 _ [2; 3] (storeAnswering []) eq_refl eq_refl eq_refl _) _).
  - discriminate.
  - reflexivity.
Defined.

Lemma opendir_lists_again_after_an_upload_witness :
  exists (answer : output) (st' : session),
    exec scriptedWorld
      (onOPENDIR demoServer alice (withLastUploadTime writeSession 1700000099000) 5
         "/ledgers")
      (storeAnswering [listed []; listed [object "users/alice/ledgers/jan.pdf" 2]])
    = ([Replied (TrackActivity "alice");
        Sent (ListObjectsV2 "uploads" "users/alice/ledgers");
        Slept 1000;
        Sent (ListObjectsV2 "uploads" "users/alice/ledgers");
        Replied answer], Done st', {| answers := []; clock := 1700000101000 |})
    /\ answer = SftpHandle 5 [x00; x00; x00; x01].
Proof.
  destruct (opendir_lists_again_after_an_upload scripted scriptedWorld demoServer alice
              (withLastUploadTime writeSession 1700000099000) 5 "/ledgers"
              (storeAnswering [listed []; listed [object "users/alice/ledgers/jan.pdf" 2]])
              _ _ _ _ eq_refl ltac:(discriminate) eq_refl ltac:(vm_compute; reflexivity)
              eq_refl)
    as (answer & st' & Hrun & _ & _ & Hanswer).
  exists answer, st'. split; [exact Hrun | exact (proj1 Hanswer)].
Defined.


(* ===================================================================== *)
(** * Answers *)
(* ===================================================================== *)

(** ** No exception *)








(** ** The streams of the write handles *)














(* ===================================================================== *)
(** * Activity, renames and keys *)
(* ===================================================================== *)

(** ** Which requests count as activity *)

Lemma checkUploadStatus_notTracking (polls : nat) (st : session) (reqid h : Z) :
  ensures notTracking (fun _ => True) (checkUploadStatus polls st reqid h).
Proof.
  revert st. induction polls as [| polls IH]; intros st; cbn [checkUploadStatus].
  all: destruct (openFiles st !! h) as [fs |]; [| exact I].
  all: destruct (uploadComplete fs); [repeat split |].
  all: destruct (bool_decide _); [repeat split |].
  - exact I.
  - split; [exact I | apply IH].
Qed.

Lemma createDefaultSubdirectories_notTracking (srv : server) (name : string)
    (P : unit -> Prop) (dirs : list string) :
  P tt -> ensures notTracking P (createDefaultSubdirectories srv name dirs).
Proof.
  intros H. induction dirs as [| dirName rest IH];
    cbn [createDefaultSubdirectories ensures bind send]; [exact H |].
  split; [exact I |]. intros [r | e]; [exact IH | exact H].
Qed.

Ltac quiet_step :=
  lazymatch goal with
  | |- notTracking _ => exact I
  | |- True => exact I
  | |- ensures _ _ (checkUploadStatus _ _ _ _) =>
      eapply ensures_weaken; [| | apply checkUploadStatus_notTracking]; auto
  | |- ensures _ _ (createDefaultSubdirectories _ _ _) =>
      apply createDefaultSubdirectories_notTracking
  | |- ensures _ _ (match ?x with _ => _ end) => destruct x eqn:?
  | |- ensures _ _ (bind (match ?x with _ => _ end) _) => destruct x eqn:?
  | |- ensures _ _ _ =>
      first [ progress cbn [ensures bind out send now failure] | apply ensures_bind ]
  | |- _ /\ _ => split
  | |- forall _, _ => intro
  end.

Ltac quiet_auto := repeat quiet_step.

Lemma activityOf_quiet (tr : list step) : Forall notTracking tr -> activityOf tr = [].
Proof.
  induction 1 as [| s tr Hs Htr IH]; [reflexivity |].
  destruct s as [[] | |]; cbn [activityOf notTracking] in *; try exact IH. contradiction.
Qed.

Lemma handle_tracks (srv : server) (u : user) (polls : nat) (st : session) (r : request) :
  if tracked r
  then exists k : io session,
         handle srv u polls st r = Out (TrackActivity (username u)) k
         /\ ensures notTracking (fun _ => True) k
  else ensures notTracking (fun _ => True) (handle srv u polls st r).
Proof.
  destruct r; cbn [tracked handle].
  - eexists. split; [reflexivity |].
    unfold checkIfDirectory, handleFileOpenRead, handleFileOpenWrite. quiet_auto.
  - eexists. split; [reflexivity |]. unfold readFileFromS3. quiet_auto.
  - eexists. split; [reflexivity |]. quiet_auto.
  - eexists. split; [reflexivity |]. unfold openDirectory, ensureUserDirectory. quiet_auto.
  - eexists. split; [reflexivity |]. unfold listDirectoryContents. quiet_auto.
  - eexists. split; [reflexivity |]. unfold closeFile, uploadOnEnd. quiet_auto.
  - unfold onREMOVE, deleteFileFromS3. quiet_auto.
  - unfold onMKDIR. quiet_auto.
  - unfold onRMDIR. quiet_auto.
  - unfold onRENAME, renameInS3. quiet_auto.
  - unfold onSTAT, getFileStats. quiet_auto.
  - unfold onLSTAT, getFileStats. quiet_auto.
  - unfold onREALPATH, resolvePath. quiet_auto.
Qed.

(** X27: of the thirteen requests of a session only OPEN, READ, WRITE,
    OPENDIR, READDIR and CLOSE count as activity of the user: each of them
    calls [_trackUserActivity] once, with the name of the user, and REMOVE,
    MKDIR, RMDIR, RENAME, STAT, LSTAT and REALPATH never do. *)
Theorem activity_is_tracked_for_six_requests :
  forall (W : Type) (E : world W) (srv : server) (u : user) (polls : nat)
         (st : session) (rs : list request) (w : W) (tr : list step)
         (st' : session) (w' : W),
    exec E (serve srv u polls st rs) w = (tr, Done st', w') ->
    activityOf tr = map (fun _ => username u) (List.filter tracked rs).
Proof.
  intros W E srv u polls st rs. revert st.
  induction rs as [| r rs IH]; intros st w tr st' w' Hrun.
  - cbn in Hrun. injection Hrun as <- _ _. reflexivity.
  - cbn [serve] in Hrun. rewrite exec_bind in Hrun.
    destruct (exec E (handle srv u polls st r) w) as [[tr1 [st1 | e]] w1] eqn:Hrun1;
      [| discriminate].
    destruct (exec E (serve srv u polls st1 rs) w1) as [[tr2 res2] w2] eqn:Hrun2.
    injection Hrun as <- -> <-.
    assert (Happ : forall a b, activityOf (a ++ b) = (activityOf a ++ activityOf b)%list).
    { intros a b. induction a as [| s a IHa]; [reflexivity |].
      destruct s as [[] | |]; cbn [app activityOf]; try exact IHa. now rewrite IHa. }
    rewrite Happ, (IH _ _ _ _ _ Hrun2).
    pose proof (handle_tracks srv u polls st r) as Hr.
    cbn [List.filter]. destruct (tracked r).
    + destruct Hr as (k & Hk & Hquiet). rewrite Hk in Hrun1. cbn [exec] in Hrun1.
      destruct (exec E k w) as [[tr0 r0] w0] eqn:Hrun0. injection Hrun1 as <- -> <-.
      cbn [activityOf map app].
      now rewrite (activityOf_quiet _ (proj1 (ensures_exec E _ _ _ Hquiet _ _ _ _ Hrun0))).
    + now rewrite (activityOf_quiet _ (proj1 (ensures_exec E _ _ _ Hr _ _ _ _ Hrun1))).
Qed.

Lemma activity_is_tracked_for_six_requests_witness :
  activityOf
    [Replied (TrackActivity "alice"); Replied (SftpStatus 1 FAILURE);
     Replied (SftpStatus 2 PERMISSION_DENIED);
     Replied (Emit (directory_creation_blocked "alice" "/x" 1700000100000))]
  = ["alice"].
Proof.
  exact (activity_is_tracked_for_six_requests scripted scriptedWorld demoServer alice 1%nat
           newSession [READDIR 1 handle0; MKDIR 2 "/x"] (storeAnswering []) _
           newSession (storeAnswering []) eq_refl).
Defined.

(** X28: a RENAME of a path that is not protected copies, then deletes.
    If the store rejects the copy, nothing is deleted and the answer is
    FAILURE; if it rejects the delete after the copy, the answer is FAILURE
    although the new object exists; only when both are resolved the event
    is emitted and the answer is OK.  The session is unchanged in all
    three cases. *)
Theorem rename_is_copy_then_delete :
  forall (W : Type) (E : world W) (srv : server) (u : user) (st : session) (reqid : Z)
         (oldPath newPath : string) (w : W),
    isProtectedPath oldPath = false ->
    let old := mapKey (path u) oldPath in
    let new := mapKey (path u) newPath in
    let copy := CopyObject (bucketName srv) new (bucketName srv ++ "/" ++ old) in
    let delete := DeleteObject (bucketName srv) old in
    match worldSend E w copy with
    | (Rejected _, w1) =>
        exec E (onRENAME srv u st reqid oldPath newPath) w
        = ([Sent copy; Replied (SftpStatus reqid FAILURE)], Done st, w1)
    | (Resolved _, w1) =>
        match worldSend E w1 delete with
        | (Rejected _, w2) =>
            exec E (onRENAME srv u st reqid oldPath newPath) w
            = ([Sent copy; Sent delete; Replied (SftpStatus reqid FAILURE)], Done st, w2)
        | (Resolved _, w2) =>
            exec E (onRENAME srv u st reqid oldPath newPath) w
            = ([Sent copy; Sent delete;
                Replied (Emit (file_renamed new old (username u)));
                Replied (SftpStatus reqid OK)], Done st, w2)
        end
    end.
Proof.
  intros W E srv u st reqid oldPath newPath w Hfree old new copy delete.
  unfold onRENAME, renameInS3. rewrite Hfree. fold old new. fold copy. fold delete.
  cbn [bind send exec].
  destruct (worldSend E w copy) as [[r | e] w1]; [| reflexivity].
  cbn [bind send exec].
  destruct (worldSend E w1 delete) as [[r' | e] w2]; reflexivity.
Qed.

Lemma rename_is_copy_then_delete_witness :
  exec scriptedWorld (onRENAME demoServer alice newSession 3 "/a.txt" "/b.txt")
    (storeAnswering [acknowledged; Rejected "AccessDenied"])
  = ([Sent (CopyObject "uploads" "users/alice/b.txt" "uploads/users/alice/a.txt");
      Sent (DeleteObject "uploads" "users/alice/a.txt");
      Replied (SftpStatus 3 FAILURE)], Done newSession, storeAnswering []).
Proof.
  exact (rename_is_copy_then_delete scripted scriptedWorld demoServer alice newSession 3
           "/a.txt" "/b.txt" (storeAnswering [acknowledged; Rejected "AccessDenied"])
           eq_refl).
Defined.

(** ** Keys *)

Lemma includes_backslash_cons (c : ascii) (s : string) :
  Js.includes (String c s) "\" = Ascii.eqb "\"%char c || Js.includes s "\".
Proof.
  cbn [Js.includes Js.startsWith]. destruct s; cbn [Js.startsWith];
    now rewrite andb_true_r.
Qed.

Lemma replaceBackslash_free (s : string) :
  Js.includes (Js.replaceBackslash s) "\" = false.
Proof.
  induction s as [| c s IH]; [reflexivity |].
  cbn [Js.replaceBackslash]. rewrite includes_backslash_cons, IH, orb_false_r.
  unfold Js.backslash, Js.slash.
  destruct (Ascii.eqb_spec c "\"%char) as [-> | Hne]; [reflexivity |].
  apply Ascii.eqb_neq. congruence.
Qed.

Lemma includes_backslash_append (a b : string) :
  Js.includes (a ++ b) "\" = Js.includes a "\" || Js.includes b "\".
Proof.
  induction a as [| c a IH].
  - change ("" ++ b) with b. destruct b; reflexivity.
  - change (String c a ++ b) with (String c (a ++ b)).
    rewrite !includes_backslash_cons, IH. now rewrite orb_assoc.
Qed.

(** X29: the key [_mapKey] gives holds no backslash when the base path of
    the user holds none: whatever separators the client sends, the store
    sees slashes only. *)
Theorem mapped_keys_have_no_backslash :
  forall userPath filename : string,
    Js.includes userPath "\" = false ->
    Js.includes (mapKey userPath filename) "\" = false.
Proof.
  intros userPath filename Hpath.
  assert (Hclean : Js.includes (cleanPath filename) "\" = false).
  { unfold cleanPath. set (p := Js.replaceBackslash (Path.normalize _)).
    assert (Hp : Js.includes p "\" = false) by apply replaceBackslash_free.
    destruct (Js.startsWith p "/"); [exact Hp |].
    now rewrite includes_backslash_append, Hp. }
  unfold mapKey.
  assert (Hup : Js.includes (if String.eqb userPath "" then "users" else userPath) "\"
                = false) by (destruct (String.eqb userPath ""); [reflexivity | exact Hpath]).
  destruct (_ && _); now rewrite includes_backslash_append, Hup, Hclean.
Qed.

Lemma mapped_keys_have_no_backslash_witness :
  Js.includes (mapKey "users/alice" "\ledgers\..\jan.pdf") "\" = false.
Proof.
  exact (mapped_keys_have_no_backslash "users/alice" "\ledgers\..\jan.pdf" eq_refl).
Defined.

(* ===================================================================== *)
(** * Idle tracking *)
(* ===================================================================== *)

Import Connection.

(** ** Timers *)


Lemma registered_trackUserActivity (username : string) (now : Z) (t : tracking) :
  timersRegistered t -> timersRegistered (trackUserActivity username now t).
Proof.
  intros Hreg. unfold trackUserActivity.
  destruct (String.eqb username ""); [exact Hreg |].
  intros id tm Harmed.
  assert (Hfresh : forall id', is_Some (armed t !! id') -> (id' < timerCount t)%nat).
  { intros id' [tm' H']. now destruct (Hreg _ _ H') as (_ & Hlt & _). }
  destruct (idleTimers t !! username) as [old |] eqn:Hold; cbn in Harmed |- *.
  - apply lookup_insert_Some in Harmed as [[<- <-] | [Hne Harmed]]; cbn.
    + rewrite !lookup_insert_eq. split; [reflexivity | split; [lia |]].
      eexists. split; [reflexivity | reflexivity].
    + apply lookup_delete_Some in Harmed as [Hne' Harmed].
      destruct (Hreg _ _ Harmed) as (Hi & Hlt & info & Hinfo & Hdue).
      assert (Huser : timerUser tm <> username).
      { intros Heq. rewrite Heq in Hi. rewrite Hold in Hi. congruence. }
      rewrite !lookup_insert_ne by congruence.
      split; [exact Hi | split; [lia |]]. exists info. split; assumption.
  - apply lookup_insert_Some in Harmed as [[<- <-] | [Hne Harmed]]; cbn.
    + rewrite !lookup_insert_eq. split; [reflexivity | split; [lia |]].
      eexists. split; [reflexivity | reflexivity].
    + destruct (Hreg _ _ Harmed) as (Hi & Hlt & info & Hinfo & Hdue).
      assert (Huser : timerUser tm <> username).
      { intros Heq. rewrite Heq in Hi. rewrite Hold in Hi. congruence. }
      rewrite !lookup_insert_ne by congruence.
      split; [exact Hi | split; [lia |]]. exists info. split; assumption.
Qed.



Lemma foldr_delete_lookup (l : list (string * nat)) (a : gmap nat timer) (id : nat) :
  foldr (fun entry a => delete entry.2 a) a l !! id
  = if bool_decide (id ∈ map snd l) then None else a !! id.
Proof.
  induction l as [| [name i] l IH]; [reflexivity |].
  cbn [foldr map snd]. destruct (decide (i = id)) as [-> | Hne].
  - rewrite lookup_delete_eq. rewrite bool_decide_eq_true_2; [reflexivity | apply list_elem_of_here].
  - rewrite lookup_delete_ne by exact Hne. rewrite IH.
    rewrite (bool_decide_ext (id ∈ i :: map snd l) (id ∈ map snd l)); [reflexivity |].
    rewrite elem_of_cons. split; [intros [? | ?]; [congruence | assumption] | auto].
Qed.

Lemma armed_stop (t : tracking) :
  timersRegistered t -> armed (stop t) = ∅.
Proof.
  intros Hreg. apply map_eq. intros id. rewrite lookup_empty. unfold stop. cbn [armed].
  rewrite foldr_delete_lookup. case_bool_decide as Hin; [reflexivity |].
  destruct (armed t !! id) as [tm |] eqn:Htm; [| reflexivity].
  exfalso. apply Hin. destruct (Hreg _ _ Htm) as (Hi & _).
  apply list_elem_of_fmap. exists (timerUser tm, id). split; [reflexivity |].
  now apply elem_of_map_to_list.
Qed.


(** X24: under the invariant of X23 a [user-idle] event is emitted only
    when at least 60 s have passed since the activity recorded for the user
    (the clock being read once per call); it is the only event of that
    firing, and the timer of the user is gone from [idleTimers]. *)
Theorem idle_only_after_a_minute :
  forall (t t' : tracking) (id : nat) (now : Z) (notices : list notice)
         (username : string) (timestamp : Z),
    timersRegistered t ->
    fireTimer id now t = (notices, t') ->
    In (user_idle username timestamp) notices ->
    timestamp = now
    /\ notices = [user_idle username now]
    /\ (exists info : connectionInfo,
          userConnections t !! username = Some info
          /\ lastActivity info + 60000 <= now)
    /\ idleTimers t' !! username = None
    /\ armed t' !! id = None.
Proof.
  intros t t' id now notices username timestamp Hreg Hfire Hin.
  unfold fireTimer in Hfire.
  destruct (armed t !! id) as [tm |] eqn:Htm;
    [| inversion Hfire; subst; contradiction].
  destruct (due tm <=? now) eqn:Hdue; [| inversion Hfire; subst; contradiction].
  unfold handleIdleConnection in Hfire. inversion Hfire; subst; clear Hfire.
  destruct Hin as [[= <- <-] | []].
  destruct (Hreg _ _ Htm) as (_ & _ & info & Hinfo & Heq).
  apply Z.leb_le in Hdue. cbn.
  split; [reflexivity | split; [reflexivity | split; [| split]]].
  - exists info. split; [exact Hinfo | lia].
  - apply lookup_delete_eq.
  - apply lookup_delete_eq.
Qed.

(** X25: under the invariant of X23 [stop] leaves no timer armed and
    both maps empty: nothing fires after it. *)
Theorem stop_cancels_every_timer :
  forall t : tracking,
    timersRegistered t ->
    armed (stop t) = ∅ /\ idleTimers (stop t) = ∅ /\ userConnections (stop t) = ∅
    /\ forall (id : nat) (now : Z), fireTimer id now (stop t) = ([], stop t).
Proof.
  intros t Hreg. pose proof (armed_stop t Hreg) as Harmed.
  repeat split; try exact Harmed.
  intros id now. unfold fireTimer. rewrite Harmed, lookup_empty. reflexivity.
Qed.

(** X26: [disconnectAllUsers] empties both maps without cancelling a
    timer: a timer that was armed still fires when it is due and emits
    [user-idle] for a user the maps no longer know. *)
Theorem disconnectAllUsers_leaves_timers_armed :
  forall (clients : option (list client)) (t : tracking) (id : nat) (tm : timer) (now : Z),
    armed t !! id = Some tm ->
    due tm <= now ->
    let t' := (disconnectAllUsers clients t).2 in
    userConnections t' = ∅
    /\ idleTimers t' = ∅
    /\ (fireTimer id now t').1 = [user_idle (timerUser tm) now].
Proof.
  intros clients t id tm now Harmed Hdue. cbn.
  repeat split. unfold fireTimer. cbn [armed]. rewrite Harmed.
  apply Z.leb_le in Hdue. rewrite Hdue. reflexivity.
Qed.

Lemma registered_noTracking : timersRegistered noTracking.
Proof. intros id tm H. cbn in H. rewrite lookup_empty in H. discriminate. Qed.


Lemma idle_only_after_a_minute_witness :
  exists info : connectionInfo,
    userConnections (trackUserActivity "alice" 5 noTracking) !! "alice" = Some info
    /\ lastActivity info + 60000 <= 70000.
Proof.
  refine (proj1 (proj2 (proj2
            (idle_only_after_a_minute (trackUserActivity "alice" 5 noTracking) _ 0%nat 70000
               [user_idle "alice" 70000] "alice" 70000
               (registered_trackUserActivity "alice" 5 noTracking registered_noTracking)
               eq_refl _)))).
  left. reflexivity.
Defined.

Lemma stop_cancels_every_timer_witness :
  armed (stop (trackUserActivity "bob" 9 (trackUserActivity "alice" 5 noTracking))) = ∅.
Proof.
  refine (proj1 (stop_cancels_every_timer _ _)).
  apply registered_trackUserActivity, registered_trackUserActivity, registered_noTracking.
Defined.

Lemma disconnectAllUsers_leaves_timers_armed_witness :
  (fireTimer 0 70000
     (disconnectAllUsers (Some [Some "alice"]) (trackUserActivity "alice" 5 noTracking)).2).1
  = [user_idle "alice" 70000].
Proof.
  refine (proj2 (proj2
            (disconnectAllUsers_leaves_timers_armed (Some [Some "alice"])
               (trackUserActivity "alice" 5 noTracking) 0%nat
               {| timerUser := "alice"; due := 60005 |} 70000 _ _))).
  - reflexivity.
  - cbn. lia.
Defined.
